(** * luma-ai-mcp-server: the request/response translation layer

    A shallow embedding of [src/luma_ai_mcp_server/server.py]: the HTTP
    gateway [_make_luma_request] and the ten tool handlers, followed by the
    properties of the specification stated over them.

    Python values are a small inductive type; a [dict] is an association
    list in insertion order (the order is observable through [str()]).
    Handlers run in a state-and-exception monad whose state is the trace of
    observable effects (network attempts, pauses, log records). *)

From Stdlib Require Import String Ascii List ZArith Bool Lia.
From Stdlib Require Import Numbers.DecimalString.
Import ListNotations.
Open Scope string_scope.
Open Scope Z_scope.
Set Warnings "-register-all".

(** ** Python values *)

Module Py.

(** JSON-shaped Python values.  A float is carried by its [repr] text: the
    program never computes with floats, it only tests and prints them.  A
    text is the sequence of its code points, one [ascii] each, so the texts
    of the model are those of code points below 256. *)
Inductive pyval : Type :=
| PNone
| PBool (b : bool)
| PInt (z : Z)
| PFloat (repr : string)
| PStr (s : string)
| PList (l : list pyval)
| PDict (d : list (string * pyval)).

Definition dict : Type := list (string * pyval).

(** The line feed, the double quote and the characters [repr] treats apart. *)
Definition LF : ascii := "010"%char.
Definition TAB : ascii := "009"%char.
Definition CR : ascii := "013"%char.
Definition DQUOTE : ascii := "034"%char.
Definition SQUOTE : ascii := "039"%char.
Definition BACKSLASH : ascii := "092"%char.

Definition nl : string := String LF EmptyString.

(** [bool(v)] *)
Definition truthy (v : pyval) : bool :=
  match v with
  | PNone => false
  | PBool b => b
  | PInt z => negb (z =? 0)
  | PFloat r => negb (String.eqb r "0.0" || String.eqb r "-0.0")
  | PStr s => negb (String.eqb s "")
  | PList l => match l with [] => false | _ => true end
  | PDict d => match d with [] => false | _ => true end
  end.

(** [type(v).__name__] *)
Definition type_name (v : pyval) : string :=
  match v with
  | PNone => "NoneType"
  | PBool _ => "bool"
  | PInt _ => "int"
  | PFloat _ => "float"
  | PStr _ => "str"
  | PList _ => "list"
  | PDict _ => "dict"
  end.

Definition is_dict (v : pyval) : bool :=
  match v with PDict _ => true | _ => false end.

Definition is_list (v : pyval) : bool :=
  match v with PList _ => true | _ => false end.

(** [v == s] for a string literal [s]: only an equal [str] compares equal. *)
Definition eq_str (v : pyval) (s : string) : bool :=
  match v with PStr x => String.eqb x s | _ => false end.

(** [v in [s1, ..., sn]] for a list of string literals. *)
Definition in_strs (v : pyval) (l : list string) : bool :=
  existsb (eq_str v) l.

(** *** Dictionaries *)

(** [d.get(k)] as an option: [None] when the key is absent. *)
Fixpoint lookup (k : string) (d : dict) : option pyval :=
  match d with
  | [] => None
  | (k', v) :: d' => if String.eqb k k' then Some v else lookup k d'
  end.

(** [k in d] *)
Definition mem (k : string) (d : dict) : bool :=
  match lookup k d with Some _ => true | None => false end.

(** [d.get(k, default)] *)
Definition get (k : string) (default : pyval) (d : dict) : pyval :=
  match lookup k d with Some v => v | None => default end.

(** [d[k] = v]: an existing key keeps its position, a new key goes last. *)
Fixpoint set (k : string) (v : pyval) (d : dict) : dict :=
  match d with
  | [] => [(k, v)]
  | (k', v') :: d' =>
      if String.eqb k k' then (k', v) :: d' else (k', v') :: set k v d'
  end.

Definition keys (d : dict) : list string := map fst d.

(** *** Strings *)

(** [t.startswith(s)] *)
Fixpoint startswith (s t : string) : bool :=
  match s, t with
  | EmptyString, _ => true
  | String a s', String b t' => Ascii.eqb a b && startswith s' t'
  | String _ _, EmptyString => false
  end.

(** [s in t] on strings *)
Fixpoint contains (s t : string) : bool :=
  startswith s t ||
  match t with
  | EmptyString => false
  | String _ t' => contains s t'
  end.

(** [sep.join(l)] *)
Fixpoint join (sep : string) (l : list string) : string :=
  match l with
  | [] => ""
  | [x] => x
  | x :: l' => x ++ sep ++ join sep l'
  end.

Fixpoint has_char (c : ascii) (s : string) : bool :=
  match s with
  | EmptyString => false
  | String a s' => Ascii.eqb a c || has_char c s'
  end.

Definition hex_digit (n : nat) : ascii :=
  match n with
  | 0%nat => "0" | 1%nat => "1" | 2%nat => "2" | 3%nat => "3"
  | 4%nat => "4" | 5%nat => "5" | 6%nat => "6" | 7%nat => "7"
  | 8%nat => "8" | 9%nat => "9" | 10%nat => "a" | 11%nat => "b"
  | 12%nat => "c" | 13%nat => "d" | 14%nat => "e" | _ => "f"
  end%char.

(** [str.isprintable] on one code point below 256: all but the controls
    (0 to 31 and 127 to 159), the no-break space (160) and the soft hyphen
    (173). *)
Definition printable (c : ascii) : bool :=
  let n := nat_of_ascii c in
  ((32 <=? n) && negb ((127 <=? n) && (n <=? 160)) && negb (n =? 173))%nat.

(** One character of [repr(str)] under the chosen quote [q]: a code point
    that is not printable and has no escape of its own is written as a
    backslash, an x and two hexadecimal digits. *)
Definition repr_char (q c : ascii) : string :=
  if Ascii.eqb c BACKSLASH then String BACKSLASH (String BACKSLASH "")
  else if Ascii.eqb c q then String BACKSLASH (String q "")
  else if Ascii.eqb c TAB then String BACKSLASH "t"
  else if Ascii.eqb c LF then String BACKSLASH "n"
  else if Ascii.eqb c CR then String BACKSLASH "r"
  else
    let n := nat_of_ascii c in
    if negb (printable c)
    then String BACKSLASH
           (String "x" (String (hex_digit (n / 16)) (String (hex_digit (n mod 16)) "")))
    else String c "".

Fixpoint repr_chars (q : ascii) (s : string) : string :=
  match s with
  | EmptyString => ""
  | String c s' => repr_char q c ++ repr_chars q s'
  end.

(** [repr(s)] for a [str]: single quotes unless the text has a single quote
    and no double quote. *)
Definition repr_str (s : string) : string :=
  let q := if has_char SQUOTE s && negb (has_char DQUOTE s) then DQUOTE else SQUOTE in
  String q (repr_chars q s ++ String q "").

(** [str(z)] for an [int] *)
Definition str_int (z : Z) : string := NilZero.string_of_int (Z.to_int z).

(** [repr(v)] *)
Fixpoint repr (v : pyval) : string :=
  match v with
  | PNone => "None"
  | PBool true => "True"
  | PBool false => "False"
  | PInt z => str_int z
  | PFloat r => r
  | PStr s => repr_str s
  | PList l => "[" ++ join ", " (map repr l) ++ "]"
  | PDict d =>
      "{" ++ join ", " (map (fun kv => repr_str (fst kv) ++ ": " ++ repr (snd kv)) d) ++ "}"
  end.

(** [str(v)], which is what an f-string field [{v}] prints. *)
Definition str (v : pyval) : string :=
  match v with
  | PStr s => s
  | _ => repr v
  end.

End Py.

(** ** Effects: the trace, exceptions, and the handler monad *)

Module Eff.
Import Py.

(** The exception classes the program tells apart: [ValueError] is what the
    gateway and the validations raise, [RequestError] is httpx's transport
    failure, [AttributeError] comes from [.get] on a value that is no dict. *)
Inductive exc_class : Type :=
| ValueError
| RequestError
| AttributeError
| OtherError.

(** An exception with the text [str(e)] gives. *)
Record exn : Type := Exn { exn_class : exc_class; exn_msg : string }.

Definition is_ValueError (e : exn) : bool :=
  match exn_class e with ValueError => true | _ => false end.

Definition is_RequestError (e : exn) : bool :=
  match exn_class e with RequestError => true | _ => false end.

Inductive level : Type := DEBUG | INFO | WARNING | ERROR.

(** What [client.request(method, url, headers=..., **kwargs)] is called with. *)
Record request : Type := Req {
  req_method : string;
  req_url : string;
  req_bearer : string;
  req_json : option pyval;
  req_params : option pyval
}.

Inductive event : Type :=
| Request (q : request)
| Close
| Sleep (seconds : Z)
| Log (lvl : level) (msg : string).

(** The httpx response as the gateway reads it: [json] is the value of
    [response.json()], or the text of the exception it raises. *)
Record response : Type := Resp {
  status_code : Z;
  content : string;
  content_type : string;
  text : string;
  json : pyval + string
}.

(** What a network attempt ends in. *)
Inductive outcome : Type :=
| Reply (r : response)
| Fault (e : exn).

Inductive result (A : Type) : Type :=
| Ok (a : A)
| Raise (e : exn).
Arguments Ok {A} a.
Arguments Raise {A} e.

Definition trace : Type := list event.

(** A computation reads the trace so far and extends it. *)
Definition M (A : Type) : Type := trace -> result A * trace.

Definition ret {A} (a : A) : M A := fun tr => (Ok a, tr).

Definition raise {A} (e : exn) : M A := fun tr => (Raise e, tr).

Definition bind {A B} (m : M A) (k : A -> M B) : M B :=
  fun tr =>
    match m tr with
    | (Ok a, tr') => k a tr'
    | (Raise e, tr') => (Raise e, tr')
    end.

(** [try: m  except Exception as e: h e] *)
Definition try_except {A} (m : M A) (h : exn -> M A) : M A :=
  fun tr =>
    match m tr with
    | (Ok a, tr') => (Ok a, tr')
    | (Raise e, tr') => h e tr'
    end.

(** [try: m  finally: f] *)
Definition finally {A} (m : M A) (f : M unit) : M A :=
  fun tr =>
    match m tr with
    | (r, tr') =>
        match f tr' with
        | (Ok _, tr'') => (r, tr'')
        | (Raise e, tr'') => (Raise e, tr'')
        end
    end.

Definition emit (e : event) : M unit := fun tr => (Ok tt, (tr ++ [e])%list).

Definition log (lvl : level) (msg : string) : M unit := emit (Log lvl msg).

Definition is_request (e : event) : bool :=
  match e with Request _ => true | _ => false end.

(** The network attempts of a trace, in order. *)
Fixpoint requests (tr : trace) : list request :=
  match tr with
  | [] => []
  | Request q :: tr' => q :: requests tr'
  | _ :: tr' => requests tr'
  end.

(** The attempts and the pauses of a trace, in order. *)
Definition schedule (tr : trace) : trace :=
  filter (fun e => match e with Request _ | Sleep _ => true | _ => false end) tr.

Definition warnings (tr : trace) : list string :=
  flat_map (fun e => match e with Log WARNING m => [m] | _ => [] end) tr.

Definition attempts : M nat := fun tr => (Ok (List.length (requests tr)), tr).

End Eff.

Declare Scope eff_scope.
Delimit Scope eff_scope with eff.
Notation "x <- m ;; k" := (Eff.bind m (fun x => k))
  (at level 61, m at next level, right associativity) : eff_scope.
Notation "m ;; k" := (Eff.bind m (fun _ => k))
  (at level 61, right associativity) : eff_scope.
Open Scope eff_scope.

(** ** The server *)

Module Server.
Import Py Eff.

(** The ten tools of the server. *)
Inductive LumaTools : Type :=
| PING
| CREATE_GENERATION
| GET_GENERATION
| LIST_GENERATIONS
| DELETE_GENERATION
| UPSCALE_GENERATION
| ADD_AUDIO
| GENERATE_IMAGE
| GET_CREDITS
| GET_CAMERA_MOTIONS.

Definition base_url : string := "https://api.lumalabs.ai/dream-machine/v1".

Definition is_none (v : pyval) : bool :=
  match v with PNone => true | _ => false end.

(** [v.get(k)]: a method only a dict has. *)
Definition dot_get (v : pyval) (k : string) : M pyval :=
  match v with
  | PDict d => ret (get k PNone d)
  | _ => raise (Exn AttributeError
                  ("'" ++ type_name v ++ "' object has no attribute 'get'"))
  end.

(** [k in v] for a string [k] and any value [v]. *)
Definition py_in (k : string) (v : pyval) : M bool :=
  match v with
  | PDict d => ret (mem k d)
  | PList l => ret (existsb (fun x => eq_str x k) l)
  | PStr s => ret (contains k s)
  | _ => raise (Exn OtherError
                  ("argument of type '" ++ type_name v ++ "' is not iterable"))
  end.

(** [v[k]] for a string key [k]. *)
Definition py_index (v : pyval) (k : string) : M pyval :=
  match v with
  | PDict d =>
      match lookup k d with
      | Some x => ret x
      | None => raise (Exn OtherError (repr_str k))
      end
  | _ => raise (Exn OtherError
                  ("'" ++ type_name v ++ "' object is not subscriptable"))
  end.

(** Truth of an [Optional[str]]. *)
Definition str_truthy (o : option string) : bool :=
  match o with
  | Some s => negb (String.eqb s "")
  | None => false
  end.

Section Handlers.

(** The outcome of the n-th network attempt of an invocation (from 0), and
    the value of the environment variable [LUMA_API_KEY]. *)
Variable upstream : nat -> outcome.
Variable env_key : option string.

(** [api_key or os.getenv(LUMA_API_KEY)], when that is truthy. *)
Definition credential (api_key : option string) : option string :=
  match (if str_truthy api_key then api_key else env_key) with
  | Some k => if String.eqb k "" then None else Some k
  | None => None
  end.

(** The decoding of a non-empty body (the inner [try] of the gateway). *)
Definition decode (r : response) : M pyval :=
  let raw := PDict [("raw_response", PStr (text r))] in
  let parse :=
    match json r with
    | inl v => ret v
    | inr json_error =>
        log WARNING ("Failed to parse JSON response: " ++ json_error) ;;
        ret raw
    end in
  if contains "application/json" (content_type r) then parse
  else if negb (String.eqb (text r) "")
          && (startswith "{" (text r) || startswith "[" (text r))
       then parse
       else ret raw.

(** The text of the error raised for a reply of status 400 or more. *)
Definition http_error (status : Z) (json_data : pyval) : string :=
  "HTTP error " ++ str_int status
  ++ (if truthy json_data then ": " ++ str json_data else "").

Definition _make_luma_request (method endpoint : string)
    (api_key : option string) (json params : option pyval) : M pyval :=
  match credential api_key with
  | None =>
      raise (Exn ValueError
               "LUMA_API_KEY environment variable or --api-key option is required")
  | Some key =>
      finally
        (try_except
           (n <- attempts ;;
            emit (Request (Req method (base_url ++ "/" ++ endpoint) key json params)) ;;
            match upstream n with
            | Fault e => raise e
            | Reply response =>
                if String.eqb (content response) "" then ret (PDict [])
                else
                  json_data <- decode response ;;
                  if status_code response >=? 400
                  then raise (Exn ValueError
                                (http_error (status_code response) json_data))
                  else ret json_data
            end)
           (fun e =>
              if is_RequestError e
              then log ERROR ("Request error: " ++ exn_msg e) ;;
                   raise (Exn ValueError ("Network error: " ++ exn_msg e))
              else log ERROR ("Unexpected error in _make_luma_request: " ++ exn_msg e) ;;
                   raise e))
        (emit Close)
  end.

(** *** ping *)

Definition ping (parameters : dict) (api_key : option string) : M string :=
  try_except
    (result <- _make_luma_request "GET" "ping" api_key None None ;;
     let result_details := if truthy result then ": " ++ str result else "" in
     ret ("Luma API is available and responding" ++ result_details))
    (fun e =>
       log ERROR ("Error in ping: " ++ exn_msg e) ;;
       ret ("Error pinging Luma API: " ++ exn_msg e)).

(** *** create_generation *)

Definition optional_params : list string :=
  ["resolution"; "duration"; "aspect_ratio"; "loop"; "callback_url"].

(** The loop copying the optional parameters that are present and not
    [None] into the request body. *)
Definition copy_optional (parameters data : dict) : dict :=
  fold_left
    (fun data param =>
       match lookup param parameters with
       | Some v => if is_none v then data else set param v data
       | None => data
       end)
    optional_params data.

(** The labels logged before the request (lines 251-267). *)
Definition keyframe_log_info (keyframes : dict) : M (list string) :=
  info0 <-
    match lookup "frame0" keyframes with
    | Some frame0 =>
        frame_type <- dot_get frame0 "type" ;;
        ret (if eq_str frame_type "image" then ["starting from image"]
             else if eq_str frame_type "generation" then ["extending existing video"]
             else [])
    | None => ret []
    end ;;
  info1 <-
    match lookup "frame1" keyframes with
    | Some frame1 =>
        frame_type <- dot_get frame1 "type" ;;
        ret (if eq_str frame_type "image" then ["ending with image"]
             else if eq_str frame_type "generation" then
               if mem "frame0" keyframes then ["interpolating between videos"]
               else ["reverse extending to existing video"]
             else [])
    | None => ret []
    end ;;
  ret (info0 ++ info1)%list.

(** The labels of the rendering (lines 309-327), read back from the body. *)
Definition keyframe_info (data : dict) : M (list string) :=
  let keyframes := get "keyframes" (PDict []) data in
  has0 <- py_in "frame0" keyframes ;;
  info0 <-
    (if has0 then
       frame0 <- py_index keyframes "frame0" ;;
       type0 <- dot_get frame0 "type" ;;
       ret (if eq_str type0 "image" then ["starting from an image"]
            else if eq_str type0 "generation" then ["extending an existing video"]
            else [])
     else ret []) ;;
  has1 <- py_in "frame1" keyframes ;;
  info1 <-
    (if has1 then
       frame1 <- py_index keyframes "frame1" ;;
       type1 <- dot_get frame1 "type" ;;
       if eq_str type1 "image" then ret ["ending with an image"]
       else if eq_str type1 "generation" then
         has0' <- py_in "frame0" keyframes ;;
         ret (if has0' then ["interpolating between videos"]
              else ["reverse extending to an existing video"])
       else ret []
     else ret []) ;;
  ret (info0 ++ info1)%list.

(** The validation and copy of the keyframes argument (lines 240-269). *)
Definition add_keyframes (parameters data : dict) : M dict :=
  match lookup "keyframes" parameters with
  | Some keyframes =>
      if truthy keyframes then
        match keyframes with
        | PDict kf =>
            if negb (existsb (fun key => mem key kf) ["frame0"; "frame1"])
            then raise (Exn ValueError "keyframes must contain frame0 or frame1")
            else
              let data := set "keyframes" keyframes data in
              info <- keyframe_log_info kf ;;
              log INFO ("Creating generation with keyframes: " ++ join ", " info) ;;
              ret data
        | _ => raise (Exn ValueError "keyframes must be an object")
        end
      else ret data
  | None => ret data
  end.

(** The request body of [create_generation] (lines 212-269). *)
Definition create_generation_data (parameters : dict) : M (pyval * dict) :=
  let prompt := get "prompt" PNone parameters in
  if negb (truthy prompt)
  then raise (Exn ValueError "prompt parameter is required")
  else
    let data := [("prompt", prompt);
                 ("model", get "model" (PStr "ray-2") parameters)] in
    let data := copy_optional parameters data in
    match lookup "duration" parameters with
    | Some duration =>
        if negb (is_none duration) && negb (in_strs duration ["5s"; "9s"])
        then log WARNING ("Unsupported duration value: " ++ str duration
                          ++ ". Only '5s' or '9s' are supported.")
        else ret tt
    | None => ret tt
    end ;;
    data <- add_keyframes parameters data ;;
    ret (prompt, data).

(** The rendering of the reply (lines 273-342).  The source also collects
    asset lines here and never prints them. *)
Definition create_generation_render (parameters data : dict) (prompt result : pyval)
  : M string :=
  match result with
  | PDict result =>
      let generation_id := get "id" (PStr "Unknown") result in
      let state := get "state" (PStr "Processing") result in
      let generation_type := get "generation_type" (PStr "video") result in
      let created_at := get "created_at" (PStr "Unknown") result in
      let model := get "model" (get "model" (PStr "ray-2") parameters) result in
      let has_keyframes := mem "keyframes" data && truthy (get "keyframes" PNone data) in
      let tail :=
        nl ++ "State: " ++ str state
        ++ nl ++ "Created at: " ++ str created_at
        ++ nl ++ "Model: " ++ str model
        ++ nl ++ "Prompt: " ++ str prompt in
      if eq_str generation_type "image" then
        ret ("Created image generation with ID: " ++ str generation_id ++ tail)
      else if has_keyframes then
        info <- keyframe_info data ;;
        let keyframe_description := join ", " info in
        ret ("Created advanced generation (" ++ keyframe_description
             ++ ") with ID: " ++ str generation_id ++ tail)
      else
        ret ("Created text-to-video generation with ID: " ++ str generation_id ++ tail)
  | _ =>
      log ERROR ("Unexpected response format from Luma API: " ++ str result) ;;
      ret ("Error: Unexpected response format from Luma API. "
           ++ "Got " ++ type_name result ++ " instead of dict.")
  end.

Definition create_generation (parameters : dict) (api_key : option string) : M string :=
  try_except
    (pd <- create_generation_data parameters ;;
     let (prompt, data) := pd in
     result <- _make_luma_request "POST" "generations" api_key (Some (PDict data)) None ;;
     create_generation_render parameters data prompt result)
    (fun e =>
       log ERROR ("Error in create_generation: " ++ exn_msg e) ;;
       ret ("Error creating generation: " ++ exn_msg e)).

(** *** get_generation *)

(** [x if isinstance(x, dict) else {}] *)
Definition as_dict (v : pyval) : dict :=
  match v with PDict d => d | _ => [] end.

(** The type label, derived alike by [get_generation] and
    [list_generations] from the generation type and the echoed request. *)
Definition type_display (generation_type : pyval) (request_data : dict) : string :=
  let keyframes := get "keyframes" PNone request_data in
  let has_keyframes := is_dict keyframes && truthy keyframes in
  if eq_str generation_type "image" then "Image"
  else if has_keyframes then "Advanced" else "Text-to-video".

(** The line [label: assets[key]], when [key in assets]. *)
Definition asset_line (label key : string) (assets : dict) : list string :=
  match lookup key assets with
  | Some v => [label ++ ": " ++ str v]
  | None => []
  end.

(** [state], followed by the failure reason of a failed generation. *)
Definition with_reason (state failure_reason : pyval) : string :=
  str state
  ++ (if eq_str state "failed" && truthy failure_reason
      then " (Reason: " ++ str failure_reason ++ ")" else "").

Definition unexpected_format (result : pyval) (expected : string) : M string :=
  log ERROR ("Unexpected response format from Luma API: " ++ str result) ;;
  ret ("Error: Unexpected response format from Luma API. "
       ++ "Got " ++ type_name result ++ " instead of " ++ expected ++ ".").

Definition get_generation (parameters : dict) (api_key : option string) : M string :=
  let generation_id := get "generation_id" PNone parameters in
  try_except
    (if negb (truthy generation_id)
     then raise (Exn ValueError "generation_id parameter is required")
     else
       result <- _make_luma_request "GET" ("generations/" ++ str generation_id)
                   api_key None None ;;
       match result with
       | PDict result =>
           let result_id := get "id" generation_id result in
           let state := get "state" (PStr "Unknown") result in
           let created_at := get "created_at" (PStr "Unknown") result in
           let generation_type := get "generation_type" (PStr "video") result in
           let model := get "model" (PStr "Unknown") result in
           let failure_reason := get "failure_reason" (PStr "") result in
           let state_info := "State: " ++ with_reason state failure_reason in
           let request_data := as_dict (get "request" (PDict []) result) in
           let prompt := get "prompt" (PStr "Unknown") request_data in
           let assets := as_dict (get "assets" (PDict []) result) in
           let asset_lines :=
             if eq_str generation_type "image"
             then asset_line "Image URL" "image" assets
             else (asset_line "Video URL" "video" assets
                   ++ asset_line "Progress video" "progress_video" assets
                   ++ asset_line "Thumbnail" "image" assets)%list in
           let assets_info :=
             match asset_lines with
             | [] => "No assets available yet"
             | _ => join nl asset_lines
             end in
           ret (join nl
                  ["Generation ID: " ++ str result_id;
                   "Type: " ++ type_display generation_type request_data;
                   state_info;
                   "Created at: " ++ str created_at;
                   "Model: " ++ str model;
                   "Prompt: " ++ str prompt;
                   assets_info])
       | _ => unexpected_format result "dict"
       end)
    (fun e =>
       log ERROR ("Error in get_generation: " ++ exn_msg e) ;;
       ret ("Error getting generation " ++ str generation_id ++ ": " ++ exn_msg e)).

(** *** list_generations *)

(** The first of [fields] that the reply maps to a list (the loop with
    [break] of lines 453-456). *)
Fixpoint first_list_field (fields : list string) (result : dict) : list pyval :=
  match fields with
  | [] => []
  | field :: fields' =>
      match lookup field result with
      | Some (PList l) => l
      | _ => first_list_field fields' result
      end
  end.

(** The summary of one entry (lines 484-523). *)
Definition generation_summary (gen : dict) : string :=
  let generation_id := get "id" (PStr "Unknown ID") gen in
  let state := get "state" (PStr "Unknown state") gen in
  let created_at := get "created_at" (PStr "Unknown date") gen in
  let generation_type := get "generation_type" (PStr "video") gen in
  let request_data := as_dict (get "request" (PDict []) gen) in
  let prompt := get "prompt" (PStr "Unknown prompt") request_data in
  let assets := as_dict (get "assets" (PDict []) gen) in
  let url :=
    if eq_str generation_type "image"
    then get "image" (PStr "Not available yet") assets
    else get "video" (PStr "Not available yet") assets in
  let url_label :=
    if eq_str generation_type "image" then "Image URL" else "Video URL" in
  "ID: " ++ str generation_id ++ nl
  ++ "  Type: " ++ type_display generation_type request_data ++ nl
  ++ "  State: " ++ str state ++ nl
  ++ "  Created at: " ++ str created_at ++ nl
  ++ "  Prompt: " ++ str prompt ++ nl
  ++ "  " ++ url_label ++ ": " ++ str url ++ nl.

(** The loop over the entries (lines 479-523): objects are summarised,
    anything else is logged and skipped. *)
Fixpoint summaries (generations_list : list pyval) : M (list string) :=
  match generations_list with
  | [] => ret []
  | gen :: rest =>
      match gen with
      | PDict g =>
          out <- summaries rest ;;
          ret (generation_summary g :: out)
      | _ =>
          log WARNING ("Skipping non-dict generation: " ++ str gen) ;;
          summaries rest
      end
  end.

(** The pagination line of the wrapped shape (lines 443-448). *)
Definition pagination (result : dict) (generations_list : list pyval) : string :=
  let has_more := get "has_more" (PBool false) result in
  let count := get "count" (PInt (Z.of_nat (List.length generations_list))) result in
  "Showing " ++ str_int (Z.of_nat (List.length generations_list))
  ++ " of " ++ str count ++ " generations"
  ++ (if truthy has_more then " (more available)" else "").

(** The rendering once the list is found (lines 472-525); [pagination_info]
    is the line to show when the wrapped shape defined it. *)
Definition render_generations (pagination_info : option string)
    (generations_list : list pyval) : M string :=
  match generations_list with
  | [] => ret "No generations found"
  | _ =>
      out <- summaries generations_list ;;
      ret (join nl
             (("Generations:"
               :: match pagination_info with Some p => [p] | None => [] end)
              ++ out)%list)
  end.

Definition list_generations (parameters : dict) (api_key : option string) : M string :=
  try_except
    (let limit := get "limit" (PInt 10) parameters in
     let offset := get "offset" (PInt 0) parameters in
     result <- _make_luma_request "GET" "generations" api_key None
                 (Some (PDict [("limit", limit); ("offset", offset)])) ;;
     if negb (truthy result) then ret "No generations found"
     else
       match result with
       | PDict d =>
           match lookup "generations" d with
           | Some (PList generations_list) =>
               render_generations (Some (pagination d generations_list)) generations_list
           | _ =>
               if mem "id" d && mem "state" d
               then render_generations None [result]
               else
                 match first_list_field ["data"; "results"; "items"] d with
                 | [] =>
                     log WARNING ("Unexpected response structure: dict_keys("
                                  ++ repr (PList (map PStr (keys d))) ++ ")") ;;
                     ret ("Response format from Luma API doesn't contain generations: "
                          ++ str result)
                 | generations_list => render_generations None generations_list
                 end
           end
       | PList generations_list => render_generations None generations_list
       | _ => unexpected_format result "object with generations"
       end)
    (fun e =>
       log ERROR ("Error in list_generations: " ++ exn_msg e) ;;
       ret ("Error listing generations: " ++ exn_msg e)).

(** *** delete_generation *)

Definition delete_generation (parameters : dict) (api_key : option string) : M string :=
  try_except
    (let generation_id := get "generation_id" PNone parameters in
     if negb (truthy generation_id)
     then raise (Exn ValueError "generation_id parameter is required")
     else
       _make_luma_request "DELETE" ("generations/" ++ str generation_id)
         api_key None None ;;
       ret ("Generation " ++ str generation_id ++ " deleted successfully"))
    (fun e =>
       log ERROR ("Error in delete_generation: " ++ exn_msg e) ;;
       ret ("Error deleting generation "
            ++ str (get "generation_id" PNone parameters) ++ ": " ++ exn_msg e)).

(** *** upscale_generation *)

Definition valid_resolutions : list string := ["540p"; "720p"; "1080p"; "4k"].

Definition max_retries : nat := 2.

(** The retry loop (lines 573-596).  [remaining] is
    [max_retries - retry_count], so the test [retry_count < max_retries] is
    the test that [remaining] is a successor, and the incremented
    [retry_count] is [max_retries - remaining']. *)
Fixpoint upscale_request (generation_id resolution : pyval)
    (api_key : option string) (remaining : nat) : M pyval :=
  try_except
    (_make_luma_request "POST" ("generations/" ++ str generation_id ++ "/upscale")
       api_key (Some (PDict [("resolution", resolution)])) None)
    (fun e =>
       if is_ValueError e then
         let error_msg := exn_msg e in
         if contains "same resolution as the original" error_msg then
           raise (Exn ValueError
                    ("Cannot upscale to " ++ str resolution
                     ++ " because the original generation is already at this resolution. "
                     ++ "Please choose a higher resolution."))
         else
           match remaining with
           | S remaining' =>
               if contains "HTTP error 500" error_msg then
                 let retry_count := (max_retries - remaining')%nat in
                 log WARNING ("Server error during upscale, retrying ("
                              ++ str_int (Z.of_nat retry_count) ++ "/"
                              ++ str_int (Z.of_nat max_retries) ++ ")...") ;;
                 emit (Sleep 2) ;;
                 upscale_request generation_id resolution api_key remaining'
               else raise e
           | O => raise e
           end
       else raise e).

(** The rendering of the reply (lines 598-636). *)
Definition upscale_render (generation_id resolution result : pyval) : M string :=
  match result with
  | PDict result =>
      let result_id := get "id" generation_id result in
      let state := get "state" (PStr "Processing") result in
      let created_at := get "created_at" (PStr "Unknown") result in
      let model := get "model" (PStr "Unknown") result in
      let upscale_resolution :=
        get "resolution" (if truthy resolution then resolution else PStr "Unknown")
          result in
      let failure_reason := get "failure_reason" (PStr "") result in
      let asset_lines :=
        match get "assets" (PDict []) result with
        | PDict assets =>
            (asset_line "Video URL" "video" assets
             ++ asset_line "Progress video" "progress_video" assets
             ++ asset_line "Thumbnail" "image" assets)%list
        | _ => []
        end in
      let output :=
        ["Upscale initiated for generation " ++ str result_id;
         "Target resolution: " ++ str upscale_resolution;
         "Status: " ++ with_reason state failure_reason;
         "Created at: " ++ str created_at;
         "Model: " ++ str model] in
      ret (join nl
             (output
              ++ match asset_lines with
                 | [] => []
                 | _ => "" :: "Assets:" :: asset_lines
                 end)%list)
  | _ =>
      log WARNING ("Unexpected response format from upscale: " ++ str result) ;;
      ret ("Upscale initiated for generation " ++ str generation_id
           ++ ". Response: " ++ str result)
  end.

(** The regular expression search for a quoted detail field: the text
    between the first occurrence of the opening pattern (the word detail in
    single quotes, a colon, a space and a single quote) and the next single
    quote, when both exist. *)
Fixpoint after (pat s : string) : option string :=
  if startswith pat s then Some (substring (String.length pat) (String.length s) s)
  else match s with
       | EmptyString => None
       | String _ s' => after pat s'
       end.

Fixpoint until_quote (s : string) : option string :=
  match s with
  | EmptyString => None
  | String c s' =>
      if Ascii.eqb c SQUOTE then Some ""
      else option_map (String c) (until_quote s')
  end.

Definition search_detail (s : string) : option string :=
  match after "'detail': '" s with
  | Some rest => until_quote rest
  | None => None
  end.

(** The [except] clause of [upscale_generation] (lines 637-673). *)
Definition upscale_error (parameters : dict) (e : exn) : M string :=
  let error_msg := exn_msg e in
  let head rest := "Error upscaling generation "
                   ++ str (get "generation_id" PNone parameters) ++ ": " ++ rest in
  if contains "same resolution as the original" error_msg then
    log ERROR ("Resolution error in upscale_generation: " ++ error_msg) ;;
    ret (head ("The requested resolution ("
               ++ str (get "resolution" PNone parameters)
               ++ ") is the same as the original. "
               ++ "Please choose a higher resolution."))
  else if contains "HTTP error 400" error_msg then
    log ERROR ("Bad request in upscale_generation: " ++ error_msg) ;;
    let detail :=
      match search_detail error_msg with
      | Some d => d
      | None => "Invalid request"
      end in
    ret (head (detail ++ ". "
               ++ "Common issues include:" ++ nl
               ++ "- The generation is not in a completed state" ++ nl
               ++ "- The requested resolution is not higher than the original" ++ nl
               ++ "- The generation was already upscaled"))
  else if contains "HTTP error 500" error_msg then
    log ERROR ("Server error in upscale_generation: " ++ error_msg) ;;
    ret (head ("Server Error. "
               ++ "This could be due to:" ++ nl
               ++ "- The generation not being in a completed state" ++ nl
               ++ "- The generation already being upscaled" ++ nl
               ++ "- The Luma API experiencing temporary issues" ++ nl ++ nl
               ++ "Please check the generation status and try again later."))
  else
    log ERROR ("Error in upscale_generation: " ++ error_msg) ;;
    ret (head error_msg).

Definition upscale_generation (parameters : dict) (api_key : option string) : M string :=
  try_except
    (let generation_id := get "generation_id" PNone parameters in
     if negb (truthy generation_id)
     then raise (Exn ValueError "generation_id parameter is required")
     else
       let resolution := get "resolution" PNone parameters in
       if negb (truthy resolution)
       then raise (Exn ValueError "resolution parameter is required for upscaling")
       else if negb (in_strs resolution valid_resolutions)
       then raise (Exn ValueError
                     ("Invalid resolution: " ++ str resolution
                      ++ ". Must be one of " ++ join ", " valid_resolutions))
       else
         result <- upscale_request generation_id resolution api_key max_retries ;;
         upscale_render generation_id resolution result)
    (upscale_error parameters).

(** *** add_audio *)

(** [if key in parameters and parameters[key]: request_data[key] = parameters[key]] *)
Definition copy_truthy (key : string) (parameters request_data : dict) : dict :=
  match lookup key parameters with
  | Some v => if truthy v then set key v request_data else request_data
  | None => request_data
  end.

Definition add_audio (parameters : dict) (api_key : option string) : M string :=
  try_except
    (let generation_id := get "generation_id" PNone parameters in
     if negb (truthy generation_id)
     then raise (Exn ValueError "generation_id parameter is required")
     else
       let prompt := get "prompt" PNone parameters in
       if negb (truthy prompt)
       then raise (Exn ValueError "prompt parameter is required for audio generation")
       else
         let request_data := [("prompt", prompt)] in
         let request_data := copy_truthy "negative_prompt" parameters request_data in
         let request_data := copy_truthy "callback_url" parameters request_data in
         result <- _make_luma_request "POST"
                     ("generations/" ++ str generation_id ++ "/audio")
                     api_key (Some (PDict request_data)) None ;;
         match result with
         | PDict result =>
             let result_id := get "id" generation_id result in
             let state := get "state" (PStr "Processing") result in
             let created_at := get "created_at" (PStr "Unknown") result in
             let model := get "model" (PStr "Unknown") result in
             let failure_reason := get "failure_reason" (PStr "") result in
             let asset_lines :=
               match get "assets" (PDict []) result with
               | PDict assets =>
                   (asset_line "Video URL" "video" assets
                    ++ asset_line "Progress video" "progress_video" assets
                    ++ asset_line "Thumbnail" "image" assets
                    ++ asset_line "Audio URL" "audio" assets)%list
               | _ => []
               end in
             let output :=
               ["Audio generation initiated for generation " ++ str result_id;
                "Status: " ++ with_reason state failure_reason;
                "Created at: " ++ str created_at;
                "Model: " ++ str model;
                "Prompt: " ++ str prompt] in
             let negative_line :=
               match lookup "negative_prompt" request_data with
               | Some negative => ["Negative prompt: " ++ str negative]
               | None => []
               end in
             let output := (output ++ negative_line)%list in
             ret (join nl
                    (output
                     ++ match asset_lines with
                        | [] => []
                        | _ => "" :: "Assets:" :: asset_lines
                        end)%list)
         | _ =>
             log WARNING ("Unexpected response format from add_audio: " ++ str result) ;;
             ret ("Audio generation initiated for generation " ++ str generation_id
                  ++ ". Response: " ++ str result)
         end)
    (fun e =>
       log ERROR ("Error in add_audio: " ++ exn_msg e) ;;
       ret ("Error adding audio to generation "
            ++ str (get "generation_id" PNone parameters) ++ ": " ++ exn_msg e)).

(** *** generate_image *)

Definition image_models : list string := ["photon-1"; "photon-flash-1"].

(** The request body of [generate_image] (lines 766-781). *)
Definition generate_image_data (parameters : dict) : M (pyval * dict) :=
  let prompt := get "prompt" PNone parameters in
  if negb (truthy prompt)
  then raise (Exn ValueError "prompt parameter is required")
  else
    let model := get "model" (PStr "photon-1") parameters in
    model <-
      (if negb (in_strs model image_models) then
         log WARNING ("Unsupported image model: " ++ str model
                      ++ ". Using 'photon-1' instead. "
                      ++ "Only 'photon-1' and 'photon-flash-1' are supported for image generation.") ;;
         ret (PStr "photon-1")
       else ret model) ;;
    ret (prompt, [("prompt", prompt); ("model", model)]).

(** The rendering of the reply (lines 785-814). *)
Definition generate_image_render (parameters : dict) (prompt result : pyval) : M string :=
  match result with
  | PDict result =>
      let generation_id := get "id" (PStr "Unknown") result in
      let state := get "state" (PStr "Processing") result in
      let created_at := get "created_at" (PStr "Unknown") result in
      let model := get "model" (get "model" (PStr "ray-2") parameters) result in
      let failure_reason := get "failure_reason" (PStr "") result in
      let image_url :=
        match get "assets" (PDict []) result with
        | PDict assets =>
            get "image" (PStr "Image will be available when processing completes") assets
        | _ => PStr "Image will be available when processing completes"
        end in
      ret (join nl
             ["Image generation " ++ with_reason state failure_reason;
              "ID: " ++ str generation_id;
              "Created at: " ++ str created_at;
              "Model: " ++ str model;
              "Prompt: " ++ str prompt;
              "Image URL: " ++ str image_url])
  | _ =>
      log WARNING ("Unexpected response format from generate_image: " ++ str result) ;;
      ret ("Image generation completed for prompt: " ++ str prompt
           ++ ". Response: " ++ str result)
  end.

Definition generate_image (parameters : dict) (api_key : option string) : M string :=
  try_except
    (pd <- generate_image_data parameters ;;
     let (prompt, data) := pd in
     result <- _make_luma_request "POST" "generations/image" api_key
                 (Some (PDict data)) None ;;
     generate_image_render parameters prompt result)
    (fun e =>
       log ERROR ("Error in generate_image: " ++ exn_msg e) ;;
       ret ("Error generating image for prompt '"
            ++ str (get "prompt" PNone parameters) ++ "': " ++ exn_msg e)).

(** *** get_credits *)

(** The rendering of the reply (lines 825-842). *)
Definition get_credits_render (result : pyval) : M string :=
  match result with
  | PDict result =>
      if mem "credit_balance" result then
        let credit_balance := get "credit_balance" (PStr "Unknown") result in
        ret ("Credit Information:" ++ nl ++ "Available Credits: " ++ str credit_balance)
      else
        let available := get "credits_available" (PStr "Unknown") result in
        let used := get "credits_used" (PStr "Unknown") result in
        let total := get "credits_total" (PStr "Unknown") result in
        ret ("Credit Information:" ++ nl
             ++ "Available Credits: " ++ str available ++ nl
             ++ "Used Credits: " ++ str used ++ nl
             ++ "Total Credits: " ++ str total)
  | _ =>
      log WARNING ("Unexpected response format from get_credits: " ++ str result) ;;
      ret ("Credit Information: " ++ str result)
  end.

Definition get_credits (parameters : dict) (api_key : option string) : M string :=
  try_except
    (result <- _make_luma_request "GET" "credits" api_key None None ;;
     get_credits_render result)
    (fun e =>
       log ERROR ("Error in get_credits: " ++ exn_msg e) ;;
       ret ("Error retrieving credit information: " ++ exn_msg e)).

(** *** get_camera_motions *)

(** One line of the loop over a bare list (lines 862-873). *)
Definition motion_line (motion : pyval) : string :=
  match motion with
  | PStr s => "- " ++ s
  | PDict d =>
      match lookup "name" d with
      | Some name => "- " ++ str name
      | None =>
          match lookup "id" d with
          | Some id => "- " ++ str id
          | None => "- " ++ str motion
          end
      end
  | _ => "- " ++ str motion
  end.

(** One line of the loop over a nested list (lines 882-890), a chain of
    four alternatives. *)
Definition nested_motion_line (motion : pyval) : string :=
  match motion with
  | PStr s => "- " ++ s
  | _ =>
      if is_dict motion && mem "name" (as_dict motion)
      then "- " ++ str (get "name" PNone (as_dict motion))
      else if is_dict motion && mem "id" (as_dict motion)
      then "- " ++ str (get "id" PNone (as_dict motion))
      else "- " ++ str motion
  end.

(** The first of [fields] mapped to a list, if any (lines 877-879). *)
Fixpoint first_motions (fields : list string) (result : dict) : option (list pyval) :=
  match fields with
  | [] => None
  | field :: fields' =>
      match lookup field result with
      | Some (PList l) => Some l
      | _ => first_motions fields' result
      end
  end.

Definition get_camera_motions (parameters : dict) (api_key : option string) : M string :=
  try_except
    (result <- _make_luma_request "GET" "generations/camera_motion/list"
                 api_key None None ;;
     if negb (truthy result) then ret "No camera motions available"
     else
       match result with
       | PList motions =>
           ret (join nl ("Available camera motions:" :: map motion_line motions))
       | PDict d =>
           match first_motions
                   ["motions"; "camera_motions"; "data"; "items"; "results"] d with
           | Some motions =>
               ret (join nl ("Available camera motions:"
                             :: map nested_motion_line motions))
           | None =>
               ret ("Unexpected response format. Response contained: "
                    ++ repr (PList (map PStr (keys d))))
           end
       | _ => ret ("Unexpected response format: " ++ str result)
       end)
    (fun e =>
       log ERROR ("Error in get_camera_motions: " ++ exn_msg e) ;;
       ret ("Error retrieving camera motions: " ++ exn_msg e)).

(** *** Dispatch *)

(** The handler [call_tool] runs for each tool. *)
Definition handler (name : LumaTools) : dict -> option string -> M string :=
  match name with
  | PING => ping
  | CREATE_GENERATION => create_generation
  | GET_GENERATION => get_generation
  | LIST_GENERATIONS => list_generations
  | DELETE_GENERATION => delete_generation
  | UPSCALE_GENERATION => upscale_generation
  | ADD_AUDIO => add_audio
  | GENERATE_IMAGE => generate_image
  | GET_CREDITS => get_credits
  | GET_CAMERA_MOTIONS => get_camera_motions
  end.

(** *** serve: the tool list and the dispatch *)

(** The input classes whose JSON schema describes a tool's arguments. *)
Inductive InputModel : Type :=
| PingInput
| CreateGenerationInput
| GetGenerationInput
| ListGenerationsInput
| DeleteGenerationInput
| UpscaleGenerationInput
| AddAudioInput
| GenerateImageInput
| GetCreditsInput
| GetCameraMotionsInput.

(** A listed tool; [inputSchema] is the class [model_json_schema] is
    called on. *)
Record Tool : Type := MkTool {
  name : LumaTools;
  description : string;
  inputSchema : InputModel
}.

(** The text content [call_tool] wraps a handler's text in. *)
Record TextContent : Type := MkTextContent {
  content_type_tag : string;
  content_text : string
}.

(** The string value of each member of the enumeration. *)
Definition tool_value (t : LumaTools) : string :=
  match t with
  | PING => "ping"
  | CREATE_GENERATION => "create_generation"
  | GET_GENERATION => "get_generation"
  | LIST_GENERATIONS => "list_generations"
  | DELETE_GENERATION => "delete_generation"
  | UPSCALE_GENERATION => "upscale_generation"
  | ADD_AUDIO => "add_audio"
  | GENERATE_IMAGE => "generate_image"
  | GET_CREDITS => "get_credits"
  | GET_CAMERA_MOTIONS => "get_camera_motions"
  end.

Definition list_tools : list Tool :=
  [MkTool PING "Check if the Luma API is running" PingInput;
   MkTool CREATE_GENERATION
     "Creates a new video generation from text, image, or existing video"
     CreateGenerationInput;
   MkTool GET_GENERATION "Gets the status of a generation" GetGenerationInput;
   MkTool LIST_GENERATIONS "Lists all generations" ListGenerationsInput;
   MkTool DELETE_GENERATION "Deletes a generation" DeleteGenerationInput;
   MkTool UPSCALE_GENERATION "Upscales a video generation to higher resolution"
     UpscaleGenerationInput;
   MkTool ADD_AUDIO "Adds audio to a video generation" AddAudioInput;
   MkTool GENERATE_IMAGE "Generates an image from a text prompt" GenerateImageInput;
   MkTool GET_CREDITS "Gets credit information for the current user" GetCreditsInput;
   MkTool GET_CAMERA_MOTIONS "Gets all supported camera motions"
     GetCameraMotionsInput].

(** The cases of the [match name] of [call_tool], in their order. *)
Definition cases : list LumaTools :=
  [PING; CREATE_GENERATION; GET_GENERATION; LIST_GENERATIONS; DELETE_GENERATION;
   UPSCALE_GENERATION; ADD_AUDIO; GENERATE_IMAGE; GET_CREDITS; GET_CAMERA_MOTIONS].

(** [call_tool] (lines 964-1010): the call is logged, then the first case
    whose value equals [name] runs its handler with the server's [api_key]
    and wraps the text; a name that matches no case raises. *)
Definition call_tool (api_key : option string) (name : string) (arguments : dict)
  : M (list TextContent) :=
  log DEBUG ("Tool call: " ++ name ++ " with arguments " ++ str (PDict arguments)) ;;
  match find (fun t => String.eqb name (tool_value t)) cases with
  | Some t =>
      result <- handler t arguments api_key ;;
      ret [MkTextContent "text" result]
  | None => raise (Exn ValueError ("Unknown tool: " ++ name))
  end.

End Handlers.

End Server.

(** ** Fixtures of the test suite *)

Module Fixtures.
Import Py Eff.
Local Open Scope string_scope.

(** The mocked response of [tests/test_server.py]: status 200, a JSON
    content type, the body [{}] and [json()] returning the given value. *)
Definition mock_response (json_value : pyval) : response :=
  Resp 200 "{}" "application/json" "{}" (inl json_value).

Definition mock_env : option string := Some "test-key".

Definition MOCK_GENERATION_RESPONSE : pyval :=
  PDict [("id", PStr "test-id");
         ("state", PStr "pending");
         ("created_at", PStr "2024-03-20T12:00:00Z");
         ("assets", PDict []);
         ("version", PStr "1.0");
         ("request", PDict [("prompt", PStr "test prompt"); ("model", PStr "ray-2")])].

Definition MOCK_CREDITS_RESPONSE : pyval :=
  PDict [("credit_balance", PFloat "150000.0")].

(** A reply of the given status whose JSON body is [{'detail': detail}]. *)
Definition error_response (status : Z) (detail : string) : response :=
  Resp status "{}" "application/json" "{}" (inl (PDict [("detail", PStr detail)])).

(** The reply of the upscale test. *)
Definition MOCK_UPSCALE_RESPONSE : pyval :=
  PDict [("id", PStr "test-id");
         ("state", PStr "processing");
         ("created_at", PStr "2024-03-20T12:00:00Z")].

(** Two replies of status 500, then the mocked success. *)
Definition two_server_errors (n : nat) : outcome :=
  match n with
  | 0%nat | 1%nat => Reply (error_response 500 "Internal Server Error")
  | _ => Reply (mock_response MOCK_UPSCALE_RESPONSE)
  end.

(** Two replies of status 500 without a body, then the mocked success. *)
Definition bodiless_server_errors (n : nat) : outcome :=
  match n with
  | 0%nat | 1%nat => Reply (Resp 500 "" "" "" (inr "Expecting value"))
  | _ => Reply (mock_response MOCK_UPSCALE_RESPONSE)
  end.

(** A reply of status 400 that reports the resolution conflict. *)
Definition resolution_conflict (n : nat) : outcome :=
  Reply (error_response 400
           "Cannot upscale to the same resolution as the original generation").

(** An upstream that always answers with the mocked response. *)
Definition always (json_value : pyval) (n : nat) : outcome :=
  Reply (mock_response json_value).

Definition upscale_arguments : dict :=
  [("generation_id", PStr "test-id"); ("resolution", PStr "1080p")].

(** The keyframes of the keyframes test, and two more requests. *)
Definition image_frame : pyval :=
  PDict [("type", PStr "image"); ("url", PStr "https://example.com/image.jpg")].


Definition with_keyframes (keyframes : dict) : dict :=
  [("prompt", PStr "test prompt"); ("resolution", PStr "720p");
   ("keyframes", PDict keyframes)].




End Fixtures.

(** ** Vocabulary of the properties *)

Module Spec.
Import Py Eff Server.
Local Open Scope string_scope.

(** What one call of the gateway yields when its network attempt ends in
    [o], and the events it leaves after the request. *)
Definition gateway_result (o : outcome) : result pyval :=
  fst (_make_luma_request (fun _ => o) (Some "key") "" "" None None None []).

Definition gateway_events (o : outcome) : trace :=
  tl (snd (_make_luma_request (fun _ => o) (Some "key") "" "" None None None [])).

(** The value a non-empty body decodes to. *)
Definition decoded (r : response) : pyval :=
  match fst (decode r []) with Ok v => v | Raise _ => PNone end.

(** The gateway returns [v] when its network attempt ends in [o]. *)
Definition returns (o : outcome) (v : pyval) : Prop := gateway_result o = Ok v.

(** The arguments each handler insists on, in the order it checks them. *)
Definition required (name : LumaTools) : list string :=
  match name with
  | CREATE_GENERATION => ["prompt"]
  | GET_GENERATION => ["generation_id"]
  | DELETE_GENERATION => ["generation_id"]
  | UPSCALE_GENERATION => ["generation_id"; "resolution"]
  | ADD_AUDIO => ["generation_id"; "prompt"]
  | GENERATE_IMAGE => ["prompt"]
  | _ => []
  end.

(** A required argument is absent, or present with a falsy value. *)
Definition missing_argument (name : LumaTools) (parameters : dict) : bool :=
  existsb (fun k => negb (truthy (get k PNone parameters))) (required name).

(** A network attempt that ends in a transport fault, or in a reply of
    status 400 or more that carries a body. *)
Definition upstream_error (o : outcome) : bool :=
  match o with
  | Fault _ => true
  | Reply r => negb (String.eqb (content r) "") && (status_code r >=? 400)
  end.

(** A computation that ends in an exception whatever the trace before it. *)
Definition raises {A} (m : M A) : Prop :=
  forall tr, exists e tr', m tr = (Raise e, tr').

(** No credential can be resolved, or every network attempt fails. *)
Definition gateway_fails (upstream : nat -> outcome) (env_key api_key : option string)
  : Prop :=
  credential env_key api_key = None \/ forall n, upstream_error (upstream n) = true.

(** A handler whose gateway cannot answer, or whose required argument is
    missing, leaves its [try] block by an exception. *)
Definition failure (upstream : nat -> outcome) (env_key : option string)
    (name : LumaTools) (parameters : dict) (api_key : option string) : Prop :=
  missing_argument name parameters = true
  \/ gateway_fails upstream env_key api_key.

(** An HTTP-500 error: a reply for which the gateway raises the error
    "HTTP error 500", that is a reply of status 500 that carries a body.
    The error text is to lack the phrase of the resolution conflict, which
    is handled apart. *)
Definition http_500_error (o : outcome) : bool :=
  match o with
  | Reply r =>
      (status_code r =? 500)%Z
      && negb (String.eqb (content r) "")
      && negb (contains "same resolution as the original"
                 (http_error 500 (decoded r)))
  | Fault _ => false
  end.

(** The request [upscale_generation] sends on every attempt. *)
Definition upscale_call (key : string) (generation_id resolution : pyval) : request :=
  Req "POST" (base_url ++ "/generations/" ++ str generation_id ++ "/upscale") key
    (Some (PDict [("resolution", resolution)])) None.


(** The alternate keys a list of generations may be nested under. *)
Definition alternate_keys : list string := ["data"; "results"; "items"].

(** A computation that only adds events to the trace, none of them a
    network attempt. *)
Definition quiet {A} (m : M A) : Prop :=
  forall tr r tr',
    m tr = (r, tr') -> exists added, tr' = (tr ++ added)%list /\ requests added = [].

(** The frame at position [k] of a keyframes mapping, when present, is an
    object (the keyframe type is a tagged union of two objects). *)
Definition frame_ok (k : string) (keyframes : dict) : bool :=
  match lookup k keyframes with
  | Some frame => is_dict frame
  | None => true
  end.

(** The body [create_generation] starts from, before any keyframes. *)
Definition base_data (parameters : dict) : dict :=
  copy_optional parameters
    [("prompt", get "prompt" PNone parameters);
     ("model", get "model" (PStr "ray-2") parameters)].

(** *** Vocabulary of the further properties *)

(** The number of clients closed in a trace. *)
Fixpoint closes (tr : trace) : nat :=
  match tr with
  | [] => 0
  | Close :: tr' => S (closes tr')
  | _ :: tr' => closes tr'
  end.

(** The pauses of a trace, in order. *)
Fixpoint sleeps (tr : trace) : list Z :=
  match tr with
  | [] => []
  | Sleep n :: tr' => n :: sleeps tr'
  | _ :: tr' => sleeps tr'
  end.

(** A computation that only adds events to the trace, and what it adds
    satisfies [P]. *)
Definition adds (P : trace -> Prop) {A} (m : M A) : Prop :=
  forall tr r tr', m tr = (r, tr') -> exists added, tr' = (tr ++ added)%list /\ P added.

(** Every client opened for a network attempt is closed. *)
Definition balanced (added : trace) : Prop :=
  List.length (requests added) = closes added.

(** At most [n] network attempts. *)
Definition at_most (n : nat) (added : trace) : Prop :=
  (List.length (requests added) <= n)%nat.

(** A text of printable ASCII characters (code points 32 to 126) other
    than the single quote and the backslash. *)
Fixpoint plain (s : string) : bool :=
  match s with
  | EmptyString => true
  | String c s' =>
      negb (Ascii.eqb c SQUOTE) && negb (Ascii.eqb c BACKSLASH)
      && (32 <=? nat_of_ascii c)%nat && (nat_of_ascii c <=? 126)%nat
      && plain s'
  end.

(** The network attempts a handler may make: none without a credential,
    one otherwise, and up to three for [upscale_generation]. *)
Definition attempts_allowed (credential : option string) (name : LumaTools) : nat :=
  match credential with
  | None => 0
  | Some _ =>
      match name with
      | UPSCALE_GENERATION => S max_retries
      | _ => 1
      end
  end.

(** Every network attempt of [added] goes to the API under [base_url] and
    bears [key]. *)
Definition authorised (key : string) (added : trace) : Prop :=
  Forall (fun q => req_bearer q = key /\ startswith (base_url ++ "/") (req_url q) = true)
    (requests added).

(** The request [list_generations] sends: the page asked for, ten entries
    from the first when the arguments say nothing. *)
Definition list_call (key : string) (parameters : dict) : request :=
  Req "GET" (base_url ++ "/generations") key None
    (Some (PDict [("limit", get "limit" (PInt 10) parameters);
                  ("offset", get "offset" (PInt 0) parameters)])).

(** The keys [get_camera_motions] looks for a nested list under. *)
Definition motion_keys : list string :=
  ["motions"; "camera_motions"; "data"; "items"; "results"].

(** The names under which [list_tools] advertises its tools. *)
Definition listed : list string :=
  map (fun t => tool_value (name t)) list_tools.

(** The function that serves each tool name. *)
Definition served (upstream : nat -> outcome) (env_key : option string)
  : list (string * (dict -> option string -> M string)) :=
  [("ping", ping upstream env_key);
   ("create_generation", create_generation upstream env_key);
   ("get_generation", get_generation upstream env_key);
   ("list_generations", list_generations upstream env_key);
   ("delete_generation", delete_generation upstream env_key);
   ("upscale_generation", upscale_generation upstream env_key);
   ("add_audio", add_audio upstream env_key);
   ("generate_image", generate_image upstream env_key);
   ("get_credits", get_credits upstream env_key);
   ("get_camera_motions", get_camera_motions upstream env_key)].

(** The line [call_tool] logs before it dispatches. *)
Definition tool_call (name : string) (arguments : dict) : event :=
  Log DEBUG ("Tool call: " ++ name ++ " with arguments " ++ str (PDict arguments)).

(** What a motion is listed as: a string as itself, an object by its name,
    else by its id, and anything else as [str] prints it. *)
Definition motion_text (motion : pyval) : string :=
  match motion with
  | PStr s => s
  | PDict d =>
      match lookup "name" d with
      | Some name => str name
      | None =>
          match lookup "id" d with
          | Some id => str id
          | None => str motion
          end
      end
  | _ => str motion
  end.

(** The heading and one line per motion. *)
Definition motion_listing (motions : list pyval) : string :=
  join nl ("Available camera motions:"
           :: map (fun motion => "- " ++ motion_text motion) motions).

(** [l] is the value of the first of [fields] whose value in [d] is a
    list. *)
Fixpoint first_list_under (fields : list string) (d : dict) (l : list pyval) : Prop :=
  match fields with
  | [] => False
  | field :: fields' =>
      lookup field d = Some (PList l)
      \/ (is_list (get field PNone d) = false /\ first_list_under fields' d l)
  end.

(** The text shown for the field [k] of [g]: [str] of its value, or
    [default] when [g] has no such key. *)
Definition shown (k default : string) (g : dict) : string :=
  match lookup k g with Some v => str v | None => default end.







End Spec.

(** ** Facts about the gateway, traces and strings *)

Module Facts.
Import Py Eff Server Spec.
Local Open Scope string_scope.

Lemma decode_run (r : response) (tr : trace) :
  decode r tr = (fst (decode r []), (tr ++ snd (decode r []))%list).
Proof.
  unfold decode.
  destruct (contains "application/json" (content_type r));
    [| destruct (negb (text r =? "") && (startswith "{" (text r) || startswith "[" (text r)))];
    destruct (json r); cbv [bind ret log emit fst snd]; cbn [app];
    rewrite ?app_nil_r; reflexivity.
Qed.

Lemma decode_ok (r : response) : exists v, fst (decode r []) = Ok v.
Proof.
  unfold decode.
  destruct (contains "application/json" (content_type r));
    [| destruct (negb (text r =? "") && (startswith "{" (text r) || startswith "[" (text r)))];
    destruct (json r); cbv [bind ret log emit fst snd app]; eauto.
Qed.

Lemma gateway_run upstream env_key method endpoint api_key key json params tr :
  credential env_key api_key = Some key ->
  _make_luma_request upstream env_key method endpoint api_key json params tr =
  (gateway_result (upstream (List.length (requests tr))),
   (tr ++ Request (Req method (base_url ++ "/" ++ endpoint) key json params)
       :: gateway_events (upstream (List.length (requests tr))))%list).
Proof.
  intros Hk. unfold gateway_result, gateway_events, _make_luma_request.
  rewrite Hk. cbn [credential str_truthy String.eqb Ascii.eqb Bool.eqb negb].
  cbv [finally try_except bind attempts emit].
  destruct (upstream (List.length (requests tr))) as [r | e].
  - destruct (content r =? "").
    + cbv [ret fst snd tl]. cbn [app tl]. rewrite <- app_assoc. reflexivity.
    + rewrite (decode_run r (tr ++ _)%list), (decode_run r ([] ++ _)%list).
      destruct (decode_ok r) as [v Hv]. rewrite Hv.
      destruct (status_code r >=? 400);
        cbv [raise ret log emit is_RequestError exn_class fst snd]; cbn [app tl];
        rewrite <- ?app_assoc; reflexivity.
  - cbv [raise]. destruct (is_RequestError e);
      cbv [bind raise ret log emit fst snd]; cbn [app tl];
      rewrite <- ?app_assoc; reflexivity.
Qed.

Lemma requests_app (a b : trace) :
  requests (a ++ b)%list = (requests a ++ requests b)%list.
Proof.
  induction a as [| e a IH]; [reflexivity |].
  destruct e; cbn [app requests]; rewrite IH; reflexivity.
Qed.

Lemma schedule_app (a b : trace) :
  schedule (a ++ b)%list = (schedule a ++ schedule b)%list.
Proof. apply filter_app. Qed.

Lemma decode_quiet (r : response) :
  requests (snd (decode r [])) = [] /\ schedule (snd (decode r [])) = [].
Proof.
  unfold decode.
  destruct (contains "application/json" (content_type r));
    [| destruct (negb (text r =? "") && (startswith "{" (text r) || startswith "[" (text r)))];
    destruct (json r); cbv [bind ret log emit fst snd]; cbn [app]; split; reflexivity.
Qed.

(** The gateway makes one network attempt per call and never pauses. *)
Lemma gateway_events_quiet (o : outcome) :
  requests (gateway_events o) = [] /\ schedule (gateway_events o) = [].
Proof.
  unfold gateway_events, _make_luma_request.
  cbn [credential str_truthy String.eqb Ascii.eqb Bool.eqb negb].
  cbv [finally try_except bind attempts emit]. cbn [app requests List.length].
  destruct o as [r | e].
  - destruct (content r =? "").
    + cbv [ret]. cbn [snd tl app]. split; reflexivity.
    + rewrite (decode_run r [_]).
      destruct (decode_ok r) as [v Hv]. rewrite Hv.
      destruct (decode_quiet r) as [Hq Hs].
      destruct (status_code r >=? 400);
        cbv [raise ret log emit is_RequestError exn_class]; cbn [app snd tl];
        rewrite ?requests_app, ?schedule_app, Hq, ?Hs; split; reflexivity.
  - cbv [raise]. destruct (is_RequestError e);
      cbv [bind raise ret log emit]; cbn [app snd tl]; split; reflexivity.
Qed.

Lemma schedule_request (q : request) (tr : trace) :
  schedule (Request q :: tr) = Request q :: schedule tr.
Proof. reflexivity. Qed.

Lemma schedule_sleep (n : Z) (tr : trace) :
  schedule (Sleep n :: tr) = Sleep n :: schedule tr.
Proof. reflexivity. Qed.

Lemma schedule_log (lvl : level) (msg : string) (tr : trace) :
  schedule (Log lvl msg :: tr) = schedule tr.
Proof. reflexivity. Qed.

Lemma schedule_close (tr : trace) : schedule (Close :: tr) = schedule tr.
Proof. reflexivity. Qed.

Lemma schedule_nil : schedule [] = [].
Proof. reflexivity. Qed.

Lemma requests_request (q : request) (tr : trace) :
  requests (Request q :: tr) = q :: requests tr.
Proof. reflexivity. Qed.

Lemma requests_sleep (n : Z) (tr : trace) : requests (Sleep n :: tr) = requests tr.
Proof. reflexivity. Qed.

Lemma requests_log (lvl : level) (msg : string) (tr : trace) :
  requests (Log lvl msg :: tr) = requests tr.
Proof. reflexivity. Qed.

Lemma requests_close (tr : trace) : requests (Close :: tr) = requests tr.
Proof. reflexivity. Qed.

Lemma requests_nil : requests [] = [].
Proof. reflexivity. Qed.

Lemma requests_gateway_events (o : outcome) : requests (gateway_events o) = [].
Proof. apply gateway_events_quiet. Qed.

Lemma schedule_gateway_events (o : outcome) : schedule (gateway_events o) = [].
Proof. apply gateway_events_quiet. Qed.

Create Rewrite HintDb trace.

#[export] Hint Rewrite
  schedule_app schedule_request schedule_sleep schedule_log schedule_close
  schedule_nil schedule_gateway_events
  requests_app requests_request requests_sleep requests_log requests_close
  requests_nil requests_gateway_events
  app_nil_r app_nil_l : trace.

(** Normalise the attempts and the schedule of a trace built by appending. *)
Ltac trace_norm := autorewrite with trace; cbn [app List.length].

Lemma gateway_no_credential upstream env_key method endpoint api_key json params tr :
  credential env_key api_key = None ->
  _make_luma_request upstream env_key method endpoint api_key json params tr =
  (Raise (Exn ValueError
            "LUMA_API_KEY environment variable or --api-key option is required"), tr).
Proof. intros Hk. unfold _make_luma_request. rewrite Hk. reflexivity. Qed.

Lemma gateway_result_reply (r : response) :
  gateway_result (Reply r) =
  if content r =? "" then Ok (PDict [])
  else if status_code r >=? 400
       then Raise (Exn ValueError (http_error (status_code r) (decoded r)))
       else Ok (decoded r).
Proof.
  unfold gateway_result, _make_luma_request, decoded.
  cbn [credential str_truthy String.eqb Ascii.eqb Bool.eqb negb].
  cbv [finally try_except bind attempts emit]. cbn [app requests List.length].
  destruct (content r =? ""); [reflexivity |].
  rewrite (decode_run r [_]).
  destruct (decode_ok r) as [v Hv]. rewrite Hv.
  destruct (status_code r >=? 400); reflexivity.
Qed.

Lemma gateway_result_fault (e : exn) :
  gateway_result (Fault e) =
  Raise (if is_RequestError e then Exn ValueError ("Network error: " ++ exn_msg e) else e).
Proof.
  unfold gateway_result, _make_luma_request.
  cbn [credential str_truthy String.eqb Ascii.eqb Bool.eqb negb].
  cbv [finally try_except bind attempts emit raise]. cbn [app requests List.length].
  destruct (is_RequestError e); reflexivity.
Qed.

Lemma startswith_app (s t : string) : startswith s (s ++ t) = true.
Proof.
  induction s as [| a s IH]; [reflexivity |].
  cbn [startswith append]. now rewrite Ascii.eqb_refl, IH.
Qed.

Lemma contains_here (s t : string) : startswith s t = true -> contains s t = true.
Proof. intros H. destruct t; cbn [contains]; now rewrite H. Qed.

Lemma contains_skip (s pre t : string) :
  contains s t = true -> contains s (pre ++ t) = true.
Proof.
  intros H. induction pre as [| a pre IH]; [exact H |].
  cbn [append contains]. rewrite IH. apply orb_true_r.
Qed.

Lemma contains_app (s pre post : string) : contains s (pre ++ s ++ post) = true.
Proof. apply contains_skip, contains_here, startswith_app. Qed.



End Facts.

(** ** The properties of the specification *)

Import Py Eff Server Fixtures Spec Facts.
Open Scope string_scope.

(** C3: [create_generation] called with a prompt "p" and resolution "720p"
    sends exactly the body with prompt, model "ray-2" and resolution, and
    for a reply object with id "test-id" and state "pending" that is not of
    generation type "image", the text returned contains the text-to-video
    line with that id and the line of the state. *)
Theorem create_generation_round_trip
    (upstream : nat -> outcome) (env_key api_key : option string)
    (key : string) (result : dict) :
  credential env_key api_key = Some key ->
  returns (upstream 0%nat) (PDict result) ->
  lookup "id" result = Some (PStr "test-id") ->
  lookup "state" result = Some (PStr "pending") ->
  eq_str (get "generation_type" (PStr "video") result) "image" = false ->
  exists text tr,
    create_generation upstream env_key
      [("prompt", PStr "p"); ("resolution", PStr "720p")] api_key [] = (Ok text, tr)
    /\ requests tr =
       [Req "POST" (base_url ++ "/generations") key
          (Some (PDict [("prompt", PStr "p"); ("model", PStr "ray-2");
                        ("resolution", PStr "720p")]))
          None]
    /\ contains "Created text-to-video generation with ID: test-id" text = true
    /\ contains "State: pending" text = true.
Proof.
  intros Hk Hr Hid Hst Hty.
  unfold create_generation. cbv [try_except bind].
  change (create_generation_data _ [])
    with (@Ok (pyval * dict) (PStr "p", [("prompt", PStr "p"); ("model", PStr "ray-2");
                        ("resolution", PStr "720p")]), @nil event).
  cbv iota beta.
  rewrite (gateway_run _ _ _ _ _ key) by exact Hk.
  cbn [requests List.length]. rewrite Hr.
  unfold create_generation_render. rewrite Hty.
  cbn [mem lookup String.eqb Ascii.eqb Bool.eqb andb].
  unfold ret, get at 1 2. rewrite Hid, Hst.
  eexists; eexists; split; [reflexivity |].
  split; [| split].
  - cbn [requests app]. rewrite (proj1 (gateway_events_quiet _)). reflexivity.
  - reflexivity.
  - reflexivity.
Qed.

(** *** Failures are rendered, never raised *)

Lemma raises_raise {A} (e : exn) : raises (@raise A e).
Proof. intros tr. now exists e, tr. Qed.

Lemma raises_bind_l {A B} (m : M A) (k : A -> M B) : raises m -> raises (bind m k).
Proof.
  intros Hm tr. destruct (Hm tr) as (e & tr' & H).
  exists e, tr'. unfold bind. now rewrite H.
Qed.

Lemma raises_bind_r {A B} (m : M A) (k : A -> M B) :
  (forall a, raises (k a)) -> raises (bind m k).
Proof.
  intros Hk tr. unfold bind. destruct (m tr) as [[a | e] tr1].
  - apply Hk.
  - now exists e, tr1.
Qed.

Lemma raises_try_except {A} (m : M A) (h : exn -> M A) :
  raises m -> (forall e, raises (h e)) -> raises (try_except m h).
Proof.
  intros Hm Hh tr. destruct (Hm tr) as (e & tr' & H).
  unfold try_except. rewrite H. apply Hh.
Qed.

Lemma upstream_error_raises (o : outcome) :
  upstream_error o = true -> exists e, gateway_result o = Raise e.
Proof.
  destruct o as [r | e]; cbn [upstream_error]; intros H.
  - apply andb_true_iff in H as [Hc Hs]. apply negb_true_iff in Hc.
    rewrite gateway_result_reply, Hc, Hs. eauto.
  - rewrite gateway_result_fault. eauto.
Qed.

Section Failures.

Variable upstream : nat -> outcome.
Variable env_key : option string.
Variable api_key : option string.

Lemma raises_gateway method endpoint json params :
  gateway_fails upstream env_key api_key ->
  raises (_make_luma_request upstream env_key method endpoint api_key json params).
Proof.
  intros [Hk | Hup] tr.
  - rewrite gateway_no_credential by exact Hk. eauto.
  - destruct (credential env_key api_key) as [key |] eqn:Hk.
    + rewrite (gateway_run _ _ _ _ _ key) by exact Hk.
      destruct (upstream_error_raises _ (Hup (List.length (requests tr)))) as [e He].
      rewrite He. eauto.
    + rewrite gateway_no_credential by exact Hk. eauto.
Qed.

Lemma raises_upscale_request generation_id resolution remaining :
  gateway_fails upstream env_key api_key ->
  raises (upscale_request upstream env_key generation_id resolution api_key remaining).
Proof.
  intros Hf. induction remaining as [| remaining IH]; cbn [upscale_request];
    (apply raises_try_except; [now apply raises_gateway |]); intros e;
    destruct (is_ValueError e); try apply raises_raise;
    destruct (contains "same resolution as the original" (exn_msg e));
    try apply raises_raise.
  destruct (contains "HTTP error 500" (exn_msg e)); [| apply raises_raise].
  apply raises_bind_r; intros _. apply raises_bind_r; intros _. exact IH.
Qed.

End Failures.

Lemma try_except_total {A} (m : M A) (h : exn -> M A) (P : A -> Prop) (tr : trace) :
  (forall e tr1, exists a tr2, h e tr1 = (Ok a, tr2) /\ P a) ->
  exists a tr2,
    try_except m h tr = (Ok a, tr2) /\ (raises m -> P a).
Proof.
  intros Hh. unfold try_except. destruct (m tr) as [[a | e] tr1] eqn:Hm.
  - exists a, tr1. split; [reflexivity |]. intros Hr.
    destruct (Hr tr) as (e & tr' & H). congruence.
  - destruct (Hh e tr1) as (a & tr2 & H & HP). exists a, tr2. now split.
Qed.

Ltac raise_steps Hf :=
  repeat first
    [ apply raises_raise
    | solve [apply raises_gateway; exact Hf]
    | solve [apply raises_upscale_request; exact Hf]
    | solve [apply raises_bind_l; raise_steps Hf]
    | match goal with
      | |- raises (if ?c then _ else _) => destruct c
      end
    | apply raises_bind_r; intros [? ?] ].

Ltac recover_steps :=
  intros ? ?; cbv [bind log emit ret];
  eexists; eexists; split; reflexivity.

(** Every [except] clause of the handlers returns a text that begins with
    the word Error. *)
Lemma upscale_error_recovers (parameters : dict) (e : exn) (tr1 : trace) :
  exists a tr2, upscale_error parameters e tr1 = (Ok a, tr2)
                /\ startswith "Error" a = true.
Proof.
  unfold upscale_error.
  destruct (contains "same resolution as the original" (exn_msg e));
    [| destruct (contains "HTTP error 400" (exn_msg e));
       [| destruct (contains "HTTP error 500" (exn_msg e))]];
    cbv [bind log emit ret]; eexists; eexists; split; reflexivity.
Qed.

(** C1 (amended): every handler returns a text and never an exception; and
    when a required argument is missing, no credential can be resolved, or
    every network attempt ends in a transport fault or in a reply of status
    400 or more with a body, the text begins with the word Error. *)
Theorem handlers_never_raise
    (upstream : nat -> outcome) (env_key : option string)
    (name : LumaTools) (parameters : dict) (api_key : option string) (tr : trace) :
  exists text tr',
    handler upstream env_key name parameters api_key tr = (Ok text, tr')
    /\ (failure upstream env_key name parameters api_key ->
        startswith "Error" text = true).
Proof.
  unfold failure, missing_argument.
  destruct name; cbn [handler required existsb];
    match goal with
    | |- context [?h upstream env_key parameters api_key tr] => unfold h
    end;
    cbv zeta;
    match goal with
    | |- context [try_except ?m ?h tr] =>
        destruct (try_except_total m h (fun a => startswith "Error" a = true) tr)
          as (text & tr' & Hrun & Herr);
        [ first [ apply upscale_error_recovers | recover_steps ] |]
    end;
    exists text, tr'; (split; [exact Hrun |]);
    intros [Hmiss | Hf]; apply Herr; try discriminate Hmiss;
    try (raise_steps Hf; fail).
  - (* create_generation, prompt missing *)
    rewrite orb_false_r in Hmiss. apply raises_bind_l.
    unfold create_generation_data. rewrite Hmiss. apply raises_raise.
  - (* get_generation, generation_id missing *)
    rewrite orb_false_r in Hmiss. rewrite Hmiss. apply raises_raise.
  - (* delete_generation, generation_id missing *)
    rewrite orb_false_r in Hmiss. rewrite Hmiss. apply raises_raise.
  - (* upscale_generation, generation_id or resolution missing *)
    rewrite orb_false_r in Hmiss.
    destruct (negb (truthy (get "generation_id" PNone parameters)));
      [apply raises_raise |].
    cbn [orb] in Hmiss. rewrite Hmiss. apply raises_raise.
  - (* add_audio, generation_id or prompt missing *)
    rewrite orb_false_r in Hmiss.
    destruct (negb (truthy (get "generation_id" PNone parameters)));
      [apply raises_raise |].
    cbn [orb] in Hmiss. rewrite Hmiss. apply raises_raise.
  - (* generate_image, prompt missing *)
    rewrite orb_false_r in Hmiss. apply raises_bind_l.
    unfold generate_image_data. rewrite Hmiss. apply raises_raise.
Qed.

Lemma handlers_never_raise_witness :
  failure (fun _ => Reply (error_response 503 "unavailable")) mock_env
    GET_CREDITS [] None
  /\ exists text tr',
       handler (fun _ => Reply (error_response 503 "unavailable")) mock_env
         GET_CREDITS [] None [] = (Ok text, tr')
       /\ startswith "Error" text = true.
Proof.
  assert (Hf : failure (fun _ => Reply (error_response 503 "unavailable")) mock_env
                 GET_CREDITS [] None)
    by (right; right; intros n; reflexivity).
  split; [exact Hf |].
  destruct (handlers_never_raise (fun _ => Reply (error_response 503 "unavailable"))
              mock_env GET_CREDITS [] None []) as (text & tr' & Hrun & Herr).
  exists text, tr'. split; [exact Hrun | exact (Herr Hf)].
Defined.

(** A reply without a body leaves the gateway before the status is looked
    at: a status of 400 or more is then not raised. *)
Lemma empty_body_is_not_raised (status : Z) (content_type : string)
    (json_value : pyval + string) :
  gateway_result (Reply (Resp status "" content_type "" json_value)) = Ok (PDict []).
Proof. rewrite gateway_result_reply. reflexivity. Qed.

(** C1, as stated, fails: a reply that is not the expected mapping is
    answered by [upscale_generation] with a text that does not begin with
    the word Error. *)
Lemma malformed_reply_not_an_error :
  fst (upscale_generation
         (fun _ => Reply (mock_response (PList [PStr "unexpected"]))) mock_env
         [("generation_id", PStr "test-id"); ("resolution", PStr "1080p")] None [])
  = Ok "Upscale initiated for generation test-id. Response: ['unexpected']"
  /\ startswith "Error"
       "Upscale initiated for generation test-id. Response: ['unexpected']" = false.
Proof. split; reflexivity. Qed.

(** *** The retry loop of upscale_generation *)

Section Upscale.

Variable upstream : nat -> outcome.
Variable env_key : option string.
Variable api_key : option string.
Variable key : string.
Hypothesis Hkey : credential env_key api_key = Some key.

Variables generation_id resolution : pyval.

Let run := upscale_request upstream env_key generation_id resolution api_key.
Let call := Request (upscale_call key generation_id resolution).

(** An attempt that succeeds ends the loop. *)
Lemma upscale_request_done (remaining : nat) (tr : trace) (v : pyval) :
  returns (upstream (List.length (requests tr))) v ->
  run remaining tr =
  (Ok v, (tr ++ call :: gateway_events (upstream (List.length (requests tr))))%list).
Proof.
  intros Hv. subst run call.
  destruct remaining; cbn [upscale_request]; unfold try_except;
    rewrite (gateway_run _ _ _ _ _ key) by exact Hkey;
    rewrite Hv; reflexivity.
Qed.

(** An attempt whose error carries the phrase of the resolution conflict
    ends the loop with the rewritten error. *)
Lemma upscale_request_conflict (remaining : nat) (tr : trace) (msg : string) :
  gateway_result (upstream (List.length (requests tr))) = Raise (Exn ValueError msg) ->
  contains "same resolution as the original" msg = true ->
  run remaining tr =
  (Raise (Exn ValueError
            ("Cannot upscale to " ++ str resolution
             ++ " because the original generation is already at this resolution. "
             ++ "Please choose a higher resolution.")),
   (tr ++ call :: gateway_events (upstream (List.length (requests tr))))%list).
Proof.
  intros He Hc. subst run call.
  destruct remaining; cbn [upscale_request]; unfold try_except;
    rewrite (gateway_run _ _ _ _ _ key) by exact Hkey;
    rewrite He; cbn [is_ValueError exn_class exn_msg]; rewrite Hc;
    reflexivity.
Qed.

(** An attempt that fails with a server error, while retries remain, is
    followed by a warning, a pause of two seconds and the next attempt. *)
Lemma upscale_request_retry (remaining : nat) (tr : trace) (msg : string) :
  gateway_result (upstream (List.length (requests tr))) = Raise (Exn ValueError msg) ->
  contains "same resolution as the original" msg = false ->
  contains "HTTP error 500" msg = true ->
  run (S remaining) tr =
  run remaining
    (tr ++ call :: gateway_events (upstream (List.length (requests tr)))
        ++ [Log WARNING ("Server error during upscale, retrying ("
                         ++ str_int (Z.of_nat (max_retries - remaining)) ++ "/"
                         ++ str_int (Z.of_nat max_retries) ++ ")...");
            Sleep 2])%list.
Proof.
  intros He Hc H5. subst run call.
  cbn [upscale_request]. unfold try_except at 1.
  rewrite (gateway_run _ _ _ _ _ key) by exact Hkey.
  rewrite He. cbn [is_ValueError exn_class exn_msg]. rewrite Hc, H5.
  cbv [bind log emit]. f_equal.
  rewrite <- !app_assoc. reflexivity.
Qed.

End Upscale.

Lemma http_500_error_result (o : outcome) :
  http_500_error o = true ->
  exists msg,
    gateway_result o = Raise (Exn ValueError msg)
    /\ contains "same resolution as the original" msg = false
    /\ contains "HTTP error 500" msg = true.
Proof.
  destruct o as [r | e]; cbn [http_500_error]; [| discriminate].
  intros H. apply andb_true_iff in H as [H Hphrase].
  apply andb_true_iff in H as [Hstatus Hbody].
  apply Z.eqb_eq in Hstatus. apply negb_true_iff in Hbody, Hphrase.
  exists (http_error 500 (decoded r)).
  rewrite gateway_result_reply, Hbody, Hstatus.
  split; [reflexivity | split; [exact Hphrase |]].
  unfold http_error. destruct (truthy (decoded r)); reflexivity.
Qed.

Lemma valid_resolution_cases (resolution : pyval) :
  in_strs resolution valid_resolutions = true ->
  exists s, resolution = PStr s /\ In s valid_resolutions.
Proof.
  destruct resolution as [| | | | s | |]; try discriminate.
  cbn [in_strs valid_resolutions existsb eq_str]. intros H.
  exists s. split; [reflexivity |].
  repeat (apply orb_true_iff in H as [H | H];
          [apply String.eqb_eq in H; subst s; unfold valid_resolutions; cbn [In]; tauto |]).
  discriminate.
Qed.

Lemma valid_resolution_truthy (resolution : pyval) :
  in_strs resolution valid_resolutions = true -> truthy resolution = true.
Proof.
  intros H. destruct (valid_resolution_cases _ H) as (s & -> & Hin).
  destruct Hin as [<- | [<- | [<- | [<- | []]]]]; reflexivity.
Qed.

(** The retry loop on the errors the gateway raises: when the first two
    network attempts of [upscale_generation] end in replies of status 500
    that carry a body and the third succeeds, exactly three attempts are
    made, each retry after a pause of two seconds, and the text returned is
    the rendering of the successful reply; when the first attempt ends in
    an error whose text contains the phrase "same resolution as the
    original", exactly one attempt is made and the text returned explains
    the resolution conflict. *)
Lemma upscale_retries_on_error_with_body
    (upstream : nat -> outcome) (env_key api_key : option string) (key : string)
    (parameters : dict) :
  let generation_id := get "generation_id" PNone parameters in
  let resolution := get "resolution" PNone parameters in
  let call := Request (upscale_call key generation_id resolution) in
  credential env_key api_key = Some key ->
  truthy generation_id = true ->
  in_strs resolution valid_resolutions = true ->
  (forall v,
     http_500_error (upstream 0%nat) = true ->
     http_500_error (upstream 1%nat) = true ->
     returns (upstream 2%nat) v ->
     exists text tr,
       upscale_generation upstream env_key parameters api_key [] = (Ok text, tr)
       /\ fst (upscale_render generation_id resolution v []) = Ok text
       /\ startswith "Upscale initiated for generation " text = true
       /\ schedule tr = [call; Sleep 2; call; Sleep 2; call])
  /\ (forall msg,
        gateway_result (upstream 0%nat) = Raise (Exn ValueError msg) ->
        contains "same resolution as the original" msg = true ->
        exists tr,
          upscale_generation upstream env_key parameters api_key [] =
          (Ok ("Error upscaling generation " ++ str generation_id
               ++ ": Cannot upscale to " ++ str resolution
               ++ " because the original generation is already at this resolution. "
               ++ "Please choose a higher resolution."), tr)
          /\ schedule tr = [call]).
Proof.
  intros generation_id resolution call Hkey Hid Hres.
  pose proof (valid_resolution_truthy _ Hres) as Htruthy.
  split.
  - intros v H0 H1 H2.
    destruct (http_500_error_result _ H0) as (m0 & He0 & Hp0 & Hs0).
    destruct (http_500_error_result _ H1) as (m1 & He1 & Hp1 & Hs1).
    unfold upscale_generation. cbv zeta. fold generation_id resolution.
    rewrite Hid, Htruthy, Hres. cbn [negb]. unfold try_except at 1, bind at 1.
    unfold max_retries at 1.
    rewrite (upscale_request_retry _ _ _ key Hkey _ _ 1 [] m0 He0 Hp0 Hs0).
    erewrite (upscale_request_retry _ _ _ key Hkey _ _ 0 _ m1);
      trace_norm; try eassumption.
    erewrite (upscale_request_done _ _ _ key Hkey _ _ 0 _ v);
      trace_norm; try eassumption.
    unfold upscale_render.
    destruct v; cbv [bind log emit ret]; cbn [fst];
      (eexists; eexists; split; [reflexivity |]);
      (split; [reflexivity |]); (split; [reflexivity |]);
      trace_norm; reflexivity.
  - intros msg He Hc.
    unfold upscale_generation. cbv zeta. fold generation_id resolution.
    rewrite Hid, Htruthy, Hres. cbn [negb]. unfold try_except at 1, bind at 1.
    rewrite (upscale_request_conflict _ _ _ key Hkey _ _ _ [] msg He Hc).
    destruct (valid_resolution_cases _ Hres) as (s & Hs & Hin). subst call. rewrite Hs.
    destruct Hin as [<- | [<- | [<- | [<- | []]]]];
      (eexists; split; [reflexivity |]); trace_norm; reflexivity.
Qed.

(** C2: the retry loop misses the replies of status 500 that carry no
    body.  The gateway returns the empty object for a reply without a body
    before it looks at the status, so of two such replies followed by a
    success the first is taken for the success: one network attempt is
    made, without a pause, and the text returned is the rendering of the
    empty object, not of the third reply.  With the same two replies
    carrying a body, the three attempts and the two pauses are made. *)
Theorem bodiless_server_error_not_retried :
  let call := Request (upscale_call "test-key" (PStr "test-id") (PStr "1080p")) in
  upscale_generation bodiless_server_errors mock_env upscale_arguments None [] =
  (Ok ("Upscale initiated for generation test-id" ++ nl
       ++ "Target resolution: 1080p" ++ nl
       ++ "Status: Processing" ++ nl
       ++ "Created at: Unknown" ++ nl
       ++ "Model: Unknown"),
   [call; Close])
  /\ schedule (snd (upscale_generation two_server_errors mock_env upscale_arguments
                      None []))
     = [call; Sleep 2; call; Sleep 2; call]
  /\ fst (upscale_generation two_server_errors mock_env upscale_arguments None [])
     = Ok ("Upscale initiated for generation test-id" ++ nl
           ++ "Target resolution: 1080p" ++ nl
           ++ "Status: processing" ++ nl
           ++ "Created at: 2024-03-20T12:00:00Z" ++ nl
           ++ "Model: Unknown").
Proof. repeat split. Qed.

(** *** The reply shapes of list_generations *)














(** *** create_generation: validation and keyframes *)

Lemma quiet_ret {A} (a : A) : quiet (ret a).
Proof. intros tr r tr' H. inversion H. exists []. now rewrite app_nil_r. Qed.

Lemma quiet_raise {A} (e : exn) : quiet (@raise A e).
Proof. intros tr r tr' H. inversion H. exists []. now rewrite app_nil_r. Qed.

Lemma quiet_log (lvl : level) (msg : string) : quiet (log lvl msg).
Proof. intros tr r tr' H. inversion H. now exists [Log lvl msg]. Qed.

Lemma quiet_bind {A B} (m : M A) (k : A -> M B) :
  quiet m -> (forall a, quiet (k a)) -> quiet (bind m k).
Proof.
  intros Hm Hk tr r tr' H. unfold bind in H.
  destruct (m tr) as [[a | e] tr1] eqn:Hrun;
    destruct (Hm _ _ _ Hrun) as (added1 & -> & Hq1).
  - destruct (Hk a _ _ _ H) as (added2 & -> & Hq2).
    exists (added1 ++ added2)%list. rewrite app_assoc, requests_app, Hq1, Hq2.
    now split.
  - inversion H; subst. now exists added1.
Qed.

Lemma quiet_requests {A} (m : M A) (tr tr' : trace) (r : result A) :
  quiet m -> m tr = (r, tr') -> requests tr' = requests tr.
Proof.
  intros Hq H. destruct (Hq _ _ _ H) as (added & -> & Ha).
  rewrite requests_app, Ha. apply app_nil_r.
Qed.

Lemma quiet_dot_get (v : pyval) (k : string) : quiet (dot_get v k).
Proof. destruct v; first [apply quiet_ret | apply quiet_raise]. Qed.

Ltac quiet_steps :=
  repeat first
    [ apply quiet_ret | apply quiet_raise | apply quiet_log | apply quiet_dot_get
    | apply quiet_bind; [| intros ?]
    | match goal with
      | |- quiet (match ?x with _ => _ end) => destruct x
      end ].

Lemma quiet_create_generation_data (parameters : dict) :
  quiet (create_generation_data parameters).
Proof.
  unfold create_generation_data, add_keyframes, keyframe_log_info. cbv zeta.
  quiet_steps.
Qed.

Lemma lookup_set_same (k : string) (v : pyval) (d : dict) :
  lookup k (set k v d) = Some v.
Proof.
  induction d as [| [k' v'] d IH]; cbn [set lookup].
  - now rewrite String.eqb_refl.
  - destruct (String.eqb k k') eqn:E; cbn [lookup]; rewrite E; [reflexivity | exact IH].
Qed.

Section CreateGeneration.

Variable upstream : nat -> outcome.
Variable env_key : option string.
Variable api_key : option string.
Variable key : string.
Hypothesis Hkey : credential env_key api_key = Some key.

Variable parameters : dict.

(** Once the body is built, the handler makes its one network attempt with
    it and renders the reply. *)
Lemma create_generation_run (prompt : pyval) (data : dict) (tr1 : trace) (result : pyval) :
  create_generation_data parameters [] = (Ok (prompt, data), tr1) ->
  returns (upstream 0%nat) result ->
  exists tr2,
    requests tr2 = [Req "POST" (base_url ++ "/generations") key (Some (PDict data)) None]
    /\ create_generation upstream env_key parameters api_key [] =
       try_except (create_generation_render parameters data prompt result)
         (fun e =>
            log ERROR ("Error in create_generation: " ++ exn_msg e) ;;
            ret ("Error creating generation: " ++ exn_msg e)) tr2.
Proof.
  intros Hdata Hv.
  pose proof (quiet_requests _ _ _ _ (quiet_create_generation_data parameters) Hdata)
    as Hq.
  cbn [requests] in Hq.
  eexists. split; [| unfold create_generation, try_except, bind at 1; rewrite Hdata;
                     unfold bind at 1;
                     rewrite (gateway_run _ _ _ _ _ key) by exact Hkey;
                     rewrite Hq; cbn [List.length]; rewrite Hv; reflexivity].
  trace_norm. rewrite Hq. reflexivity.
Qed.

(** The optional duration is checked by a warning only. *)
Lemma create_generation_data_run (tr : trace) :
  truthy (get "prompt" PNone parameters) = true ->
  exists tr1,
    requests tr1 = requests tr
    /\ create_generation_data parameters tr =
       (d <- add_keyframes parameters (base_data parameters) ;;
        ret (get "prompt" PNone parameters, d)) tr1.
Proof.
  intros Hp. unfold create_generation_data. rewrite Hp. cbn [negb]. cbv zeta.
  fold (base_data parameters). unfold bind at 1.
  destruct (lookup "duration" parameters) as [duration |];
    [destruct (negb (is_none duration) && negb (in_strs duration ["5s"; "9s"])) |];
    cbv [log emit ret]; eexists; (split; [| reflexivity]); trace_norm; reflexivity.
Qed.

(** A keyframes mapping with a frame, whose frames are objects, is copied
    into the body as it is. *)
Lemma add_keyframes_copies (kf data : dict) (tr : trace) :
  lookup "keyframes" parameters = Some (PDict kf) ->
  mem "frame0" kf || mem "frame1" kf = true ->
  frame_ok "frame0" kf = true -> frame_ok "frame1" kf = true ->
  exists tr',
    add_keyframes parameters data tr = (Ok (set "keyframes" (PDict kf) data), tr').
Proof.
  intros Hkf Hany H0 H1. unfold add_keyframes. rewrite Hkf.
  assert (Ht : truthy (PDict kf) = true).
  { destruct kf; [discriminate Hany | reflexivity]. }
  rewrite Ht. cbn [existsb]. rewrite orb_false_r, Hany. cbn [negb].
  unfold keyframe_log_info, frame_ok in *. unfold mem.
  destruct (lookup "frame0" kf) as [[| | | | | | f0] |]; try discriminate H0;
    destruct (lookup "frame1" kf) as [[| | | | | | f1] |]; try discriminate H1;
    cbv [bind dot_get ret log emit]; eexists; reflexivity.
Qed.

End CreateGeneration.

(** *** create_generation: the labels of the keyframes *)

Section Keyframes.

Variables (data kf : dict).
Hypothesis Hdata : lookup "keyframes" data = Some (PDict kf).






End Keyframes.



(** *** create_generation: the check of the keyframes *)

Lemma quiet_py_in (k : string) (v : pyval) : quiet (py_in k v).
Proof. destruct v; first [apply quiet_ret | apply quiet_raise]. Qed.

Lemma quiet_py_index (v : pyval) (k : string) : quiet (py_index v k).
Proof.
  destruct v; try apply quiet_raise. cbn [py_index].
  destruct (lookup k d); [apply quiet_ret | apply quiet_raise].
Qed.

Lemma quiet_create_generation_render (parameters data : dict) (prompt result : pyval) :
  quiet (create_generation_render parameters data prompt result).
Proof.
  unfold create_generation_render, keyframe_info. cbv zeta.
  repeat first [ apply quiet_py_in | apply quiet_py_index | quiet_steps ].
Qed.

Lemma lookup_set_other (k k' : string) (v : pyval) (d : dict) :
  String.eqb k k' = false -> lookup k (set k' v d) = lookup k d.
Proof.
  intros Hne. induction d as [| [k0 v0] d IH]; cbn [set lookup].
  - now rewrite Hne.
  - destruct (String.eqb k' k0) eqn:E; cbn [lookup].
    + apply String.eqb_eq in E. subst k0. now rewrite Hne.
    + now rewrite IH.
Qed.

(** The optional parameters never bring a keyframes key into the body. *)
Lemma base_data_no_keyframes (parameters : dict) :
  lookup "keyframes" (base_data parameters) = None.
Proof.
  unfold base_data, copy_optional.
  assert (H : forall names data,
             forallb (fun n => negb (String.eqb "keyframes" n)) names = true ->
             lookup "keyframes" data = None ->
             lookup "keyframes"
               (fold_left
                  (fun data param =>
                     match lookup param parameters with
                     | Some v => if is_none v then data else set param v data
                     | None => data
                     end) names data) = None).
  { induction names as [| n names IH]; intros data Hn Hd; [exact Hd |].
    cbn [forallb] in Hn. apply andb_true_iff in Hn as [Hn Hns].
    apply negb_true_iff in Hn. cbn [fold_left]. apply IH; [exact Hns |].
    destruct (lookup n parameters) as [v |]; [| exact Hd].
    destruct (is_none v); [exact Hd |]. now rewrite lookup_set_other. }
  apply H; reflexivity.
Qed.

Section KeyframesCheck.

Variable upstream : nat -> outcome.
Variable env_key : option string.
Variable api_key : option string.
Variable parameters : dict.

(** Once the body is built and a credential is at hand, the handler makes
    exactly one network attempt, with that body, and returns a text. *)
Lemma create_generation_sends (key : string) (prompt : pyval) (data : dict) (tr1 : trace) :
  credential env_key api_key = Some key ->
  create_generation_data parameters [] = (Ok (prompt, data), tr1) ->
  exists text tr,
    create_generation upstream env_key parameters api_key [] = (Ok text, tr)
    /\ requests tr =
       [Req "POST" (base_url ++ "/generations") key (Some (PDict data)) None].
Proof.
  intros Hkey Hdata.
  pose proof (quiet_requests _ _ _ _ (quiet_create_generation_data parameters) Hdata)
    as Hq.
  cbn [requests] in Hq.
  unfold create_generation, try_except, bind at 1. rewrite Hdata. unfold bind at 1.
  rewrite (gateway_run _ _ _ _ _ key) by exact Hkey. rewrite Hq. cbn [List.length].
  destruct (gateway_result (upstream 0%nat)) as [v | e].
  - destruct (create_generation_render parameters data prompt v _) as [[text | e] tr]
      eqn:Hr; apply (quiet_requests _ _ _ _ (quiet_create_generation_render _ _ _ _)) in Hr;
      cbv [bind log emit ret]; eexists; eexists; (split; [reflexivity |]);
      trace_norm; rewrite Hr; trace_norm; rewrite Hq; reflexivity.
  - cbv [bind log emit ret]. eexists; eexists; (split; [reflexivity |]).
    trace_norm. rewrite Hq. reflexivity.
Qed.

End KeyframesCheck.

(** C7 (amended): for a call of [create_generation] with a prompt and a
    keyframes mapping, a mapping that is not empty and has neither frame0
    nor frame1 is refused with the text saying so, without a network
    attempt; an empty mapping is treated as no keyframes at all, and the
    body sent has no keyframes key; a mapping with frame0 or frame1, each
    frame present being an object, is copied unchanged into the body
    sent. *)
Theorem create_generation_keyframes_checked
    (upstream : nat -> outcome) (env_key api_key : option string)
    (parameters kf : dict) :
  truthy (get "prompt" PNone parameters) = true ->
  lookup "keyframes" parameters = Some (PDict kf) ->
  (kf <> [] -> mem "frame0" kf = false -> mem "frame1" kf = false ->
   exists tr,
     create_generation upstream env_key parameters api_key [] =
     (Ok "Error creating generation: keyframes must contain frame0 or frame1", tr)
     /\ requests tr = [])
  /\ (forall key,
        kf = [] -> credential env_key api_key = Some key ->
        exists text tr,
          create_generation upstream env_key parameters api_key [] = (Ok text, tr)
          /\ requests tr =
             [Req "POST" (base_url ++ "/generations") key
                (Some (PDict (base_data parameters))) None]
          /\ lookup "keyframes" (base_data parameters) = None)
  /\ (forall key,
        mem "frame0" kf || mem "frame1" kf = true ->
        frame_ok "frame0" kf = true -> frame_ok "frame1" kf = true ->
        credential env_key api_key = Some key ->
        exists text tr data,
          create_generation upstream env_key parameters api_key [] = (Ok text, tr)
          /\ requests tr =
             [Req "POST" (base_url ++ "/generations") key (Some (PDict data)) None]
          /\ lookup "keyframes" data = Some (PDict kf)).
Proof.
  intros Hp Hkf.
  destruct (create_generation_data_run parameters [] Hp) as (tr1 & Hq1 & Hd).
  cbn [requests] in Hq1.
  repeat split.
  - intros Hne H0 H1.
    unfold create_generation, try_except, bind at 1. rewrite Hd.
    unfold bind at 1, add_keyframes. rewrite Hkf.
    assert (Ht : truthy (PDict kf) = true) by (destruct kf; [congruence | reflexivity]).
    rewrite Ht. cbn [existsb]. rewrite H0, H1. cbv [orb negb raise bind log emit ret].
    eexists. split; [reflexivity |]. trace_norm. exact Hq1.
  - intros key -> Hkey.
    assert (Hdata : create_generation_data parameters [] =
                    (Ok (get "prompt" PNone parameters, base_data parameters), tr1)).
    { rewrite Hd. unfold bind, add_keyframes. rewrite Hkf. reflexivity. }
    destruct (create_generation_sends upstream env_key api_key parameters key _ _ _
                Hkey Hdata) as (text & tr & Hrun & Hreq).
    exists text, tr. auto using base_data_no_keyframes.
  - intros key Hany H0 H1 Hkey.
    destruct (add_keyframes_copies parameters kf (base_data parameters) tr1
                Hkf Hany H0 H1) as (tr2 & Ha).
    assert (Hdata : create_generation_data parameters [] =
                    (Ok (get "prompt" PNone parameters,
                         set "keyframes" (PDict kf) (base_data parameters)), tr2)).
    { rewrite Hd. unfold bind. rewrite Ha. reflexivity. }
    destruct (create_generation_sends upstream env_key api_key parameters key _ _ _
                Hkey Hdata) as (text & tr & Hrun & Hreq).
    exists text, tr, (set "keyframes" (PDict kf) (base_data parameters)).
    auto using lookup_set_same.
Qed.

(** *** get_credits *)

(** C8: for a reply with a credit_balance key, [get_credits] returns the
    heading and the one line "Available Credits:" with that value, and
    nothing of the triple even when its keys are present; for a reply
    without that key it returns the three labelled lines for
    credits_available, credits_used and credits_total, each printing
    "Unknown" when its key is absent. *)
Theorem get_credits_shapes
    (upstream : nat -> outcome) (env_key api_key : option string) (key : string)
    (parameters result : dict) :
  credential env_key api_key = Some key ->
  returns (upstream 0%nat) (PDict result) ->
  let shown k :=
    match lookup k result with Some v => str v | None => "Unknown" end in
  (forall credit_balance,
     lookup "credit_balance" result = Some credit_balance ->
     exists tr,
       get_credits upstream env_key parameters api_key [] =
       (Ok ("Credit Information:" ++ nl
            ++ "Available Credits: " ++ str credit_balance), tr))
  /\ (lookup "credit_balance" result = None ->
      exists tr,
        get_credits upstream env_key parameters api_key [] =
        (Ok ("Credit Information:" ++ nl
             ++ "Available Credits: " ++ shown "credits_available" ++ nl
             ++ "Used Credits: " ++ shown "credits_used" ++ nl
             ++ "Total Credits: " ++ shown "credits_total"), tr)).
Proof.
  intros Hkey Hv shown.
  assert (Hrun : get_credits upstream env_key parameters api_key [] =
                 try_except (get_credits_render (PDict result))
                   (fun e =>
                      log ERROR ("Error in get_credits: " ++ exn_msg e) ;;
                      ret ("Error retrieving credit information: " ++ exn_msg e))
                   ([] ++ Request (Req "GET" (base_url ++ "/" ++ "credits") key None None)
                       :: gateway_events (upstream 0%nat))%list).
  { unfold get_credits, try_except, bind.
    rewrite (gateway_run _ _ _ _ _ key) by exact Hkey.
    cbn [requests List.length]. rewrite Hv. reflexivity. }
  rewrite Hrun. unfold try_except, get_credits_render, mem, get. subst shown. cbv beta.
  split.
  - intros credit_balance Hb. rewrite Hb. eexists. reflexivity.
  - intros Hb. rewrite Hb.
    destruct (lookup "credits_available" result), (lookup "credits_used" result),
      (lookup "credits_total" result); eexists; reflexivity.
Qed.

(** *** generate_image *)

Lemma quiet_generate_image_data (parameters : dict) :
  quiet (generate_image_data parameters).
Proof. unfold generate_image_data. cbv zeta. quiet_steps. Qed.

Lemma quiet_generate_image_render (parameters : dict) (prompt result : pyval) :
  quiet (generate_image_render parameters prompt result).
Proof. unfold generate_image_render. cbv zeta. quiet_steps. Qed.

Lemma generate_image_render_dict (parameters result : dict) (prompt : pyval) (tr : trace) :
  exists rest,
    generate_image_render parameters prompt (PDict result) tr =
    (Ok ("Image generation " ++ rest), tr).
Proof.
  unfold generate_image_render. cbv zeta. cbv [ret]. cbn [join].
  eexists. reflexivity.
Qed.

(** Once the body is built and a credential is at hand, [generate_image]
    makes exactly one network attempt, with that body, and a reply that is
    an object is rendered, not reported as an error. *)
Lemma generate_image_sends
    (upstream : nat -> outcome) (env_key api_key : option string) (key : string)
    (parameters data : dict) (prompt : pyval) (tr1 : trace) :
  credential env_key api_key = Some key ->
  generate_image_data parameters [] = (Ok (prompt, data), tr1) ->
  exists text tr2,
    generate_image upstream env_key parameters api_key [] =
    (Ok text, (tr1 ++ Request (Req "POST" (base_url ++ "/generations/image") key
                           (Some (PDict data)) None) :: tr2)%list)
    /\ requests tr1 = [] /\ requests tr2 = []
    /\ (forall result, returns (upstream 0%nat) (PDict result) ->
                       startswith "Image generation " text = true).
Proof.
  intros Hkey Hdata.
  pose proof (quiet_requests _ _ _ _ (quiet_generate_image_data parameters) Hdata)
    as Hq.
  cbn [requests] in Hq.
  unfold generate_image, try_except, bind at 1. rewrite Hdata. unfold bind at 1.
  rewrite (gateway_run _ _ _ _ _ key) by exact Hkey. rewrite Hq. cbn [List.length].
  destruct (gateway_result (upstream 0%nat)) as [v | e] eqn:Hres.
  - destruct (generate_image_render parameters prompt v _) as [[text | e] tr] eqn:Hr;
      destruct (quiet_generate_image_render _ _ _ _ _ _ Hr) as (added & -> & Ha).
    + exists text. eexists. split; [| split; [reflexivity | split]].
      * rewrite <- !app_assoc. cbn [app]. reflexivity.
      * trace_norm. exact Ha.
      * intros result Hv. unfold returns in Hv. rewrite Hres in Hv.
        inversion Hv; subst v.
        destruct (generate_image_render_dict parameters result prompt
                    (tr1 ++ Request (Req "POST" (base_url ++ "/" ++ "generations/image")
                                   key (Some (PDict data)) None)
                         :: gateway_events (upstream 0%nat))%list) as (rest & Hd).
        rewrite Hd in Hr. inversion Hr. reflexivity.
    + cbv [bind log emit ret]. eexists; eexists; split; [| split; [reflexivity | split]].
      * rewrite <- !app_assoc. cbn [app]. reflexivity.
      * trace_norm. rewrite Ha. reflexivity.
      * intros result Hv. unfold returns in Hv. rewrite Hres in Hv.
        inversion Hv; subst v.
        destruct (generate_image_render_dict parameters result prompt
                    (tr1 ++ Request (Req "POST" (base_url ++ "/" ++ "generations/image")
                                   key (Some (PDict data)) None)
                         :: gateway_events (upstream 0%nat))%list) as (rest & Hd).
        rewrite Hd in Hr. discriminate Hr.
  - cbv [bind log emit ret]. eexists; eexists; split; [| split; [reflexivity | split]].
    + rewrite <- !app_assoc. cbn [app]. reflexivity.
    + trace_norm. reflexivity.
    + intros result Hv. unfold returns in Hv. congruence.
Qed.

(** C9: a model that is not photon-1 or photon-flash-1 does not make
    [generate_image] fail: a warning is logged, the model is replaced by
    photon-1, the body sent is exactly the prompt and the model photon-1,
    and a reply that is an object is rendered; a supported model is sent
    as it is, without a warning. *)
Theorem generate_image_model_coerced
    (upstream : nat -> outcome) (env_key api_key : option string) (key : string)
    (parameters : dict) :
  let prompt := get "prompt" PNone parameters in
  let model := get "model" (PStr "photon-1") parameters in
  let call m :=
    Request (Req "POST" (base_url ++ "/generations/image") key
               (Some (PDict [("prompt", prompt); ("model", m)])) None) in
  let rendered text :=
    forall result, returns (upstream 0%nat) (PDict result) ->
                   startswith "Image generation " text = true in
  credential env_key api_key = Some key ->
  truthy prompt = true ->
  (in_strs model image_models = false ->
   exists text tr,
     generate_image upstream env_key parameters api_key [] =
     (Ok text,
      Log WARNING ("Unsupported image model: " ++ str model
                   ++ ". Using 'photon-1' instead. "
                   ++ "Only 'photon-1' and 'photon-flash-1' are supported for image generation.")
      :: call (PStr "photon-1") :: tr)
     /\ requests tr = [] /\ rendered text)
  /\ (in_strs model image_models = true ->
      exists text tr,
        generate_image upstream env_key parameters api_key [] =
        (Ok text, call model :: tr)
        /\ requests tr = [] /\ rendered text).
Proof.
  intros prompt model call rendered Hkey Hp. split; intros Hm.
  - assert (Hdata : generate_image_data parameters [] =
                    (Ok (prompt, [("prompt", prompt); ("model", PStr "photon-1")]),
                     [Log WARNING ("Unsupported image model: " ++ str model
                        ++ ". Using 'photon-1' instead. "
                        ++ "Only 'photon-1' and 'photon-flash-1' are supported for image generation.")])).
    { unfold generate_image_data. fold prompt. rewrite Hp. cbn [negb]. cbv zeta.
      fold model. rewrite Hm. reflexivity. }
    destruct (generate_image_sends upstream env_key api_key key parameters _ _ _
                Hkey Hdata) as (text & tr & Hrun & _ & Hq & Hr).
    exists text, tr. split; [exact Hrun | split; [exact Hq | exact Hr]].
  - assert (Hdata : generate_image_data parameters [] =
                    (Ok (prompt, [("prompt", prompt); ("model", model)]), [])).
    { unfold generate_image_data. fold prompt. rewrite Hp. cbn [negb]. cbv zeta.
      fold model. rewrite Hm. reflexivity. }
    destruct (generate_image_sends upstream env_key api_key key parameters _ _ _
                Hkey Hdata) as (text & tr & Hrun & _ & Hq & Hr).
    exists text, tr. split; [exact Hrun | split; [exact Hq | exact Hr]].
Qed.

(** *** Required arguments *)

Ltac contains_steps := repeat first [ reflexivity | apply contains_skip ].

Ltac refusal_steps :=
  cbv [try_except bind raise log emit ret upscale_error exn_msg];
  eexists; eexists;
  (split; [reflexivity |]); (split; [reflexivity |]); (split; [reflexivity |]);
  cbv beta zeta; contains_steps.

(** A handler whose required argument is absent or falsy makes no network
    attempt and returns the text of the error that names the argument. *)
Lemma missing_argument_refused
    (upstream : nat -> outcome) (env_key : option string)
    (name : LumaTools) (parameters : dict) (api_key : option string) :
  missing_argument name parameters = true ->
  exists text tr,
    handler upstream env_key name parameters api_key [] = (Ok text, tr)
    /\ requests tr = []
    /\ startswith "Error" text = true
    /\ contains "parameter is required" text = true.
Proof.
  unfold missing_argument.
  destruct name; cbn [handler required existsb]; intros Hmiss;
    try discriminate Hmiss; rewrite orb_false_r in Hmiss.
  - unfold create_generation, create_generation_data. rewrite Hmiss. refusal_steps.
  - unfold get_generation. cbv zeta. rewrite Hmiss. refusal_steps.
  - unfold delete_generation. cbv zeta. rewrite Hmiss. refusal_steps.
  - unfold upscale_generation. cbv zeta.
    destruct (negb (truthy (get "generation_id" PNone parameters)));
      [| cbn [orb] in Hmiss; rewrite Hmiss]; refusal_steps.
  - unfold add_audio. cbv zeta.
    destruct (negb (truthy (get "generation_id" PNone parameters)));
      [| cbn [orb] in Hmiss; rewrite Hmiss]; refusal_steps.
  - unfold generate_image, generate_image_data. rewrite Hmiss. refusal_steps.
Qed.

(** C10: a required argument that is present with a falsy value, such as
    the empty string for a prompt or a generation id, is treated like an
    absent one: the handler returns the text of the error saying which
    parameter is required and makes no network attempt. *)
Theorem falsy_argument_is_missing
    (upstream : nat -> outcome) (env_key : option string)
    (name : LumaTools) (parameters : dict) (api_key : option string)
    (k : string) (v : pyval) :
  In k (required name) ->
  lookup k parameters = Some v ->
  truthy v = false ->
  exists text tr,
    handler upstream env_key name parameters api_key [] = (Ok text, tr)
    /\ requests tr = []
    /\ startswith "Error" text = true
    /\ contains "parameter is required" text = true.
Proof.
  intros Hin Hk Hv. apply missing_argument_refused.
  unfold missing_argument. apply existsb_exists. exists k. split; [exact Hin |].
  unfold get. now rewrite Hk, Hv.
Qed.

(** *** upscale_generation: the check of the resolution *)

(** A resolution outside the four supported ones is refused before any
    network attempt, by a text that begins as every error of the handler. *)
Lemma invalid_resolution_refused
    (upstream : nat -> outcome) (env_key api_key : option string) (parameters : dict) :
  truthy (get "generation_id" PNone parameters) = true ->
  in_strs (get "resolution" PNone parameters) valid_resolutions = false ->
  exists text tr,
    upscale_generation upstream env_key parameters api_key [] = (Ok text, tr)
    /\ requests tr = []
    /\ startswith "Error upscaling generation " text = true.
Proof.
  intros Hid Hres. unfold upscale_generation. cbv zeta. rewrite Hid, Hres.
  cbn [negb]. destruct (negb (truthy (get "resolution" PNone parameters)));
    unfold try_except, raise;
    match goal with
    | |- context [upscale_error parameters ?e ?t] =>
        unfold upscale_error;
        destruct (contains "same resolution as the original" (exn_msg e));
        [| destruct (contains "HTTP error 400" (exn_msg e));
           [| destruct (contains "HTTP error 500" (exn_msg e))]]
    end;
    cbv [bind log emit ret]; eexists; eexists; repeat split; reflexivity.
Qed.

(** C4: the check of the resolution does refuse the invalid resolution
    "HTTP error 500" before any network attempt, but the text returned is
    the explanation of a server error, which says nothing of the
    resolution: the [except] clause takes the text of the validation error
    for an upstream error. *)
Theorem invalid_resolution_reported_as_server_error
    (upstream : nat -> outcome) (env_key api_key : option string) :
  let parameters :=
    [("generation_id", PStr "test-id"); ("resolution", PStr "HTTP error 500")] in
  let text :=
    "Error upscaling generation test-id: Server Error. This could be due to:" ++ nl
    ++ "- The generation not being in a completed state" ++ nl
    ++ "- The generation already being upscaled" ++ nl
    ++ "- The Luma API experiencing temporary issues" ++ nl ++ nl
    ++ "Please check the generation status and try again later." in
  in_strs (get "resolution" PNone parameters) valid_resolutions = false
  /\ upscale_generation upstream env_key parameters api_key [] =
     (Ok text,
      [Log ERROR ("Server error in upscale_generation: "
                  ++ "Invalid resolution: HTTP error 500. "
                  ++ "Must be one of 540p, 720p, 1080p, 4k")])
  /\ contains "resolution" text = false.
Proof. repeat split. Qed.

(** *** The properties at the inputs of the test suite *)

Lemma upscale_retries_on_error_with_body_witness :
  (exists text tr,
     upscale_generation two_server_errors mock_env upscale_arguments None []
     = (Ok text, tr)
     /\ fst (upscale_render (PStr "test-id") (PStr "1080p") MOCK_UPSCALE_RESPONSE [])
        = Ok text
     /\ startswith "Upscale initiated for generation " text = true
     /\ schedule tr =
        [Request (upscale_call "test-key" (PStr "test-id") (PStr "1080p")); Sleep 2;
         Request (upscale_call "test-key" (PStr "test-id") (PStr "1080p")); Sleep 2;
         Request (upscale_call "test-key" (PStr "test-id") (PStr "1080p"))])
  /\ (exists tr,
        upscale_generation resolution_conflict mock_env upscale_arguments None []
        = (Ok ("Error upscaling generation test-id: Cannot upscale to 1080p"
               ++ " because the original generation is already at this resolution. "
               ++ "Please choose a higher resolution."), tr)
        /\ schedule tr =
           [Request (upscale_call "test-key" (PStr "test-id") (PStr "1080p"))]).
Proof.
  split.
  - apply (proj1 (upscale_retries_on_error_with_body two_server_errors mock_env None
                    "test-key" upscale_arguments eq_refl eq_refl eq_refl)
             MOCK_UPSCALE_RESPONSE); reflexivity.
  - apply (proj2 (upscale_retries_on_error_with_body resolution_conflict mock_env None
                    "test-key" upscale_arguments eq_refl eq_refl eq_refl)
             ("HTTP error 400: {'detail': 'Cannot upscale to the same resolution as "
              ++ "the original generation'}")); reflexivity.
Defined.

Lemma create_generation_round_trip_witness :
  exists text tr,
    create_generation (always MOCK_GENERATION_RESPONSE) mock_env
      [("prompt", PStr "p"); ("resolution", PStr "720p")] None [] = (Ok text, tr)
    /\ requests tr =
       [Req "POST" (base_url ++ "/generations") "test-key"
          (Some (PDict [("prompt", PStr "p"); ("model", PStr "ray-2");
                        ("resolution", PStr "720p")]))
          None]
    /\ contains "Created text-to-video generation with ID: test-id" text = true
    /\ contains "State: pending" text = true.
Proof.
  apply (create_generation_round_trip (always MOCK_GENERATION_RESPONSE) mock_env None
           "test-key"
           [("id", PStr "test-id");
            ("state", PStr "pending");
            ("created_at", PStr "2024-03-20T12:00:00Z");
            ("assets", PDict []);
            ("version", PStr "1.0");
            ("request", PDict [("prompt", PStr "test prompt"); ("model", PStr "ray-2")])]);
    reflexivity.
Defined.



Lemma create_generation_keyframes_checked_witness :
  (exists tr,
     create_generation (always MOCK_GENERATION_RESPONSE) mock_env
       (with_keyframes [("frame2", image_frame)]) None [] =
     (Ok "Error creating generation: keyframes must contain frame0 or frame1", tr)
     /\ requests tr = [])
  /\ (exists text tr data,
        create_generation (always MOCK_GENERATION_RESPONSE) mock_env
          (with_keyframes [("frame0", image_frame)]) None [] = (Ok text, tr)
        /\ requests tr =
           [Req "POST" (base_url ++ "/generations") "test-key" (Some (PDict data)) None]
        /\ lookup "keyframes" data = Some (PDict [("frame0", image_frame)])).
Proof.
  split.
  - apply (proj1 (create_generation_keyframes_checked (always MOCK_GENERATION_RESPONSE)
                    mock_env None (with_keyframes [("frame2", image_frame)])
                    [("frame2", image_frame)] eq_refl eq_refl));
      [discriminate | reflexivity | reflexivity].
  - apply (proj2 (proj2 (create_generation_keyframes_checked
                           (always MOCK_GENERATION_RESPONSE)
                           mock_env None (with_keyframes [("frame0", image_frame)])
                           [("frame0", image_frame)] eq_refl eq_refl))
             "test-key"); reflexivity.
Defined.

(** C7, as stated, fails: an empty keyframes mapping has neither frame0 nor
    frame1, yet the call is not refused: the request is sent, without
    keyframes, and the reply is rendered. *)
Lemma empty_keyframes_not_refused :
  let parameters := [("prompt", PStr "p"); ("keyframes", PDict [])] in
  lookup "keyframes" parameters = Some (PDict [])
  /\ fst (create_generation (always MOCK_GENERATION_RESPONSE) mock_env parameters None [])
     = Ok ("Created text-to-video generation with ID: test-id" ++ nl
           ++ "State: pending" ++ nl
           ++ "Created at: 2024-03-20T12:00:00Z" ++ nl
           ++ "Model: ray-2" ++ nl
           ++ "Prompt: p")
  /\ requests (snd (create_generation (always MOCK_GENERATION_RESPONSE) mock_env
                      parameters None []))
     = [Req "POST" (base_url ++ "/generations") "test-key"
          (Some (PDict [("prompt", PStr "p"); ("model", PStr "ray-2")])) None].
Proof. repeat split. Qed.

Lemma get_credits_shapes_witness :
  (exists tr,
     get_credits (always MOCK_CREDITS_RESPONSE) mock_env [] None [] =
     (Ok ("Credit Information:" ++ nl ++ "Available Credits: 150000.0"), tr))
  /\ (exists tr,
        get_credits
          (always (PDict [("credits_available", PInt 1); ("credits_used", PInt 2)]))
          mock_env [] None [] =
        (Ok ("Credit Information:" ++ nl
             ++ "Available Credits: 1" ++ nl
             ++ "Used Credits: 2" ++ nl
             ++ "Total Credits: Unknown"), tr)).
Proof.
  split.
  - apply (proj1 (get_credits_shapes (always MOCK_CREDITS_RESPONSE) mock_env None
                    "test-key" [] [("credit_balance", PFloat "150000.0")]
                    eq_refl eq_refl) (PFloat "150000.0")); reflexivity.
  - apply (proj2 (get_credits_shapes
                    (always (PDict [("credits_available", PInt 1);
                                    ("credits_used", PInt 2)]))
                    mock_env None "test-key" []
                    [("credits_available", PInt 1); ("credits_used", PInt 2)]
                    eq_refl eq_refl)); reflexivity.
Defined.

Lemma generate_image_model_coerced_witness :
  (exists text tr,
     generate_image (always MOCK_GENERATION_RESPONSE) mock_env
       [("prompt", PStr "test prompt"); ("model", PStr "ray-2")] None [] =
     (Ok text,
      Log WARNING ("Unsupported image model: ray-2. Using 'photon-1' instead. "
                   ++ "Only 'photon-1' and 'photon-flash-1' are supported for image generation.")
      :: Request (Req "POST" (base_url ++ "/generations/image") "test-key"
                    (Some (PDict [("prompt", PStr "test prompt");
                                  ("model", PStr "photon-1")])) None)
      :: tr)
     /\ requests tr = [])
  /\ (exists text tr,
        generate_image (always MOCK_GENERATION_RESPONSE) mock_env
          [("prompt", PStr "test prompt"); ("model", PStr "photon-flash-1")] None [] =
        (Ok text,
         Request (Req "POST" (base_url ++ "/generations/image") "test-key"
                    (Some (PDict [("prompt", PStr "test prompt");
                                  ("model", PStr "photon-flash-1")])) None)
         :: tr)
        /\ requests tr = []).
Proof.
  split.
  - destruct (proj1 (generate_image_model_coerced (always MOCK_GENERATION_RESPONSE)
                       mock_env None "test-key"
                       [("prompt", PStr "test prompt"); ("model", PStr "ray-2")]
                       eq_refl eq_refl) eq_refl) as (text & tr & Hrun & Hq & _).
    exists text, tr. split; [exact Hrun | exact Hq].
  - destruct (proj2 (generate_image_model_coerced (always MOCK_GENERATION_RESPONSE)
                       mock_env None "test-key"
                       [("prompt", PStr "test prompt"); ("model", PStr "photon-flash-1")]
                       eq_refl eq_refl) eq_refl) as (text & tr & Hrun & Hq & _).
    exists text, tr. split; [exact Hrun | exact Hq].
Defined.

Lemma falsy_argument_is_missing_witness :
  exists text tr,
    handler (always MOCK_GENERATION_RESPONSE) mock_env ADD_AUDIO
      [("generation_id", PStr "test-id"); ("prompt", PStr "")] None [] = (Ok text, tr)
    /\ requests tr = []
    /\ startswith "Error" text = true
    /\ contains "parameter is required" text = true.
Proof.
  apply (falsy_argument_is_missing (always MOCK_GENERATION_RESPONSE) mock_env ADD_AUDIO
           [("generation_id", PStr "test-id"); ("prompt", PStr "")] None
           "prompt" (PStr "")).
  - right. left. reflexivity.
  - reflexivity.
  - reflexivity.
Defined.

(** ** Further properties of the gateway and the handlers *)

(** *** What a computation adds to the trace *)

Lemma closes_app (a b : trace) : closes (a ++ b)%list = (closes a + closes b)%nat.
Proof.
  induction a as [| e a IH]; [reflexivity |].
  destruct e; cbn [app closes]; rewrite IH; reflexivity.
Qed.

Lemma sleeps_app (a b : trace) : sleeps (a ++ b)%list = (sleeps a ++ sleeps b)%list.
Proof.
  induction a as [| e a IH]; [reflexivity |].
  destruct e; cbn [app sleeps]; rewrite IH; reflexivity.
Qed.

Section Adds.

Variable P : trace -> Prop.
Hypothesis P_nil : P [].
Hypothesis P_app : forall a b, P a -> P b -> P (a ++ b)%list.

Lemma adds_ret {A} (a : A) : adds P (ret a).
Proof. intros tr r tr' H. inversion H. exists []. now rewrite app_nil_r. Qed.

Lemma adds_raise {A} (e : exn) : adds P (@raise A e).
Proof. intros tr r tr' H. inversion H. exists []. now rewrite app_nil_r. Qed.

Lemma adds_emit (e : event) : P [e] -> adds P (emit e).
Proof. intros He tr r tr' H. inversion H. now exists [e]. Qed.

Lemma adds_bind {A B} (m : M A) (k : A -> M B) :
  adds P m -> (forall a, adds P (k a)) -> adds P (bind m k).
Proof.
  intros Hm Hk tr r tr' H. unfold bind in H.
  destruct (m tr) as [[a | e] tr1] eqn:Hrun;
    destruct (Hm _ _ _ Hrun) as (added1 & -> & H1).
  - destruct (Hk a _ _ _ H) as (added2 & -> & H2).
    exists (added1 ++ added2)%list. rewrite app_assoc. auto.
  - inversion H; subst. now exists added1.
Qed.

Lemma adds_try_except {A} (m : M A) (h : exn -> M A) :
  adds P m -> (forall e, adds P (h e)) -> adds P (try_except m h).
Proof.
  intros Hm Hh tr r tr' H. unfold try_except in H.
  destruct (m tr) as [[a | e] tr1] eqn:Hrun;
    destruct (Hm _ _ _ Hrun) as (added1 & -> & H1).
  - inversion H; subst. now exists added1.
  - destruct (Hh e _ _ _ H) as (added2 & -> & H2).
    exists (added1 ++ added2)%list. rewrite app_assoc. auto.
Qed.

Lemma adds_dot_get (v : pyval) (k : string) : adds P (dot_get v k).
Proof. destruct v; first [apply adds_ret | apply adds_raise]. Qed.

Lemma adds_py_in (k : string) (v : pyval) : adds P (py_in k v).
Proof. destruct v; first [apply adds_ret | apply adds_raise]. Qed.

Lemma adds_py_index (v : pyval) (k : string) : adds P (py_index v k).
Proof.
  destruct v; try apply adds_raise. cbn [py_index].
  destruct (lookup k d); [apply adds_ret | apply adds_raise].
Qed.

End Adds.

(** Walk through a computation built from the monad's operations; [known]
    closes the calls that have a lemma of their own, [event] the events. *)
Ltac adds_steps Hnil Happ known event :=
  repeat first
    [ known
    | apply (adds_ret _ Hnil) | apply (adds_raise _ Hnil)
    | apply (adds_dot_get _ Hnil) | apply (adds_py_in _ Hnil)
    | apply (adds_py_index _ Hnil)
    | apply adds_emit; event
    | apply (adds_bind _ Happ); [| intros ?]
    | apply (adds_try_except _ Happ); [| intros ?]
    | match goal with
      | |- adds _ (match ?x with _ => _ end) => destruct x
      end ].

Lemma adds_summaries (P : trace -> Prop) (generations_list : list pyval) :
  P [] -> (forall a b, P a -> P b -> P (a ++ b)%list) ->
  (forall lvl msg, P [Log lvl msg]) ->
  adds P (summaries generations_list).
Proof.
  intros Hnil Happ Hlog. induction generations_list as [| gen rest IH].
  - apply (adds_ret _ Hnil).
  - cbn [summaries]. adds_steps Hnil Happ ltac:(exact IH) ltac:(apply Hlog).
Qed.

(** *** Every client is closed *)

Lemma balanced_nil : balanced [].
Proof. reflexivity. Qed.

Lemma balanced_app (a b : trace) : balanced a -> balanced b -> balanced (a ++ b)%list.
Proof.
  unfold balanced. intros Ha Hb.
  rewrite requests_app, closes_app, length_app. congruence.
Qed.

Lemma decode_closes (r : response) : closes (snd (decode r [])) = 0%nat.
Proof.
  unfold decode.
  destruct (contains "application/json" (content_type r));
    [| destruct (negb (text r =? "") && (startswith "{" (text r) || startswith "[" (text r)))];
    destruct (json r); reflexivity.
Qed.

(** After its request the gateway closes its client, once. *)
Lemma gateway_events_close (o : outcome) : closes (gateway_events o) = 1%nat.
Proof.
  unfold gateway_events, _make_luma_request.
  cbn [credential str_truthy String.eqb Ascii.eqb Bool.eqb negb].
  cbv [finally try_except bind attempts emit]. cbn [app requests List.length].
  destruct o as [r | e].
  - destruct (content r =? ""); [reflexivity |].
    rewrite (decode_run r [_]). destruct (decode_ok r) as [v Hv]. rewrite Hv.
    pose proof (decode_closes r) as Hc.
    destruct (status_code r >=? 400);
      cbv [raise ret log emit is_RequestError exn_class]; cbn [app snd tl];
      rewrite !closes_app, Hc; reflexivity.
  - cbv [raise]. destruct (is_RequestError e); reflexivity.
Qed.

Lemma adds_balanced_gateway upstream env_key method endpoint api_key json params :
  adds balanced (_make_luma_request upstream env_key method endpoint api_key json params).
Proof.
  intros tr r tr' H.
  destruct (credential env_key api_key) as [key |] eqn:Hk.
  - rewrite (gateway_run _ _ _ _ _ key) in H by exact Hk. inversion H; subst.
    eexists. split; [reflexivity |]. unfold balanced.
    cbn [requests closes List.length].
    now rewrite requests_gateway_events, gateway_events_close.
  - rewrite gateway_no_credential in H by exact Hk. inversion H; subst.
    exists []. now rewrite app_nil_r.
Qed.

Ltac balanced_steps known :=
  adds_steps balanced_nil balanced_app
    ltac:(first [ known | apply adds_balanced_gateway
                | apply adds_summaries;
                  [exact balanced_nil | exact balanced_app | intros; reflexivity] ])
    ltac:(reflexivity).

Lemma adds_balanced_upscale_request upstream env_key generation_id resolution api_key
    remaining :
  adds balanced
    (upscale_request upstream env_key generation_id resolution api_key remaining).
Proof.
  induction remaining as [| remaining IH]; cbn [upscale_request];
    balanced_steps ltac:(exact IH).
Qed.

Lemma adds_balanced_handler upstream env_key name parameters api_key :
  adds balanced (handler upstream env_key name parameters api_key).
Proof.
  destruct name; cbn [handler];
    match goal with
    | |- adds _ (?h upstream env_key parameters api_key) => unfold h
    end;
    cbv zeta;
    unfold create_generation_data, add_keyframes, keyframe_log_info,
      create_generation_render, keyframe_info, unexpected_format,
      render_generations, upscale_render, upscale_error,
      generate_image_data, generate_image_render, get_credits_render;
    cbv zeta;
    balanced_steps ltac:(apply adds_balanced_upscale_request).
Qed.

(** X1: whatever the arguments, the credential and the upstream, a handler
    closes every client it opened: its trace has as many closings as
    network attempts. *)
Theorem handler_closes_every_client
    (upstream : nat -> outcome) (env_key : option string)
    (name : LumaTools) (parameters : dict) (api_key : option string) :
  let tr := snd (handler upstream env_key name parameters api_key []) in
  closes tr = List.length (requests tr).
Proof.
  cbv zeta.
  destruct (handler upstream env_key name parameters api_key []) as [r tr] eqn:H.
  destruct (adds_balanced_handler _ _ _ _ _ _ _ _ H) as (added & -> & Hb).
  cbn [app snd]. symmetry. exact Hb.
Qed.

(** *** How many network attempts a handler makes *)

Lemma at_most_nil (n : nat) : at_most n [].
Proof. unfold at_most. cbn [requests List.length]. lia. Qed.

Lemma at_most_zero_app (a b : trace) : at_most 0 a -> at_most 0 b -> at_most 0 (a ++ b)%list.
Proof. unfold at_most. rewrite requests_app, length_app. lia. Qed.

Lemma adds_weaken (P Q : trace -> Prop) {A} (m : M A) :
  (forall a, P a -> Q a) -> adds P m -> adds Q m.
Proof.
  intros HPQ Hm tr r tr' H. destruct (Hm _ _ _ H) as (added & -> & Ha). eauto.
Qed.

Lemma at_most_bind (a b : nat) {A B} (m : M A) (k : A -> M B) :
  adds (at_most a) m -> (forall x, adds (at_most b) (k x)) ->
  adds (at_most (a + b)) (bind m k).
Proof.
  intros Hm Hk tr r tr' H. unfold bind in H.
  destruct (m tr) as [[x | e] tr1] eqn:Hrun;
    destruct (Hm _ _ _ Hrun) as (added1 & -> & H1).
  - destruct (Hk x _ _ _ H) as (added2 & -> & H2).
    exists (added1 ++ added2)%list. rewrite app_assoc. split; [reflexivity |].
    unfold at_most in *. rewrite requests_app, length_app. lia.
  - inversion H; subst. exists added1. split; [reflexivity |].
    unfold at_most in *. lia.
Qed.

Lemma at_most_try_except (a b : nat) {A} (m : M A) (h : exn -> M A) :
  adds (at_most a) m -> (forall e, adds (at_most b) (h e)) ->
  adds (at_most (a + b)) (try_except m h).
Proof.
  intros Hm Hh tr r tr' H. unfold try_except in H.
  destruct (m tr) as [[x | e] tr1] eqn:Hrun;
    destruct (Hm _ _ _ Hrun) as (added1 & -> & H1).
  - inversion H; subst. exists added1. split; [reflexivity |].
    unfold at_most in *. lia.
  - destruct (Hh e _ _ _ H) as (added2 & -> & H2).
    exists (added1 ++ added2)%list. rewrite app_assoc. split; [reflexivity |].
    unfold at_most in *. rewrite requests_app, length_app. lia.
Qed.

(** The gateway makes at most one network attempt, and none without a
    credential. *)
Lemma at_most_gateway upstream env_key method endpoint api_key json params :
  adds (at_most (match credential env_key api_key with Some _ => 1 | None => 0 end))
    (_make_luma_request upstream env_key method endpoint api_key json params).
Proof.
  intros tr r tr' H.
  destruct (credential env_key api_key) as [key |] eqn:Hk.
  - rewrite (gateway_run _ _ _ _ _ key) in H by exact Hk. inversion H; subst.
    eexists. split; [reflexivity |]. unfold at_most.
    cbn [requests List.length]. rewrite requests_gateway_events. cbn. lia.
  - rewrite gateway_no_credential in H by exact Hk. inversion H; subst.
    exists []. rewrite app_nil_r. split; [reflexivity | apply at_most_nil].
Qed.

(** The steps of a computation that makes no network attempt. *)
Ltac silent_steps :=
  adds_steps (at_most_nil 0) at_most_zero_app
    ltac:(apply adds_summaries;
          [exact (at_most_nil 0) | exact at_most_zero_app
          | intros; apply (at_most_nil 0)])
    ltac:(apply (at_most_nil 0)).

(** The steps of a computation whose attempts are those of one call of the
    gateway (or of [known]), with silent steps before and after. *)
Ltac attempt_steps known :=
  repeat first
    [ solve [apply (adds_weaken (at_most 0)); [unfold at_most; lia | silent_steps]]
    | match goal with
      | |- adds (at_most ?n) (bind ?m _) =>
          first
            [ apply (at_most_bind n 0 m);
              [first [known | apply at_most_gateway] | intros ?; solve [silent_steps]]
            | apply (at_most_bind 0 n m); [solve [silent_steps] | intros ?] ]
      | |- adds (at_most ?n) (try_except _ _) =>
          apply (at_most_try_except n 0); [| intros ?; solve [silent_steps]]
      | |- adds _ (match ?x with _ => _ end) => destruct x
      end ].

Lemma at_most_upscale_request upstream env_key generation_id resolution api_key
    remaining :
  adds (at_most (match credential env_key api_key with
                 | Some _ => S remaining
                 | None => 0
                 end))
    (upscale_request upstream env_key generation_id resolution api_key remaining).
Proof.
  pose proof (fun method endpoint json params =>
                at_most_gateway upstream env_key method endpoint api_key json params)
    as Hg.
  destruct (credential env_key api_key) as [key |].
  - induction remaining as [| remaining IH]; cbn [upscale_request].
    + apply (at_most_try_except 1 0); [apply Hg | intros e; silent_steps].
    + apply (at_most_try_except 1 (S remaining)); [apply Hg | intros e].
      destruct (is_ValueError e); [| apply adds_raise, at_most_nil].
      destruct (contains "same resolution as the original" (exn_msg e));
        [apply adds_raise, at_most_nil |].
      destruct (contains "HTTP error 500" (exn_msg e)); [| apply adds_raise, at_most_nil].
      apply (at_most_bind 0 (S remaining)); [silent_steps | intros _].
      apply (at_most_bind 0 (S remaining)); [silent_steps | intros _]. exact IH.
  - induction remaining as [| remaining IH]; cbn [upscale_request];
      (apply (at_most_try_except 0 0); [apply Hg | intros e]).
    + silent_steps.
    + adds_steps (at_most_nil 0) at_most_zero_app ltac:(exact IH)
        ltac:(apply (at_most_nil 0)).
Qed.

Lemma at_most_handler upstream env_key name parameters api_key :
  adds (at_most (attempts_allowed (credential env_key api_key) name))
    (handler upstream env_key name parameters api_key).
Proof.
  pose proof (fun method endpoint json params =>
                at_most_gateway upstream env_key method endpoint api_key json params)
    as Hg.
  pose proof (fun generation_id resolution =>
                at_most_upscale_request upstream env_key generation_id resolution api_key)
    as Hu.
  unfold attempts_allowed, max_retries.
  destruct (credential env_key api_key) as [key |];
    destruct name; cbn [handler];
    match goal with
    | |- adds _ (?h upstream env_key parameters api_key) => unfold h
    end;
    cbv zeta;
    unfold create_generation_data, add_keyframes, keyframe_log_info,
      create_generation_render, keyframe_info, unexpected_format,
      render_generations, upscale_render, upscale_error,
      generate_image_data, generate_image_render, get_credits_render;
    cbv zeta;
    attempt_steps ltac:(first [apply Hg | apply Hu]).
Qed.

(** X2: a handler makes no network attempt when no credential can be
    resolved, at most one otherwise, and [upscale_generation] at most
    three (the call and its two retries), whatever the upstream answers. *)
Theorem handler_attempts_bounded
    (upstream : nat -> outcome) (env_key : option string)
    (name : LumaTools) (parameters : dict) (api_key : option string) :
  (List.length (requests (snd (handler upstream env_key name parameters api_key [])))
   <= attempts_allowed (credential env_key api_key) name)%nat.
Proof.
  destruct (handler upstream env_key name parameters api_key []) as [r tr] eqn:H.
  destruct (at_most_handler _ _ _ _ _ _ _ _ H) as (added & -> & Hb).
  exact Hb.
Qed.

(** *** The credential and the address of every request *)

Section Authorised.

Variable key : string.

Lemma authorised_nil : authorised key [].
Proof. constructor. Qed.

Lemma authorised_app (a b : trace) :
  authorised key a -> authorised key b -> authorised key (a ++ b)%list.
Proof.
  unfold authorised. intros Ha Hb. rewrite requests_app. now apply Forall_app.
Qed.

Lemma adds_authorised_gateway upstream env_key method endpoint api_key json params :
  credential env_key api_key = Some key ->
  adds (authorised key)
    (_make_luma_request upstream env_key method endpoint api_key json params).
Proof.
  intros Hk tr r tr' H.
  rewrite (gateway_run _ _ _ _ _ key) in H by exact Hk. inversion H; subst.
  eexists. split; [reflexivity |]. unfold authorised.
  cbn [requests]. rewrite requests_gateway_events.
  constructor; [| constructor]. cbn [req_bearer req_url]. split; [reflexivity |].
  reflexivity.
Qed.

End Authorised.

Lemma adds_authorised_handler upstream env_key name parameters api_key key :
  credential env_key api_key = Some key ->
  adds (authorised key) (handler upstream env_key name parameters api_key).
Proof.
  intros Hk.
  pose proof (fun method endpoint json params =>
                adds_authorised_gateway key upstream env_key method endpoint api_key
                  json params Hk) as Hg.
  assert (Hu : forall generation_id resolution remaining,
             adds (authorised key)
               (upscale_request upstream env_key generation_id resolution api_key
                  remaining)).
  { intros generation_id resolution remaining.
    induction remaining as [| remaining IH]; cbn [upscale_request];
      adds_steps (authorised_nil key) (authorised_app key)
        ltac:(first [exact IH | apply Hg]) ltac:(constructor). }
  destruct name; cbn [handler];
    match goal with
    | |- adds _ (?h upstream env_key parameters api_key) => unfold h
    end;
    cbv zeta;
    unfold create_generation_data, add_keyframes, keyframe_log_info,
      create_generation_render, keyframe_info, unexpected_format,
      render_generations, upscale_render, upscale_error,
      generate_image_data, generate_image_render, get_credits_render;
    cbv zeta;
    adds_steps (authorised_nil key) (authorised_app key)
      ltac:(first [ apply Hg | apply Hu
                  | apply adds_summaries;
                    [exact (authorised_nil key) | exact (authorised_app key)
                    | intros; constructor] ])
      ltac:(constructor).
Qed.

(** X3: every request a handler sends goes to an address under the base URL
    of the API and bears the explicit [api_key] when that is a non-empty
    string, and the key of the environment otherwise. *)
Theorem handler_requests_authorised
    (upstream : nat -> outcome) (env_key : option string)
    (name : LumaTools) (parameters : dict) (api_key : option string) (q : request) :
  In q (requests (snd (handler upstream env_key name parameters api_key []))) ->
  startswith "https://api.lumalabs.ai/dream-machine/v1/" (req_url q) = true
  /\ (if str_truthy api_key
      then api_key = Some (req_bearer q)
      else env_key = Some (req_bearer q)).
Proof.
  intros Hin.
  destruct (handler upstream env_key name parameters api_key []) as [r tr] eqn:H.
  cbn [snd] in Hin.
  destruct (credential env_key api_key) as [key |] eqn:Hk.
  - destruct (adds_authorised_handler _ _ _ _ _ key Hk _ _ _ H) as (added & -> & Ha).
    cbn [app] in Hin. unfold authorised in Ha.
    rewrite Forall_forall in Ha. destruct (Ha q Hin) as [Hb Hu].
    split; [exact Hu |].
    unfold credential in Hk. destruct (str_truthy api_key).
    + destruct api_key as [k |]; [| discriminate Hk].
      destruct (String.eqb k ""); inversion Hk; subst. reflexivity.
    + destruct env_key as [k |]; [| discriminate Hk].
      destruct (String.eqb k ""); inversion Hk; subst. reflexivity.
  - destruct (at_most_handler _ _ _ _ _ _ _ _ H) as (added & -> & Hb).
    rewrite Hk in Hb. cbn [attempts_allowed app] in *. unfold at_most in Hb.
    destruct (requests added); [destruct Hin | cbn [List.length] in Hb; lia].
Qed.

Lemma handler_requests_authorised_witness :
  In (Req "GET" (base_url ++ "/credits") "explicit-key" None None)
     (requests (snd (handler (always MOCK_CREDITS_RESPONSE) mock_env GET_CREDITS []
                       (Some "explicit-key") [])))
  /\ startswith "https://api.lumalabs.ai/dream-machine/v1/"
       (base_url ++ "/credits") = true
  /\ Some "explicit-key" = Some "explicit-key".
Proof.
  assert (Hin : In (Req "GET" (base_url ++ "/credits") "explicit-key" None None)
                  (requests (snd (handler (always MOCK_CREDITS_RESPONSE) mock_env
                                    GET_CREDITS [] (Some "explicit-key") []))))
    by (left; reflexivity).
  split; [exact Hin |].
  exact (handler_requests_authorised (always MOCK_CREDITS_RESPONSE) mock_env
           GET_CREDITS [] (Some "explicit-key") _ Hin).
Defined.

(** *** upscale_generation: the end of the retries and the bad request *)

(** An attempt that fails when no retry remains ends the loop with its
    error, unless the error is the resolution conflict. *)
Lemma upscale_request_gives_up
    (upstream : nat -> outcome) (env_key api_key : option string) (key : string)
    (generation_id resolution : pyval) (tr : trace) (msg : string) :
  credential env_key api_key = Some key ->
  gateway_result (upstream (List.length (requests tr))) = Raise (Exn ValueError msg) ->
  contains "same resolution as the original" msg = false ->
  upscale_request upstream env_key generation_id resolution api_key 0 tr =
  (Raise (Exn ValueError msg),
   (tr ++ Request (upscale_call key generation_id resolution)
       :: gateway_events (upstream (List.length (requests tr))))%list).
Proof.
  intros Hkey He Hc. cbn [upscale_request]. unfold try_except.
  rewrite (gateway_run _ _ _ _ _ key) by exact Hkey.
  rewrite He. cbn [is_ValueError exn_class exn_msg]. rewrite Hc. reflexivity.
Qed.

(** An attempt that fails with an error that is neither the resolution
    conflict nor a server error ends the loop at once. *)
Lemma upscale_request_fails
    (upstream : nat -> outcome) (env_key api_key : option string) (key : string)
    (generation_id resolution : pyval) (remaining : nat) (tr : trace) (msg : string) :
  credential env_key api_key = Some key ->
  gateway_result (upstream (List.length (requests tr))) = Raise (Exn ValueError msg) ->
  contains "same resolution as the original" msg = false ->
  contains "HTTP error 500" msg = false ->
  upscale_request upstream env_key generation_id resolution api_key remaining tr =
  (Raise (Exn ValueError msg),
   (tr ++ Request (upscale_call key generation_id resolution)
       :: gateway_events (upstream (List.length (requests tr))))%list).
Proof.
  intros Hkey He Hc H5.
  destruct remaining; cbn [upscale_request]; unfold try_except;
    rewrite (gateway_run _ _ _ _ _ key) by exact Hkey;
    rewrite He; cbn [is_ValueError exn_class exn_msg]; rewrite Hc, ?H5; reflexivity.
Qed.

(** X4: when the call of [upscale_generation] and its two retries all end
    in HTTP-500 errors, the handler stops after the third attempt, having
    paused two seconds before each retry, and returns the explanation of a
    server error (the text of the last error not naming an HTTP error
    400). *)
Theorem upscale_gives_up_after_retries
    (upstream : nat -> outcome) (env_key api_key : option string) (key : string)
    (parameters : dict) (last : response) :
  let generation_id := get "generation_id" PNone parameters in
  let resolution := get "resolution" PNone parameters in
  let call := Request (upscale_call key generation_id resolution) in
  credential env_key api_key = Some key ->
  truthy generation_id = true ->
  in_strs resolution valid_resolutions = true ->
  http_500_error (upstream 0%nat) = true ->
  http_500_error (upstream 1%nat) = true ->
  http_500_error (upstream 2%nat) = true ->
  upstream 2%nat = Reply last ->
  contains "HTTP error 400" (http_error 500 (decoded last)) = false ->
  exists tr,
    upscale_generation upstream env_key parameters api_key [] =
    (Ok ("Error upscaling generation " ++ str generation_id ++ ": Server Error. "
         ++ "This could be due to:" ++ nl
         ++ "- The generation not being in a completed state" ++ nl
         ++ "- The generation already being upscaled" ++ nl
         ++ "- The Luma API experiencing temporary issues" ++ nl ++ nl
         ++ "Please check the generation status and try again later."), tr)
    /\ schedule tr = [call; Sleep 2; call; Sleep 2; call].
Proof.
  intros generation_id resolution call Hkey Hid Hres H0 H1 H2 Hlast H400.
  pose proof (valid_resolution_truthy _ Hres) as Htruthy.
  destruct (http_500_error_result _ H0) as (m0 & He0 & Hp0 & Hs0).
  destruct (http_500_error_result _ H1) as (m1 & He1 & Hp1 & Hs1).
  destruct (http_500_error_result _ H2) as (m2 & He2 & Hp2 & Hs2).
  assert (Hm2 : m2 = http_error 500 (decoded last)).
  { rewrite Hlast in He2, H2. rewrite gateway_result_reply in He2.
    cbn [http_500_error] in H2.
    apply andb_true_iff in H2 as [H2 _]. apply andb_true_iff in H2 as [Hst Hbody].
    apply Z.eqb_eq in Hst. apply negb_true_iff in Hbody.
    rewrite Hbody, Hst in He2. cbn in He2. inversion He2. reflexivity. }
  unfold upscale_generation. cbv zeta. fold generation_id resolution.
  rewrite Hid, Htruthy, Hres. cbn [negb]. unfold try_except at 1, bind at 1.
  unfold max_retries at 1.
  rewrite (upscale_request_retry _ _ _ key Hkey _ _ 1 [] m0 He0 Hp0 Hs0).
  erewrite (upscale_request_retry _ _ _ key Hkey _ _ 0 _ m1);
    trace_norm; try eassumption.
  erewrite (upscale_request_gives_up _ _ _ key _ _ _ m2 Hkey);
    trace_norm; try eassumption.
  unfold upscale_error. cbn [exn_msg]. rewrite Hp2, Hs2.
  rewrite Hm2, H400. cbv [bind log emit ret].
  eexists. split; [reflexivity |]. subst call. trace_norm. reflexivity.
Qed.

Lemma upscale_gives_up_after_retries_witness :
  exists tr,
    upscale_generation (fun _ => Reply (error_response 500 "Internal Server Error"))
      mock_env upscale_arguments None [] =
    (Ok ("Error upscaling generation test-id: Server Error. "
         ++ "This could be due to:" ++ nl
         ++ "- The generation not being in a completed state" ++ nl
         ++ "- The generation already being upscaled" ++ nl
         ++ "- The Luma API experiencing temporary issues" ++ nl ++ nl
         ++ "Please check the generation status and try again later."), tr)
    /\ schedule tr =
       [Request (upscale_call "test-key" (PStr "test-id") (PStr "1080p")); Sleep 2;
        Request (upscale_call "test-key" (PStr "test-id") (PStr "1080p")); Sleep 2;
        Request (upscale_call "test-key" (PStr "test-id") (PStr "1080p"))].
Proof.
  apply (upscale_gives_up_after_retries
           (fun _ => Reply (error_response 500 "Internal Server Error"))
           mock_env None "test-key" upscale_arguments
           (error_response 500 "Internal Server Error")); reflexivity.
Defined.

(** *** The detail of a bad request *)

Lemma substring_all (m : nat) (s : string) :
  (String.length s <= m)%nat -> substring 0 m s = s.
Proof.
  revert m. induction s as [| c s IH]; intros m Hm.
  - destruct m; reflexivity.
  - destruct m as [| m]; [cbn in Hm; lia |].
    cbn [substring]. rewrite IH; [reflexivity | cbn in Hm; lia].
Qed.

Lemma substring_skip (pre rest : string) (m : nat) :
  (String.length rest <= m)%nat ->
  substring (String.length pre) m (pre ++ rest) = rest.
Proof.
  intros Hm. induction pre as [| c pre IH]; cbn [String.length append substring].
  - now apply substring_all.
  - exact IH.
Qed.

Lemma length_append (a b : string) :
  String.length (a ++ b) = (String.length a + String.length b)%nat.
Proof. induction a as [| c a IH]; cbn; [reflexivity | now rewrite IH]. Qed.

(** The search finds the pattern where the text begins with it. *)
Lemma after_here (pat rest : string) : after pat (pat ++ rest) = Some rest.
Proof.
  assert (H : startswith pat (pat ++ rest) = true) by apply startswith_app.
  destruct (pat ++ rest) as [| c s] eqn:E; cbn [after]; rewrite H; rewrite <- E;
    (rewrite substring_skip; [reflexivity | rewrite length_append; lia]).
Qed.

Lemma plain_no_quote (s : string) : plain s = true -> has_char SQUOTE s = false.
Proof.
  induction s as [| c s IH]; [reflexivity |]. cbn [plain has_char]. intros H.
  repeat (apply andb_true_iff in H as [H ?]).
  apply negb_true_iff in H. rewrite H. cbn [orb]. auto.
Qed.

(** A plain text ends at the quote that follows it. *)
Lemma until_quote_plain (s rest : string) :
  plain s = true -> until_quote (s ++ String SQUOTE rest) = Some s.
Proof.
  induction s as [| c s IH]; intros H.
  - reflexivity.
  - cbn [plain] in H. repeat (apply andb_true_iff in H as [H ?]).
    apply negb_true_iff in H. cbn [append until_quote]. rewrite H.
    now rewrite IH.
Qed.

(** [repr] leaves a plain text as it is, between single quotes. *)
Lemma repr_chars_plain (s : string) : plain s = true -> repr_chars SQUOTE s = s.
Proof.
  induction s as [| c s IH]; [reflexivity |]. cbn [plain]. intros H.
  repeat (apply andb_true_iff in H as [H ?]).
  apply negb_true_iff in H.
  match goal with
  | Hb : negb (Ascii.eqb c BACKSLASH) = true |- _ => apply negb_true_iff in Hb
  end.
  match goal with
  | Hu : (nat_of_ascii c <=? 126)%nat = true |- _ => apply Nat.leb_le in Hu
  end.
  match goal with
  | Hl : (32 <=? nat_of_ascii c)%nat = true |- _ => apply Nat.leb_le in Hl
  end.
  cbn [repr_chars]. unfold repr_char.
  repeat match goal with
         | Hx : Ascii.eqb c _ = false |- _ => rewrite Hx; clear Hx
         end.
  assert (Ht : Ascii.eqb c TAB = false).
  { destruct (Ascii.eqb_spec c TAB) as [-> |]; [cbn in *; lia | reflexivity]. }
  assert (Hl : Ascii.eqb c LF = false).
  { destruct (Ascii.eqb_spec c LF) as [-> |]; [cbn in *; lia | reflexivity]. }
  assert (Hr : Ascii.eqb c CR = false).
  { destruct (Ascii.eqb_spec c CR) as [-> |]; [cbn in *; lia | reflexivity]. }
  rewrite Ht, Hl, Hr. cbv zeta.
  assert (Hp : printable c = true).
  { unfold printable. cbv zeta.
    replace (32 <=? nat_of_ascii c)%nat with true by (symmetry; apply Nat.leb_le; lia).
    replace (127 <=? nat_of_ascii c)%nat with false by (symmetry; apply Nat.leb_gt; lia).
    replace (nat_of_ascii c =? 173)%nat with false by (symmetry; apply Nat.eqb_neq; lia).
    reflexivity. }
  rewrite Hp. cbn [negb append]. now rewrite IH.
Qed.

Lemma repr_str_plain (s : string) :
  plain s = true -> repr_str s = String SQUOTE (s ++ String SQUOTE "").
Proof.
  intros H. unfold repr_str. rewrite (plain_no_quote _ H). cbn [andb].
  now rewrite repr_chars_plain.
Qed.

Lemma append_assoc (a b c : string) : (a ++ b) ++ c = a ++ (b ++ c).
Proof. induction a as [| x a IH]; cbn [append]; [reflexivity | now rewrite IH]. Qed.

(** The search passes over a text without a single quote. *)
Lemma after_skip (pat pre rest : string) :
  has_char SQUOTE pre = false ->
  after (String SQUOTE pat) (pre ++ rest) = after (String SQUOTE pat) rest.
Proof.
  induction pre as [| c pre IH]; intros H; [reflexivity |].
  cbn [has_char] in H. apply orb_false_iff in H as [Hc Hpre].
  cbn [append after startswith].
  rewrite Ascii.eqb_sym, Hc. cbn [andb]. now apply IH.
Qed.

(** X6: the search for the detail of a bad request gives back the detail of
    the error body: for a reply of status 400 whose JSON body has the key
    detail first, with a text [d] of printable ASCII characters other than
    the single quote and the backslash as its value, the text found in the
    gateway's error message is [d] itself. *)
Theorem detail_of_bad_request (d : string) (others : dict) :
  plain d = true ->
  search_detail (http_error 400 (PDict (("detail", PStr d) :: others))) = Some d.
Proof.
  intros Hd. unfold search_detail, http_error. cbn [truthy str repr map fst snd].
  rewrite (repr_str_plain d Hd).
  change (str_int 400) with "400".
  change (repr_str "detail") with "'detail'".
  assert (Hshape : exists tail,
             "HTTP error " ++ "400" ++ ": " ++ "{"
             ++ join ", "
                  (("'detail'" ++ ": " ++ String SQUOTE (d ++ String SQUOTE ""))
                   :: map (fun kv => repr_str (fst kv) ++ ": " ++ repr (snd kv)) others)
             ++ "}"
             = "HTTP error 400: {" ++ "'detail': '" ++ d ++ String SQUOTE tail).
  { destruct others as [| kv others]; cbn [map join].
    - exists "}". cbn [append]. now rewrite !append_assoc.
    - eexists. cbn [append]. rewrite !append_assoc. cbn [append]. reflexivity. }
  destruct Hshape as (tail & ->).
  change "'detail': '" with (String SQUOTE "detail': '") at 1 2.
  rewrite after_skip by reflexivity.
  rewrite after_here. now apply until_quote_plain.
Qed.

Lemma detail_of_bad_request_witness :
  search_detail
    (http_error 400 (PDict [("detail", PStr "Generation is not completed")]))
  = Some "Generation is not completed".
Proof. apply (detail_of_bad_request "Generation is not completed" []). reflexivity. Defined.

(** X5: when the first attempt of [upscale_generation] ends in an error
    whose text names an HTTP error 400 (and neither the resolution conflict
    nor an HTTP error 500), the handler makes no retry and returns the
    detail found in the error text, or "Invalid request" when none is
    found, followed by the list of common issues. *)
Theorem upscale_bad_request
    (upstream : nat -> outcome) (env_key api_key : option string) (key : string)
    (parameters : dict) (msg : string) :
  let generation_id := get "generation_id" PNone parameters in
  let resolution := get "resolution" PNone parameters in
  let detail :=
    match search_detail msg with Some d => d | None => "Invalid request" end in
  credential env_key api_key = Some key ->
  truthy generation_id = true ->
  in_strs resolution valid_resolutions = true ->
  gateway_result (upstream 0%nat) = Raise (Exn ValueError msg) ->
  contains "same resolution as the original" msg = false ->
  contains "HTTP error 500" msg = false ->
  contains "HTTP error 400" msg = true ->
  exists tr,
    upscale_generation upstream env_key parameters api_key [] =
    (Ok ("Error upscaling generation " ++ str generation_id ++ ": " ++ detail ++ ". "
         ++ "Common issues include:" ++ nl
         ++ "- The generation is not in a completed state" ++ nl
         ++ "- The requested resolution is not higher than the original" ++ nl
         ++ "- The generation was already upscaled"), tr)
    /\ schedule tr = [Request (upscale_call key generation_id resolution)].
Proof.
  intros generation_id resolution detail Hkey Hid Hres He Hc H5 H4.
  pose proof (valid_resolution_truthy _ Hres) as Htruthy.
  unfold upscale_generation. cbv zeta. fold generation_id resolution.
  rewrite Hid, Htruthy, Hres. cbn [negb]. unfold try_except at 1, bind at 1.
  rewrite (upscale_request_fails _ _ _ key _ _ _ [] msg Hkey He Hc H5).
  unfold upscale_error. cbn [exn_msg]. rewrite Hc, H4.
  cbv [bind log emit ret]. fold detail.
  eexists. split; [reflexivity |]. trace_norm. reflexivity.
Qed.

Lemma upscale_bad_request_witness :
  exists tr,
    upscale_generation
      (fun _ => Reply (error_response 400 "Generation is not completed"))
      mock_env upscale_arguments None [] =
    (Ok ("Error upscaling generation test-id: Generation is not completed. "
         ++ "Common issues include:" ++ nl
         ++ "- The generation is not in a completed state" ++ nl
         ++ "- The requested resolution is not higher than the original" ++ nl
         ++ "- The generation was already upscaled"), tr)
    /\ schedule tr =
       [Request (upscale_call "test-key" (PStr "test-id") (PStr "1080p"))].
Proof.
  apply (upscale_bad_request
           (fun _ => Reply (error_response 400 "Generation is not completed"))
           mock_env None "test-key" upscale_arguments
           "HTTP error 400: {'detail': 'Generation is not completed'}");
    reflexivity.
Defined.

(** *** The gateway: what it returns and what it raises *)

Lemma gateway_result_accepts (r : response) :
  status_code r < 400 ->
  exists v,
    gateway_result (Reply r) = Ok v
    /\ (content r = "" -> v = PDict [])
    /\ (content r <> "" ->
        (forall err, json r = inr err -> v = PDict [("raw_response", PStr (text r))])
        /\ (contains "application/json" (content_type r) = false ->
            startswith "{" (text r) = false -> startswith "[" (text r) = false ->
            v = PDict [("raw_response", PStr (text r))])).
Proof.
  intros Hs. rewrite gateway_result_reply.
  replace (status_code r >=? 400) with false
    by (symmetry; rewrite Z.geb_leb; apply Z.leb_gt; lia).
  destruct (String.eqb_spec (content r) "") as [He | Hne].
  - exists (PDict []). repeat split; [congruence ..].
  - exists (decoded r). split; [reflexivity |]. split; [congruence |]. intros _.
    unfold decoded, decode. split.
    + intros err Herr. rewrite Herr.
      destruct (contains "application/json" (content_type r));
        [| destruct (negb (text r =? "")
                     && (startswith "{" (text r) || startswith "[" (text r)))];
        reflexivity.
    + intros Hct Hb1 Hb2. rewrite Hct, Hb1, Hb2. cbn [orb]. rewrite andb_false_r.
      reflexivity.
Qed.

Lemma gateway_result_raised (r : response) (e : exn) :
  gateway_result (Reply r) = Raise e ->
  400 <= status_code r
  /\ content r <> ""
  /\ is_ValueError e = true
  /\ exn_msg e =
     "HTTP error " ++ str_int (status_code r)
     ++ (if truthy (decoded r) then ": " ++ str (decoded r) else "").
Proof.
  rewrite gateway_result_reply. intros H.
  destruct (String.eqb_spec (content r) "") as [He | Hne]; [discriminate H |].
  destruct (status_code r >=? 400) eqn:Hs; [| discriminate H].
  inversion H. repeat split.
  - apply Z.geb_le in Hs. lia.
  - exact Hne.
Qed.

Section Gateway.

Variable upstream : nat -> outcome.
Variables env_key api_key : option string.
Variable key : string.
Hypothesis Hkey : credential env_key api_key = Some key.

Variables method endpoint : string.
Variables json_body params : option pyval.
Variable tr : trace.
Variable r : response.
Hypothesis Hreply : upstream (List.length (requests tr)) = Reply r.

Let call := _make_luma_request upstream env_key method endpoint api_key json_body params.

(** X7: for a reply of a status below 400 the gateway never raises: it
    returns the empty mapping for an empty body, and for a body whose JSON
    decoding fails, or that neither is declared as JSON nor begins with a
    brace or a bracket, the mapping with the raw text under raw_response. *)
Theorem gateway_accepts_any_body :
  status_code r < 400 ->
  exists v,
    fst (call tr) = Ok v
    /\ (content r = "" -> v = PDict [])
    /\ (content r <> "" ->
        (forall err, json r = inr err -> v = PDict [("raw_response", PStr (text r))])
        /\ (contains "application/json" (content_type r) = false ->
            startswith "{" (text r) = false -> startswith "[" (text r) = false ->
            v = PDict [("raw_response", PStr (text r))])).
Proof.
  intros Hs. subst call. rewrite (gateway_run _ _ _ _ _ key) by exact Hkey.
  cbn [fst]. rewrite Hreply. now apply gateway_result_accepts.
Qed.

(** X8: the only replies the gateway raises for are those of a status of
    400 or more that carry a body; what it raises is a [ValueError] whose
    text begins with "HTTP error" and the status, followed, when the
    decoded body is truthy, by a colon and the body. *)
Theorem gateway_raises_for_error_status (e : exn) :
  fst (call tr) = Raise e ->
  400 <= status_code r
  /\ content r <> ""
  /\ is_ValueError e = true
  /\ exn_msg e =
     "HTTP error " ++ str_int (status_code r)
     ++ (if truthy (decoded r) then ": " ++ str (decoded r) else "").
Proof.
  subst call. rewrite (gateway_run _ _ _ _ _ key) by exact Hkey.
  cbn [fst]. rewrite Hreply. apply gateway_result_raised.
Qed.

End Gateway.

Lemma gateway_accepts_any_body_witness :
  exists v,
    fst (_make_luma_request
           (fun _ => Reply (Resp 200 "<html>" "text/html" "<html>" (inr "Expecting value")))
           mock_env "GET" "ping" None None None []) = Ok v
    /\ v = PDict [("raw_response", PStr "<html>")].
Proof.
  destruct (gateway_accepts_any_body
              (fun _ => Reply (Resp 200 "<html>" "text/html" "<html>"
                                 (inr "Expecting value")))
              mock_env None "test-key" eq_refl "GET" "ping" None None []
              (Resp 200 "<html>" "text/html" "<html>" (inr "Expecting value"))
              eq_refl eq_refl) as (v & Hv & _ & Hraw).
  exists v. split; [exact Hv |].
  apply (proj1 (Hraw ltac:(discriminate)) "Expecting value"). reflexivity.
Defined.

Lemma gateway_raises_for_error_status_witness :
  400 <= 404
  /\ exn_msg (Exn ValueError "HTTP error 404: {'detail': 'Not found'}") =
     "HTTP error " ++ str_int 404 ++ ": " ++ "{'detail': 'Not found'}".
Proof.
  destruct (gateway_raises_for_error_status
              (fun _ => Reply (error_response 404 "Not found"))
              mock_env None "test-key" eq_refl "GET" "generations/x" None None []
              (error_response 404 "Not found") eq_refl
              (Exn ValueError "HTTP error 404: {'detail': 'Not found'}") eq_refl)
    as (Hs & _ & _ & Hm).
  split; [exact Hs | exact Hm].
Defined.

(** *** Handlers around one call of the gateway *)

Section OneCall.

Variable upstream : nat -> outcome.
Variables env_key api_key : option string.
Variable key : string.
Hypothesis Hkey : credential env_key api_key = Some key.

Variables method endpoint : string.
Variables json_body params : option pyval.

Let call := _make_luma_request upstream env_key method endpoint api_key json_body params.
Let sent := Req method (base_url ++ "/" ++ endpoint) key json_body params.

(** What follows a call that returned. *)
Lemma gateway_then {B} (k : pyval -> M B) (tr : trace) (v : pyval) :
  gateway_result (upstream (List.length (requests tr))) = Ok v ->
  bind call k tr =
  k v (tr ++ Request sent :: gateway_events (upstream (List.length (requests tr))))%list.
Proof.
  intros Hv. subst call sent. unfold bind.
  rewrite (gateway_run _ _ _ _ _ key) by exact Hkey. now rewrite Hv.
Qed.

(** A handler that calls the gateway once, with silent steps after it,
    sends exactly that request. *)
Lemma sends_once {B} (k : pyval -> M B) (h : exn -> M B) :
  (forall v, adds (at_most 0) (k v)) ->
  (forall e, adds (at_most 0) (h e)) ->
  requests (snd (try_except (bind call k) h [])) = [sent].
Proof.
  intros Hk Hh. subst call sent. unfold try_except, bind.
  rewrite (gateway_run _ _ _ _ _ key) by exact Hkey. cbn [requests List.length app].
  destruct (gateway_result (upstream 0%nat)) as [v | e].
  - destruct (k v _) as [[b | e] tr'] eqn:Hrun;
      destruct (Hk _ _ _ _ Hrun) as (added & -> & Ha); unfold at_most in Ha.
    + cbn [snd]. trace_norm. destruct (requests added); [reflexivity | cbn in Ha; lia].
    + destruct (h e _) as [r2 tr2] eqn:Hrun2.
      destruct (Hh _ _ _ _ Hrun2) as (added2 & -> & Ha2); unfold at_most in Ha2.
      cbn [snd]. trace_norm.
      destruct (requests added); [| cbn in Ha; lia].
      destruct (requests added2); [reflexivity | cbn in Ha2; lia].
  - destruct (h e _) as [r2 tr2] eqn:Hrun2.
    destruct (Hh _ _ _ _ Hrun2) as (added2 & -> & Ha2); unfold at_most in Ha2.
    cbn [snd]. trace_norm.
    destruct (requests added2); [reflexivity | cbn in Ha2; lia].
Qed.

End OneCall.

(** *** delete_generation and the reply without a body *)

(** X9: with a credential and a generation id, [delete_generation] sends
    one DELETE request for that generation, without a body, and whatever
    value the gateway returns, the text confirms the deletion by the id. *)
Theorem delete_generation_confirms
    (upstream : nat -> outcome) (env_key api_key : option string) (key : string)
    (parameters : dict) (v : pyval) :
  let generation_id := get "generation_id" PNone parameters in
  credential env_key api_key = Some key ->
  truthy generation_id = true ->
  returns (upstream 0%nat) v ->
  exists tr,
    delete_generation upstream env_key parameters api_key [] =
    (Ok ("Generation " ++ str generation_id ++ " deleted successfully"), tr)
    /\ requests tr =
       [Req "DELETE" (base_url ++ "/generations/" ++ str generation_id) key None None].
Proof.
  intros generation_id Hkey Hid Hv. unfold delete_generation. cbv zeta.
  fold generation_id. rewrite Hid. cbn [negb]. unfold try_except.
  rewrite (gateway_then _ _ _ key Hkey _ _ _ _ _ [] v Hv). cbv [ret].
  eexists. split; [reflexivity |]. trace_norm. reflexivity.
Qed.

Lemma delete_generation_confirms_witness :
  exists tr,
    delete_generation (always (PDict [("success", PBool true)])) mock_env
      [("generation_id", PStr "test-id")] None [] =
    (Ok "Generation test-id deleted successfully", tr)
    /\ requests tr =
       [Req "DELETE" (base_url ++ "/generations/test-id") "test-key" None None].
Proof.
  apply (delete_generation_confirms (always (PDict [("success", PBool true)])) mock_env
           None "test-key" [("generation_id", PStr "test-id")]
           (PDict [("success", PBool true)])); reflexivity.
Defined.

(** X10: a reply without a body is taken for a success whatever its
    status: [ping] then answers that the API is available, and
    [delete_generation] that the generation was deleted, also for a status
    of 400 or more. *)
Theorem empty_body_taken_for_success
    (upstream : nat -> outcome) (env_key api_key : option string) (key : string)
    (parameters : dict) (r : response) :
  credential env_key api_key = Some key ->
  upstream 0%nat = Reply r ->
  content r = "" ->
  fst (ping upstream env_key parameters api_key [])
  = Ok "Luma API is available and responding"
  /\ (truthy (get "generation_id" PNone parameters) = true ->
      fst (delete_generation upstream env_key parameters api_key [])
      = Ok ("Generation " ++ str (get "generation_id" PNone parameters)
            ++ " deleted successfully")).
Proof.
  intros Hkey Hr Hc.
  assert (Hv : gateway_result (upstream (List.length (requests []))) = Ok (PDict [])).
  { cbn [requests List.length]. rewrite Hr, gateway_result_reply, Hc. reflexivity. }
  split.
  - unfold ping, try_except. rewrite (gateway_then _ _ _ key Hkey _ _ _ _ _ [] _ Hv).
    reflexivity.
  - intros Hid. unfold delete_generation. cbv zeta. rewrite Hid. cbn [negb].
    unfold try_except. rewrite (gateway_then _ _ _ key Hkey _ _ _ _ _ [] _ Hv).
    reflexivity.
Qed.

Lemma empty_body_taken_for_success_witness :
  fst (ping (fun _ => Reply (Resp 500 "" "" "" (inr "Expecting value"))) mock_env
         [("generation_id", PStr "test-id")] None [])
  = Ok "Luma API is available and responding"
  /\ fst (delete_generation (fun _ => Reply (Resp 500 "" "" "" (inr "Expecting value")))
            mock_env [("generation_id", PStr "test-id")] None [])
     = Ok "Generation test-id deleted successfully".
Proof.
  destruct (empty_body_taken_for_success
              (fun _ => Reply (Resp 500 "" "" "" (inr "Expecting value"))) mock_env None
              "test-key" [("generation_id", PStr "test-id")]
              (Resp 500 "" "" "" (inr "Expecting value")) eq_refl eq_refl eq_refl)
    as [Hp Hd].
  split; [exact Hp | exact (Hd eq_refl)].
Defined.

(** *** list_generations: nothing to list *)

(** X11: [list_generations] asks for the page of its arguments (limit 10
    and offset 0 by default) and answers "No generations found" when the
    reply is falsy (an empty mapping or list, also the empty body) or when
    the list under the key generations is empty; a mapping that holds no
    generations at all (no such list, not both an id and a state, and no
    non-empty list under data, results or items) is answered by the text
    quoting the reply, not by an error. *)
Theorem list_generations_nothing_found
    (upstream : nat -> outcome) (env_key api_key : option string) (key : string)
    (parameters : dict) (v : pyval) :
  credential env_key api_key = Some key ->
  returns (upstream 0%nat) v ->
  let answer text :=
    exists tr,
      list_generations upstream env_key parameters api_key [] = (Ok text, tr)
      /\ requests tr = [list_call key parameters] in
  (truthy v = false -> answer "No generations found")
  /\ (forall d, v = PDict d -> lookup "generations" d = Some (PList []) ->
                answer "No generations found")
  /\ (forall d, v = PDict d -> d <> [] ->
                is_list (get "generations" PNone d) = false ->
                mem "id" d && mem "state" d = false ->
                first_list_field alternate_keys d = [] ->
                answer ("Response format from Luma API doesn't contain generations: "
                        ++ str v)).
Proof.
  intros Hkey Hv answer. subst answer. cbv beta.
  unfold list_generations, try_except. cbv zeta.
  rewrite (gateway_then _ _ _ key Hkey _ _ _ _ _ [] v Hv). repeat split.
  - intros Hf. rewrite Hf. cbv [negb ret]. eexists. split; [reflexivity |].
    trace_norm. reflexivity.
  - intros d -> Hg.
    destruct d as [| kv d]; [discriminate Hg |]. cbn [truthy negb].
    rewrite Hg. cbv [render_generations ret]. eexists. split; [reflexivity |].
    trace_norm. reflexivity.
  - intros d -> Hne Hnl Hids Hfirst.
    destruct d as [| kv d]; [congruence |]. cbn [truthy negb].
    rewrite Hids. fold alternate_keys. rewrite Hfirst. unfold get in Hnl.
    destruct (lookup "generations" (kv :: d)) as [[| | | | | l |] |];
      try discriminate Hnl; cbv [bind log emit ret];
      (eexists; split; [reflexivity |]); trace_norm; reflexivity.
Qed.

Lemma list_generations_nothing_found_witness :
  (exists tr,
     list_generations (always (PDict [])) mock_env [] None [] =
     (Ok "No generations found", tr)
     /\ requests tr = [list_call "test-key" []])
  /\ (exists tr,
        list_generations (always (PDict [("data", PList [])])) mock_env
          [("limit", PInt 2)] None [] =
        (Ok "Response format from Luma API doesn't contain generations: {'data': []}", tr)
        /\ requests tr = [list_call "test-key" [("limit", PInt 2)]]).
Proof.
  split.
  - apply (proj1 (list_generations_nothing_found (always (PDict [])) mock_env None
                    "test-key" [] (PDict []) eq_refl eq_refl)). reflexivity.
  - apply (proj2 (proj2 (list_generations_nothing_found
                           (always (PDict [("data", PList [])])) mock_env None
                           "test-key" [("limit", PInt 2)] (PDict [("data", PList [])])
                           eq_refl eq_refl))
             [("data", PList [])]); try reflexivity. discriminate.
Defined.

(** *** get_camera_motions *)

(** The search of [get_camera_motions] finds the list under the first key
    that holds one. *)
Lemma first_motions_found (fields : list string) (d : dict) (l : list pyval) :
  first_list_under fields d l -> first_motions fields d = Some l.
Proof.
  induction fields as [| field fields IH]; cbn [first_list_under first_motions].
  - intros [].
  - intros [H | [Hno H]]; [now rewrite H |].
    unfold get in Hno. destruct (lookup field d) as [[| | | | | l' |] |];
      try discriminate Hno; now apply IH.
Qed.

Lemma first_motions_missing (fields : list string) (d : dict) :
  (forall k, In k fields -> is_list (get k PNone d) = false) ->
  first_motions fields d = None.
Proof.
  induction fields as [| field fields IH]; intros H; [reflexivity |].
  cbn [first_motions]. pose proof (H field (or_introl eq_refl)) as Hno.
  unfold get in Hno.
  destruct (lookup field d) as [[| | | | | l' |] |]; try discriminate Hno;
    apply IH; intros k Hk; apply H; now right.
Qed.

(** The two loops of [get_camera_motions] print a motion alike. *)
Lemma motion_line_text (motion : pyval) :
  motion_line motion = "- " ++ motion_text motion.
Proof.
  destruct motion as [| | | | | | d]; try reflexivity.
  cbn [motion_line motion_text].
  destruct (lookup "name" d); [reflexivity |]. now destruct (lookup "id" d).
Qed.

Lemma nested_motion_line_text (motion : pyval) :
  nested_motion_line motion = "- " ++ motion_text motion.
Proof.
  destruct motion as [| | | | | | d]; try reflexivity.
  cbn [nested_motion_line motion_text is_dict as_dict andb]. unfold mem, get.
  destruct (lookup "name" d); [reflexivity |]. now destruct (lookup "id" d).
Qed.

(** X12: [get_camera_motions] prints the same lines for a bare list of
    motions and for the list nested under the first of the keys motions,
    camera_motions, data, items, results that holds a list: a heading and
    one line per motion, which is the motion itself for a string, and for
    an object its name, else its id.  An empty nested list gives the
    heading alone, whereas a falsy reply gives "No camera motions
    available"; a mapping that holds no list under any of the five keys is
    answered by the list of its keys. *)
Theorem get_camera_motions_shapes
    (upstream : nat -> outcome) (env_key api_key : option string) (key : string)
    (parameters : dict) (v : pyval) :
  credential env_key api_key = Some key ->
  returns (upstream 0%nat) v ->
  let answer text :=
    fst (get_camera_motions upstream env_key parameters api_key []) = Ok text in
  (truthy v = false -> answer "No camera motions available")
  /\ (forall motions, v = PList motions -> motions <> [] ->
                      answer (motion_listing motions))
  /\ (forall d motions, v = PDict d -> first_list_under motion_keys d motions ->
                        answer (motion_listing motions))
  /\ (forall d, v = PDict d -> d <> [] ->
                (forall k, In k motion_keys -> is_list (get k PNone d) = false) ->
                answer ("Unexpected response format. Response contained: "
                        ++ repr (PList (map PStr (keys d))))).
Proof.
  intros Hkey Hv answer. subst answer. cbv beta.
  unfold get_camera_motions, try_except. cbv zeta.
  rewrite (gateway_then _ _ _ key Hkey _ _ _ _ _ [] v Hv). repeat split.
  - intros Hf. now rewrite Hf.
  - intros motions -> Hne. destruct motions as [| m motions]; [congruence |].
    cbn [truthy negb]. unfold motion_listing, ret. cbn [fst]. do 3 f_equal.
    apply map_ext. intros motion. apply motion_line_text.
  - intros d motions -> Hm. apply first_motions_found in Hm.
    assert (Ht : truthy (PDict d) = true).
    { destruct d; [| reflexivity]. exfalso. revert Hm. unfold motion_keys.
      cbn. discriminate. }
    rewrite Ht. cbn [negb]. fold motion_keys. rewrite Hm.
    unfold motion_listing, ret. cbn [fst]. do 3 f_equal.
    apply map_ext. intros motion. apply nested_motion_line_text.
  - intros d -> Hne Hm. destruct d; [congruence |]. cbn [truthy negb].
    fold motion_keys. now rewrite (first_motions_missing _ _ Hm).
Qed.

Lemma get_camera_motions_shapes_witness :
  fst (get_camera_motions (always (PList [PStr "static"; PStr "spin"; PStr "zoom"]))
         mock_env [] None [])
  = Ok ("Available camera motions:" ++ nl ++ "- static" ++ nl ++ "- spin" ++ nl
        ++ "- zoom")
  /\ fst (get_camera_motions
            (always (PDict [("camera_motions",
                             PList [PStr "static";
                                    PDict [("id", PStr "m2"); ("name", PStr "spin")];
                                    PDict [("id", PStr "zoom")]])]))
            mock_env [] None [])
     = Ok ("Available camera motions:" ++ nl ++ "- static" ++ nl ++ "- spin" ++ nl
           ++ "- zoom").
Proof.
  split.
  - apply (proj1 (proj2 (get_camera_motions_shapes
                           (always (PList [PStr "static"; PStr "spin"; PStr "zoom"]))
                           mock_env None "test-key" []
                           (PList [PStr "static"; PStr "spin"; PStr "zoom"])
                           eq_refl eq_refl))
             [PStr "static"; PStr "spin"; PStr "zoom"]); [reflexivity | discriminate].
  - apply (proj1 (proj2 (proj2 (get_camera_motions_shapes
                                  (always (PDict [("camera_motions",
                                     PList [PStr "static";
                                            PDict [("id", PStr "m2"); ("name", PStr "spin")];
                                            PDict [("id", PStr "zoom")]])]))
                                  mock_env None "test-key" [] _ eq_refl eq_refl)))
             [("camera_motions",
               PList [PStr "static";
                      PDict [("id", PStr "m2"); ("name", PStr "spin")];
                      PDict [("id", PStr "zoom")]])]
             [PStr "static";
              PDict [("id", PStr "m2"); ("name", PStr "spin")];
              PDict [("id", PStr "zoom")]]); [reflexivity |].
    right. split; [reflexivity |]. left. reflexivity.
Defined.

(** *** add_audio: the body of the request *)

Lemma lookup_copy_truthy (k key : string) (parameters data : dict) :
  lookup k (copy_truthy key parameters data) =
  if String.eqb k key
  then match lookup key parameters with
       | Some v => if truthy v then Some v else lookup k data
       | None => lookup k data
       end
  else lookup k data.
Proof.
  unfold copy_truthy. destruct (String.eqb_spec k key) as [-> | Hne].
  - destruct (lookup key parameters) as [v |]; [| reflexivity].
    destruct (truthy v); [apply lookup_set_same | reflexivity].
  - destruct (lookup key parameters) as [v |]; [| reflexivity].
    destruct (truthy v); [| reflexivity].
    apply lookup_set_other. now apply String.eqb_neq.
Qed.

(** X13: with a credential, a generation id and a prompt, [add_audio] sends
    one POST request to the audio address of the generation; its body holds
    the prompt, holds negative_prompt and callback_url exactly when the
    arguments give them a truthy value, unchanged, and holds no other
    key. *)
Theorem add_audio_body
    (upstream : nat -> outcome) (env_key api_key : option string) (key : string)
    (parameters : dict) :
  let generation_id := get "generation_id" PNone parameters in
  let prompt := get "prompt" PNone parameters in
  credential env_key api_key = Some key ->
  truthy generation_id = true ->
  truthy prompt = true ->
  exists body,
    requests (snd (add_audio upstream env_key parameters api_key [])) =
    [Req "POST" (base_url ++ "/generations/" ++ str generation_id ++ "/audio") key
       (Some (PDict body)) None]
    /\ lookup "prompt" body = Some prompt
    /\ (forall k, k = "negative_prompt" \/ k = "callback_url" ->
                  lookup k body =
                  match lookup k parameters with
                  | Some v => if truthy v then Some v else None
                  | None => None
                  end)
    /\ (forall k v, lookup k body = Some v ->
                    k = "prompt" \/ k = "negative_prompt" \/ k = "callback_url").
Proof.
  intros generation_id prompt Hkey Hid Hp.
  exists (copy_truthy "callback_url" parameters
            (copy_truthy "negative_prompt" parameters [("prompt", prompt)])).
  split; [| split; [| split]].
  - unfold add_audio. cbv zeta. fold generation_id prompt. rewrite Hid, Hp. cbn [negb].
    rewrite (sends_once upstream env_key api_key key Hkey);
      [reflexivity | intros v; silent_steps | intros e; silent_steps].
  - rewrite !lookup_copy_truthy. reflexivity.
  - intros k [-> | ->]; rewrite !lookup_copy_truthy; cbn [String.eqb Ascii.eqb Bool.eqb lookup];
      destruct (lookup _ parameters) as [v |]; try reflexivity;
      destruct (truthy v); reflexivity.
  - intros k v. rewrite !lookup_copy_truthy. cbn [lookup].
    destruct (String.eqb_spec k "callback_url") as [-> | _]; [tauto |].
    destruct (String.eqb_spec k "negative_prompt") as [-> | _]; [tauto |].
    destruct (String.eqb_spec k "prompt") as [-> | _]; [tauto | discriminate].
Qed.

Lemma add_audio_body_witness :
  exists body,
    requests (snd (add_audio (always MOCK_UPSCALE_RESPONSE) mock_env
                     [("generation_id", PStr "test-id");
                      ("prompt", PStr "create epic background music");
                      ("negative_prompt", PStr "");
                      ("callback_url", PStr "https://example.com/done")] None [])) =
    [Req "POST" (base_url ++ "/generations/test-id/audio") "test-key"
       (Some (PDict body)) None]
    /\ lookup "prompt" body = Some (PStr "create epic background music")
    /\ lookup "negative_prompt" body = None
    /\ lookup "callback_url" body = Some (PStr "https://example.com/done").
Proof.
  destruct (add_audio_body (always MOCK_UPSCALE_RESPONSE) mock_env None "test-key"
              [("generation_id", PStr "test-id");
               ("prompt", PStr "create epic background music");
               ("negative_prompt", PStr "");
               ("callback_url", PStr "https://example.com/done")]
              eq_refl eq_refl eq_refl) as (body & Hreq & Hp & Hopt & _).
  exists body. split; [exact Hreq |]. split; [exact Hp |]. split.
  - exact (Hopt "negative_prompt" (or_introl eq_refl)).
  - exact (Hopt "callback_url" (or_intror eq_refl)).
Defined.

(** *** create_generation: the optional parameters *)

Lemma lookup_copy_optional (k : string) (parameters data : dict) :
  lookup k (copy_optional parameters data) =
  if existsb (String.eqb k) optional_params
  then match lookup k parameters with
       | Some v => if is_none v then lookup k data else Some v
       | None => lookup k data
       end
  else lookup k data.
Proof.
  unfold copy_optional. generalize optional_params as names. intros names.
  revert data. induction names as [| n names IH]; intros data; [reflexivity |].
  cbn [fold_left existsb]. rewrite IH. clear IH.
  assert (Hstep : lookup k
                    match lookup n parameters with
                    | Some v => if is_none v then data else set n v data
                    | None => data
                    end =
                  if String.eqb k n
                  then match lookup k parameters with
                       | Some v => if is_none v then lookup k data else Some v
                       | None => lookup k data
                       end
                  else lookup k data).
  { destruct (String.eqb_spec k n) as [-> | Hne].
    - destruct (lookup n parameters) as [v |]; [| reflexivity].
      destruct (is_none v); [reflexivity | apply lookup_set_same].
    - destruct (lookup n parameters) as [v |]; [| reflexivity].
      destruct (is_none v); [reflexivity |].
      apply lookup_set_other. now apply String.eqb_neq. }
  rewrite Hstep.
  destruct (String.eqb k n), (existsb (String.eqb k) names); cbn [orb];
    try reflexivity;
    destruct (lookup k parameters) as [v |]; try reflexivity;
    destruct (is_none v); reflexivity.
Qed.

(** A handler that calls the gateway once, from any trace. *)
Lemma sends_once_from
    (upstream : nat -> outcome) (env_key api_key : option string) (key : string)
    (method endpoint : string) (json_body params : option pyval)
    {B} (k : pyval -> M B) (h : exn -> M B) (tr : trace) :
  credential env_key api_key = Some key ->
  (forall v, adds (at_most 0) (k v)) ->
  (forall e, adds (at_most 0) (h e)) ->
  exists added,
    snd (try_except
           (bind (_make_luma_request upstream env_key method endpoint api_key
                    json_body params) k) h tr) = (tr ++ added)%list
    /\ requests added = [Req method (base_url ++ "/" ++ endpoint) key json_body params].
Proof.
  intros Hkey Hk Hh. unfold try_except, bind.
  rewrite (gateway_run _ _ _ _ _ key) by exact Hkey.
  destruct (gateway_result (upstream (List.length (requests tr)))) as [v | e].
  - destruct (k v _) as [[b | e] tr'] eqn:Hrun;
      destruct (Hk _ _ _ _ Hrun) as (added & -> & Ha); unfold at_most in Ha.
    + cbn [snd]. eexists. rewrite <- app_assoc. split; [reflexivity |].
      trace_norm. destruct (requests added); [reflexivity | cbn in Ha; lia].
    + destruct (h e _) as [r2 tr2] eqn:Hrun2.
      destruct (Hh _ _ _ _ Hrun2) as (added2 & -> & Ha2); unfold at_most in Ha2.
      cbn [snd]. eexists. rewrite <- !app_assoc. split; [reflexivity |].
      trace_norm.
      destruct (requests added); [| cbn in Ha; lia].
      destruct (requests added2); [reflexivity | cbn in Ha2; lia].
  - destruct (h e _) as [r2 tr2] eqn:Hrun2.
    destruct (Hh _ _ _ _ Hrun2) as (added2 & -> & Ha2); unfold at_most in Ha2.
    cbn [snd]. eexists. rewrite <- !app_assoc. split; [reflexivity |].
    trace_norm. destruct (requests added2); [reflexivity | cbn in Ha2; lia].
Qed.

(** Without keyframes the body is built from the prompt, the model and the
    optional parameters alone, after at most a warning about the duration. *)
Lemma create_generation_data_plain (parameters : dict) :
  truthy (get "prompt" PNone parameters) = true ->
  truthy (get "keyframes" PNone parameters) = false ->
  exists warning,
    create_generation_data parameters [] =
    (Ok (get "prompt" PNone parameters, base_data parameters), warning)
    /\ requests warning = []
    /\ (forall duration,
          lookup "duration" parameters = Some duration ->
          is_none duration = false ->
          in_strs duration ["5s"; "9s"] = false ->
          warning =
          [Log WARNING ("Unsupported duration value: " ++ str duration
                        ++ ". Only '5s' or '9s' are supported.")]).
Proof.
  intros Hp Hkf.
  assert (Hadd : forall data t, add_keyframes parameters data t = (Ok data, t)).
  { intros data t. unfold add_keyframes. unfold get in Hkf.
    destruct (lookup "keyframes" parameters) as [v |]; [| reflexivity].
    now rewrite Hkf. }
  unfold create_generation_data. rewrite Hp. cbn [negb]. cbv zeta.
  fold (base_data parameters). unfold bind at 1.
  destruct (lookup "duration" parameters) as [duration |];
    [destruct (negb (is_none duration) && negb (in_strs duration ["5s"; "9s"])) eqn:Hw |];
    cbv [log emit ret]; cbn [app]; unfold bind; rewrite Hadd;
    eexists; (split; [reflexivity |]); (split; [reflexivity |]);
    intros d Hd Hn Hu; try discriminate Hd.
  - inversion Hd. reflexivity.
  - inversion Hd; subst d. rewrite Hn, Hu in Hw. discriminate Hw.
Qed.

(** X14: with a credential and a prompt, and no keyframes, the body
    [create_generation] sends holds the prompt, the model (ray-2 when none
    is given), each of resolution, duration, aspect_ratio, loop and
    callback_url exactly when the arguments give it a value other than
    None, unchanged, and no other key; a duration other than 5s and 9s is
    sent all the same, after a warning. *)
Theorem create_generation_body
    (upstream : nat -> outcome) (env_key api_key : option string) (key : string)
    (parameters : dict) :
  let prompt := get "prompt" PNone parameters in
  let tr := snd (create_generation upstream env_key parameters api_key []) in
  credential env_key api_key = Some key ->
  truthy prompt = true ->
  truthy (get "keyframes" PNone parameters) = false ->
  exists body,
    requests tr = [Req "POST" (base_url ++ "/generations") key (Some (PDict body)) None]
    /\ lookup "prompt" body = Some prompt
    /\ lookup "model" body = Some (get "model" (PStr "ray-2") parameters)
    /\ (forall k, In k optional_params ->
                  lookup k body =
                  match lookup k parameters with
                  | Some v => if is_none v then None else Some v
                  | None => None
                  end)
    /\ (forall k v, lookup k body = Some v ->
                    k = "prompt" \/ k = "model" \/ In k optional_params)
    /\ (forall duration,
          lookup "duration" parameters = Some duration ->
          is_none duration = false ->
          in_strs duration ["5s"; "9s"] = false ->
          hd_error tr =
          Some (Log WARNING ("Unsupported duration value: " ++ str duration
                             ++ ". Only '5s' or '9s' are supported."))).
Proof.
  intros prompt tr Hkey Hp Hkf. subst tr.
  destruct (create_generation_data_plain parameters Hp Hkf) as (warning & Hdata & Hq & Hw).
  assert (Hrun : exists added,
             snd (create_generation upstream env_key parameters api_key []) =
             (warning ++ added)%list
             /\ requests added =
                [Req "POST" (base_url ++ "/" ++ "generations") key
                   (Some (PDict (base_data parameters))) None]).
  { unfold create_generation, try_except at 1, bind at 1. rewrite Hdata.
    apply (sends_once_from upstream env_key api_key key "POST" "generations"
             (Some (PDict (base_data parameters))) None
             (create_generation_render parameters (base_data parameters) prompt)
             (fun e =>
                log ERROR ("Error in create_generation: " ++ exn_msg e) ;;
                ret ("Error creating generation: " ++ exn_msg e)) warning Hkey);
      intros ?; unfold create_generation_render, keyframe_info; cbv zeta;
      silent_steps. }
  destruct Hrun as (added & Hrun & Hreq).
  exists (base_data parameters).
  assert (Hopt : forall k, In k optional_params ->
                           existsb (String.eqb k) optional_params = true).
  { intros k Hin. apply existsb_exists. exists k.
    split; [exact Hin | apply String.eqb_refl]. }
  unfold base_data at 2 3 4 5. fold prompt.
  split; [| split; [| split; [| split; [| split]]]].
  - rewrite Hrun, requests_app, Hq. exact Hreq.
  - rewrite lookup_copy_optional. reflexivity.
  - rewrite lookup_copy_optional. reflexivity.
  - intros k Hin. rewrite lookup_copy_optional, (Hopt k Hin).
    assert (Hk : lookup k [("prompt", prompt);
                           ("model", get "model" (PStr "ray-2") parameters)] = None).
    { unfold optional_params in Hin. cbn [In] in Hin.
      repeat (destruct Hin as [<- | Hin]; [reflexivity |]). destruct Hin. }
    rewrite Hk. destruct (lookup k parameters) as [v |]; [| reflexivity].
    destruct (is_none v); reflexivity.
  - intros k v. rewrite lookup_copy_optional.
    destruct (existsb (String.eqb k) optional_params) eqn:Hex.
    + intros _. apply existsb_exists in Hex as (n & Hin & Heq).
      apply String.eqb_eq in Heq. subst n. tauto.
    + cbn [lookup].
      destruct (String.eqb_spec k "prompt") as [-> | _]; [tauto |].
      destruct (String.eqb_spec k "model") as [-> | _]; [tauto | discriminate].
  - intros duration Hd Hn Hu. rewrite Hrun, (Hw duration Hd Hn Hu). reflexivity.
Qed.

Lemma create_generation_body_witness :
  let parameters :=
    [("prompt", PStr "p"); ("duration", PStr "10s"); ("loop", PNone)] in
  let tr :=
    snd (create_generation (always MOCK_GENERATION_RESPONSE) mock_env parameters None [])
  in
  exists body,
    requests tr =
    [Req "POST" (base_url ++ "/generations") "test-key" (Some (PDict body)) None]
    /\ lookup "duration" body = Some (PStr "10s")
    /\ lookup "loop" body = None
    /\ hd_error tr =
       Some (Log WARNING "Unsupported duration value: 10s. Only '5s' or '9s' are supported.").
Proof.
  cbv zeta.
  destruct (create_generation_body (always MOCK_GENERATION_RESPONSE) mock_env None
              "test-key" [("prompt", PStr "p"); ("duration", PStr "10s"); ("loop", PNone)]
              eq_refl eq_refl eq_refl) as (body & Hreq & _ & _ & Hopt & _ & Hwarn).
  exists body. split; [exact Hreq |]. split; [| split].
  - apply (Hopt "duration"). cbn. tauto.
  - apply (Hopt "loop"). cbn. tauto.
  - apply (Hwarn (PStr "10s")); reflexivity.
Defined.

(** *** create_generation: keyframes of the wrong type *)

(** X15: with a prompt, a truthy keyframes argument that is not a mapping
    is refused with "keyframes must be an object", and a keyframes mapping
    whose frame0 (or, frame0 being an object or absent, whose frame1) is
    not an object is refused with the text of the attribute error on its
    type; neither makes a network attempt. *)
Theorem create_generation_ill_typed_keyframes
    (upstream : nat -> outcome) (env_key api_key : option string)
    (parameters : dict) (keyframes : pyval) :
  truthy (get "prompt" PNone parameters) = true ->
  lookup "keyframes" parameters = Some keyframes ->
  let refused reason :=
    exists tr,
      create_generation upstream env_key parameters api_key [] =
      (Ok ("Error creating generation: " ++ reason), tr)
      /\ requests tr = [] in
  (truthy keyframes = true -> is_dict keyframes = false ->
   refused "keyframes must be an object")
  /\ (forall kf frame0,
        keyframes = PDict kf -> lookup "frame0" kf = Some frame0 ->
        is_dict frame0 = false ->
        refused ("'" ++ type_name frame0 ++ "' object has no attribute 'get'"))
  /\ (forall kf frame1,
        keyframes = PDict kf -> frame_ok "frame0" kf = true ->
        lookup "frame1" kf = Some frame1 -> is_dict frame1 = false ->
        refused ("'" ++ type_name frame1 ++ "' object has no attribute 'get'")).
Proof.
  intros Hp Hkf refused. subst refused. cbv beta.
  destruct (create_generation_data_run parameters [] Hp) as (tr1 & Hq & Hd).
  cbn [requests] in Hq.
  assert (Hrun : forall e tr2,
             add_keyframes parameters (base_data parameters) tr1 = (Raise e, tr2) ->
             create_generation upstream env_key parameters api_key [] =
             (Ok ("Error creating generation: " ++ exn_msg e),
              (tr2 ++ [Log ERROR ("Error in create_generation: " ++ exn_msg e)])%list)).
  { intros e tr2 Ha. unfold create_generation, try_except, bind at 1. rewrite Hd.
    unfold bind at 1. rewrite Ha. reflexivity. }
  clear Hd. repeat split.
  - intros Ht Hnd. eexists. split.
    + apply (Hrun (Exn ValueError "keyframes must be an object")).
      unfold add_keyframes. rewrite Hkf, Ht.
      destruct keyframes; try discriminate Hnd; reflexivity.
    + trace_norm. exact Hq.
  - intros kf frame0 -> H0 Hnd.
    assert (Ht : truthy (PDict kf) = true)
      by (destruct kf; [discriminate H0 | reflexivity]).
    eexists. split.
    + apply (Hrun (Exn AttributeError
                     ("'" ++ type_name frame0 ++ "' object has no attribute 'get'"))).
      unfold add_keyframes. rewrite Hkf, Ht. cbn [existsb]. unfold mem at 1.
      rewrite H0. cbn [orb negb]. unfold keyframe_log_info. rewrite H0.
      destruct frame0; try discriminate Hnd; reflexivity.
    + trace_norm. exact Hq.
  - intros kf frame1 -> H0 H1 Hnd.
    assert (Ht : truthy (PDict kf) = true)
      by (destruct kf; [discriminate H1 | reflexivity]).
    eexists. split.
    + apply (Hrun (Exn AttributeError
                     ("'" ++ type_name frame1 ++ "' object has no attribute 'get'"))).
      unfold add_keyframes. rewrite Hkf, Ht. cbn [existsb]. unfold mem.
      rewrite H1. rewrite orb_false_r, orb_true_r. cbn [negb].
      unfold keyframe_log_info, frame_ok in *. rewrite H1.
      destruct (lookup "frame0" kf) as [[| | | | | | f0] |]; try discriminate H0;
        destruct frame1; try discriminate Hnd; reflexivity.
    + trace_norm. exact Hq.
Qed.

Lemma create_generation_ill_typed_keyframes_witness :
  (exists tr,
     create_generation (always MOCK_GENERATION_RESPONSE) mock_env
       [("prompt", PStr "p"); ("keyframes", PStr "frame0")] None [] =
     (Ok "Error creating generation: keyframes must be an object", tr)
     /\ requests tr = [])
  /\ (exists tr,
        create_generation (always MOCK_GENERATION_RESPONSE) mock_env
          (with_keyframes [("frame0", PStr "https://example.com/image.jpg")]) None [] =
        (Ok "Error creating generation: 'str' object has no attribute 'get'", tr)
        /\ requests tr = []).
Proof.
  split.
  - apply (proj1 (create_generation_ill_typed_keyframes
                    (always MOCK_GENERATION_RESPONSE) mock_env None
                    [("prompt", PStr "p"); ("keyframes", PStr "frame0")] (PStr "frame0")
                    eq_refl eq_refl)); reflexivity.
  - apply (proj1 (proj2 (create_generation_ill_typed_keyframes
                           (always MOCK_GENERATION_RESPONSE) mock_env None
                           (with_keyframes [("frame0", PStr "https://example.com/image.jpg")])
                           (PDict [("frame0", PStr "https://example.com/image.jpg")])
                           eq_refl eq_refl))
             [("frame0", PStr "https://example.com/image.jpg")]
             (PStr "https://example.com/image.jpg")); reflexivity.
Defined.

(** *** The dispatch *)

(** Every handler returns a text, from any trace. *)
Lemma handler_returns
    (upstream : nat -> outcome) (env_key : option string)
    (name : LumaTools) (parameters : dict) (api_key : option string) (tr : trace) :
  exists text tr', handler upstream env_key name parameters api_key tr = (Ok text, tr').
Proof.
  destruct name; cbn [handler];
    match goal with
    | |- context [?h upstream env_key parameters api_key tr] => unfold h
    end;
    cbv zeta;
    match goal with
    | |- context [try_except ?m ?h tr] =>
        destruct (try_except_total m h (fun _ => True) tr) as (text & tr' & Hrun & _);
        [| exists text, tr'; exact Hrun ]
    end;
    intros e tr1;
    first [ destruct (upscale_error_recovers parameters e tr1) as (a & tr2 & H & _);
            exists a, tr2; split; [exact H | exact I]
          | cbv [bind log emit ret]; eexists; eexists; split; [reflexivity | exact I] ].
Qed.

(** A name that a case of [call_tool] matches is the name of a listed
    tool. *)
Lemma matched_is_listed (name : string) (t : LumaTools) :
  find (fun t => String.eqb name (tool_value t)) cases = Some t ->
  In name listed.
Proof.
  intros H. apply find_some in H as [_ H]. apply String.eqb_eq in H. subst name.
  destruct t; cbn; tauto.
Qed.

(** X16: [call_tool] serves exactly the tools [list_tools] advertises, each
    by the function of its name.  The names listed are ping,
    create_generation, get_generation, list_generations, delete_generation,
    upscale_generation, add_audio, generate_image, get_credits and
    get_camera_motions; called by one of them, [call_tool] logs the call,
    runs the function of that name on the arguments with the server's key
    and returns its text as one text content, and never raises.  Called by
    any other name, it raises the ValueError "Unknown tool: <name>" after
    logging the call. *)
Theorem call_tool_serves_listed_tools
    (upstream : nat -> outcome) (env_key api_key : option string)
    (name : string) (arguments : dict) (tr : trace) :
  let logged := (tr ++ [tool_call name arguments])%list in
  map fst (served upstream env_key) = listed
  /\ (forall tool, In (name, tool) (served upstream env_key) ->
      exists text tr',
        tool arguments api_key logged = (Ok text, tr')
        /\ call_tool upstream env_key api_key name arguments tr =
           (Ok [MkTextContent "text" text], tr'))
  /\ (~ In name listed ->
      call_tool upstream env_key api_key name arguments tr =
      (Raise (Exn ValueError ("Unknown tool: " ++ name)), logged)).
Proof.
  intros logged. split; [reflexivity |]. split.
  - intros tool Hin.
    assert (Hcase : exists t,
               find (fun t' => String.eqb name (tool_value t')) cases = Some t
               /\ tool = handler upstream env_key t).
    { cbn [served In] in Hin.
      repeat (destruct Hin as [Hin | Hin];
              [injection Hin as <- <-; eexists; split; reflexivity |]).
      destruct Hin. }
    destruct Hcase as (t & Hfind & ->).
    destruct (handler_returns upstream env_key t arguments api_key logged)
      as (text & tr' & Hrun).
    exists text, tr'. split; [exact Hrun |].
    unfold call_tool, bind at 1, log, emit. fold (tool_call name arguments).
    fold logged. rewrite Hfind. unfold bind. rewrite Hrun. reflexivity.
  - intros Hno. unfold call_tool, bind at 1, log, emit. fold (tool_call name arguments).
    fold logged.
    destruct (find (fun t => String.eqb name (tool_value t)) cases) as [t |] eqn:Hfind.
    + exfalso. apply Hno. exact (matched_is_listed name t Hfind).
    + reflexivity.
Qed.

Lemma call_tool_serves_listed_tools_witness :
  (exists text tr',
     get_credits (always MOCK_CREDITS_RESPONSE) mock_env [] None
       [tool_call "get_credits" []] = (Ok text, tr')
     /\ call_tool (always MOCK_CREDITS_RESPONSE) mock_env None "get_credits" [] [] =
        (Ok [MkTextContent "text" text], tr'))
  /\ call_tool (always MOCK_CREDITS_RESPONSE) mock_env None "credits" [] [] =
     (Raise (Exn ValueError "Unknown tool: credits"),
      [Log DEBUG "Tool call: credits with arguments {}"]).
Proof.
  split.
  - apply (proj1 (proj2 (call_tool_serves_listed_tools (always MOCK_CREDITS_RESPONSE)
                           mock_env None "get_credits" [] []))
             (get_credits (always MOCK_CREDITS_RESPONSE) mock_env)).
    cbn. tauto.
  - apply (proj2 (proj2 (call_tool_serves_listed_tools (always MOCK_CREDITS_RESPONSE)
                           mock_env None "credits" [] []))).
    cbn. intros H. repeat (destruct H as [H | H]; [discriminate H |]). exact H.
Defined.

(** *** A reply that is not an object *)

(** X17: a reply the gateway accepts and that is not an object (a list, a
    string, a number, null) is treated in two ways.  [get_generation] and
    [create_generation] answer with an error text that names the type of
    the reply, although nothing was raised; [upscale_generation],
    [add_audio], [generate_image] and [get_credits] answer as for a success
    and quote the reply. *)
Theorem reply_that_is_no_object
    (upstream : nat -> outcome) (env_key api_key : option string) (key : string)
    (parameters : dict) (v : pyval) :
  let generation_id := get "generation_id" PNone parameters in
  let prompt := get "prompt" PNone parameters in
  let resolution := get "resolution" PNone parameters in
  let refused :=
    "Error: Unexpected response format from Luma API. Got " ++ type_name v
    ++ " instead of dict." in
  credential env_key api_key = Some key ->
  returns (upstream 0%nat) v ->
  is_dict v = false ->
  (truthy generation_id = true ->
   fst (get_generation upstream env_key parameters api_key []) = Ok refused)
  /\ (forall pd tr1, create_generation_data parameters [] = (Ok pd, tr1) ->
      fst (create_generation upstream env_key parameters api_key []) = Ok refused)
  /\ (truthy generation_id = true ->
      in_strs resolution valid_resolutions = true ->
      fst (upscale_generation upstream env_key parameters api_key []) =
      Ok ("Upscale initiated for generation " ++ str generation_id
          ++ ". Response: " ++ str v))
  /\ (truthy generation_id = true ->
      truthy prompt = true ->
      fst (add_audio upstream env_key parameters api_key []) =
      Ok ("Audio generation initiated for generation " ++ str generation_id
          ++ ". Response: " ++ str v))
  /\ (truthy prompt = true ->
      fst (generate_image upstream env_key parameters api_key []) =
      Ok ("Image generation completed for prompt: " ++ str prompt
          ++ ". Response: " ++ str v))
  /\ fst (get_credits upstream env_key parameters api_key []) =
     Ok ("Credit Information: " ++ str v).
Proof.
  intros generation_id prompt resolution refused Hkey Hv Hnd.
  assert (Hv0 : gateway_result (upstream (List.length (requests []))) = Ok v)
    by exact Hv.
  repeat split.
  - intros Hid. unfold get_generation. cbv zeta. fold generation_id. rewrite Hid.
    cbn [negb]. unfold try_except.
    rewrite (gateway_then _ _ _ key Hkey _ _ _ _ _ [] v Hv0).
    destruct v; try discriminate Hnd; reflexivity.
  - intros [p data] tr1 Hdata.
    destruct (create_generation_run upstream env_key api_key key Hkey parameters
                p data tr1 v Hdata Hv) as (tr2 & _ & ->).
    destruct v; try discriminate Hnd; reflexivity.
  - intros Hid Hres. unfold upscale_generation. cbv zeta.
    fold generation_id resolution. rewrite Hid, Hres.
    rewrite (valid_resolution_truthy _ Hres). cbn [negb]. unfold try_except, bind.
    rewrite (upscale_request_done upstream env_key api_key key Hkey _ _ _ [] v Hv0).
    destruct v; try discriminate Hnd; reflexivity.
  - intros Hid Hp. unfold add_audio. cbv zeta. fold generation_id prompt.
    rewrite Hid, Hp. cbn [negb]. unfold try_except.
    rewrite (gateway_then _ _ _ key Hkey _ _ _ _ _ [] v Hv0).
    destruct v; try discriminate Hnd; reflexivity.
  - intros Hp.
    destruct (generate_image_data parameters []) as [[[p data] | e] tr1] eqn:Hdata.
    + pose proof (quiet_requests _ _ _ _ (quiet_generate_image_data parameters) Hdata)
        as Hq.
      cbn [requests] in Hq.
      assert (Hprompt : p = prompt).
      { unfold generate_image_data in Hdata. cbv zeta in Hdata. fold prompt in Hdata.
        rewrite Hp in Hdata. cbn [negb] in Hdata.
        destruct (negb (in_strs (get "model" (PStr "photon-1") parameters) image_models));
          cbv [bind log emit ret] in Hdata; congruence. }
      subst p.
      unfold generate_image, try_except, bind at 1. rewrite Hdata.
      assert (Hv1 : gateway_result (upstream (List.length (requests tr1))) = Ok v)
        by (rewrite Hq; exact Hv).
      rewrite (gateway_then _ _ _ key Hkey _ _ _ _ _ tr1 v Hv1).
      destruct v; try discriminate Hnd; reflexivity.
    + exfalso. unfold generate_image_data in Hdata. cbv zeta in Hdata.
      fold prompt in Hdata. rewrite Hp in Hdata. cbn [negb] in Hdata.
      destruct (negb (in_strs (get "model" (PStr "photon-1") parameters) image_models));
        cbv [bind log emit ret] in Hdata; congruence.
  - unfold get_credits, try_except.
    rewrite (gateway_then _ _ _ key Hkey _ _ _ _ _ [] v Hv0).
    destruct v; try discriminate Hnd; reflexivity.
Qed.

Lemma reply_that_is_no_object_witness :
  fst (get_generation (always (PList [])) mock_env upscale_arguments None []) =
  Ok "Error: Unexpected response format from Luma API. Got list instead of dict."
  /\ fst (create_generation (always (PList [])) mock_env
            [("prompt", PStr "test prompt")] None []) =
     Ok "Error: Unexpected response format from Luma API. Got list instead of dict."
  /\ fst (upscale_generation (always (PList [])) mock_env upscale_arguments None []) =
     Ok "Upscale initiated for generation test-id. Response: []"
  /\ fst (get_credits (always (PList [])) mock_env [] None []) =
     Ok "Credit Information: []".
Proof.
  destruct (reply_that_is_no_object (always (PList [])) mock_env None "test-key"
              upscale_arguments (PList []) eq_refl eq_refl eq_refl)
    as (Hget & _ & Hup & _ & _ & _).
  destruct (reply_that_is_no_object (always (PList [])) mock_env None "test-key"
              [("prompt", PStr "test prompt")] (PList []) eq_refl eq_refl eq_refl)
    as (_ & Hcreate & _).
  destruct (reply_that_is_no_object (always (PList [])) mock_env None "test-key"
              [] (PList []) eq_refl eq_refl eq_refl)
    as (_ & _ & _ & _ & _ & Hcredits).
  split; [exact (Hget eq_refl) |].
  split; [exact (Hcreate _ _ eq_refl) |].
  split; [exact (Hup eq_refl eq_refl) | exact Hcredits].
Defined.

(** *** generate_image: the model sent and the model reported *)

(** X18: the model [generate_image] reports is not always the model it
    sent.  With a credential and a prompt, the body sent holds the model
    argument when it is photon-1 or photon-flash-1 and photon-1 otherwise
    (also when no model is given); when the reply is an object without a
    model, the line Model of the text prints the model argument unchanged,
    and ray-2 when no model is given. *)
Theorem generate_image_reports_argument_model
    (upstream : nat -> outcome) (env_key api_key : option string) (key : string)
    (parameters result : dict) :
  let prompt := get "prompt" PNone parameters in
  let model := get "model" (PStr "photon-1") parameters in
  let sent := if in_strs model image_models then model else PStr "photon-1" in
  let reported := get "model" (PStr "ray-2") parameters in
  let image_url :=
    match get "assets" (PDict []) result with
    | PDict assets =>
        get "image" (PStr "Image will be available when processing completes") assets
    | _ => PStr "Image will be available when processing completes"
    end in
  credential env_key api_key = Some key ->
  truthy prompt = true ->
  returns (upstream 0%nat) (PDict result) ->
  lookup "model" result = None ->
  exists tr,
    generate_image upstream env_key parameters api_key [] =
    (Ok (join nl
           ["Image generation "
            ++ with_reason (get "state" (PStr "Processing") result)
                 (get "failure_reason" (PStr "") result);
            "ID: " ++ str (get "id" (PStr "Unknown") result);
            "Created at: " ++ str (get "created_at" (PStr "Unknown") result);
            "Model: " ++ str reported;
            "Prompt: " ++ str prompt;
            "Image URL: " ++ str image_url]), tr)
    /\ requests tr =
       [Req "POST" (base_url ++ "/generations/image") key
          (Some (PDict [("prompt", prompt); ("model", sent)])) None]
    /\ (lookup "model" parameters = None ->
        sent = PStr "photon-1" /\ reported = PStr "ray-2").
Proof.
  intros prompt model sent reported image_url Hkey Hp Hv Hnone.
  assert (Hdata : exists tr1,
             generate_image_data parameters [] =
             (Ok (prompt, [("prompt", prompt); ("model", sent)]), tr1)
             /\ requests tr1 = []).
  { unfold generate_image_data. cbv zeta. fold prompt model. rewrite Hp. cbn [negb].
    subst sent. destruct (in_strs model image_models); cbv [negb bind log emit ret];
      eexists; (split; [reflexivity |]); reflexivity. }
  destruct Hdata as (tr1 & Hdata & Hq).
  unfold generate_image, try_except, bind at 1. rewrite Hdata.
  assert (Hv1 : gateway_result (upstream (List.length (requests tr1))) = Ok (PDict result))
    by (rewrite Hq; exact Hv).
  rewrite (gateway_then _ _ _ key Hkey _ _ _ _ _ tr1 _ Hv1).
  unfold generate_image_render. cbv zeta. fold prompt.
  assert (Hm : get "model" (get "model" (PStr "ray-2") parameters) result = reported).
  { unfold get at 1. now rewrite Hnone. }
  rewrite Hm. cbv [ret]. eexists. split; [reflexivity |]. split.
  - trace_norm. rewrite Hq. reflexivity.
  - intros Hnm. subst sent reported model. unfold get. rewrite Hnm. split; reflexivity.
Qed.

Lemma generate_image_reports_argument_model_witness :
  exists tr,
    generate_image (always (PDict [("id", PStr "img-1"); ("state", PStr "queued")]))
      mock_env [("prompt", PStr "a cat")] None [] =
    (Ok (join nl ["Image generation queued"; "ID: img-1"; "Created at: Unknown";
                  "Model: ray-2"; "Prompt: a cat";
                  "Image URL: Image will be available when processing completes"]), tr)
    /\ requests tr =
       [Req "POST" (base_url ++ "/generations/image") "test-key"
          (Some (PDict [("prompt", PStr "a cat"); ("model", PStr "photon-1")])) None].
Proof.
  destruct (generate_image_reports_argument_model
              (always (PDict [("id", PStr "img-1"); ("state", PStr "queued")])) mock_env
              None "test-key" [("prompt", PStr "a cat")]
              [("id", PStr "img-1"); ("state", PStr "queued")]
              eq_refl eq_refl eq_refl eq_refl) as (tr & Hrun & Hreq & _).
  exists tr. split; [exact Hrun | exact Hreq].
Defined.

(** *** get_generation: what the reply leaves out *)

(** X19: with a credential and a generation id, [get_generation] sends one
    GET request for that generation and renders any object it gets back,
    never as an error: the text begins with the line Generation ID, which
    shows the id of the reply and, when the reply has none, the id asked
    for.  For the empty object, which the gateway also returns for a reply
    without a body whatever its status, the text describes a text-to-video
    generation with the id asked for, unknown state, date, model and
    prompt, and no assets. *)
Theorem get_generation_renders_any_object
    (upstream : nat -> outcome) (env_key api_key : option string) (key : string)
    (parameters result : dict) :
  let generation_id := get "generation_id" PNone parameters in
  credential env_key api_key = Some key ->
  truthy generation_id = true ->
  returns (upstream 0%nat) (PDict result) ->
  exists text tr,
    get_generation upstream env_key parameters api_key [] = (Ok text, tr)
    /\ requests tr =
       [Req "GET" (base_url ++ "/generations/" ++ str generation_id) key None None]
    /\ startswith ("Generation ID: " ++ str (get "id" generation_id result) ++ nl) text
       = true
    /\ startswith "Error" text = false
    /\ (result = [] ->
        text = join nl ["Generation ID: " ++ str generation_id;
                        "Type: Text-to-video";
                        "State: Unknown";
                        "Created at: Unknown";
                        "Model: Unknown";
                        "Prompt: Unknown";
                        "No assets available yet"]).
Proof.
  intros generation_id Hkey Hid Hv. unfold get_generation. cbv zeta.
  fold generation_id. rewrite Hid. cbn [negb]. unfold try_except.
  rewrite (gateway_then _ _ _ key Hkey _ _ _ _ _ [] _ Hv). cbv [ret].
  eexists. eexists. split; [reflexivity |]. split; [trace_norm; reflexivity |].
  split; [| split].
  - cbn [join].
    match goal with
    | |- startswith ?p ((?a ++ ?b) ++ ?n ++ ?r) = true =>
        replace ((a ++ b) ++ n ++ r) with (p ++ r)
          by (rewrite !append_assoc; reflexivity)
    end.
    apply startswith_app.
  - reflexivity.
  - intros ->. reflexivity.
Qed.

Lemma get_generation_renders_any_object_witness :
  exists text tr,
    get_generation (fun _ => Reply (Resp 404 "" "" "" (inr "Expecting value"))) mock_env
      [("generation_id", PStr "no-such-id")] None [] = (Ok text, tr)
    /\ requests tr =
       [Req "GET" (base_url ++ "/generations/no-such-id") "test-key" None None]
    /\ text = join nl ["Generation ID: no-such-id";
                       "Type: Text-to-video";
                       "State: Unknown";
                       "Created at: Unknown";
                       "Model: Unknown";
                       "Prompt: Unknown";
                       "No assets available yet"].
Proof.
  destruct (get_generation_renders_any_object
              (fun _ => Reply (Resp 404 "" "" "" (inr "Expecting value"))) mock_env None
              "test-key" [("generation_id", PStr "no-such-id")] []
              eq_refl eq_refl eq_refl) as (text & tr & Hrun & Hreq & _ & _ & Hempty).
  exists text, tr. split; [exact Hrun |]. split; [exact Hreq | exact (Hempty eq_refl)].
Defined.
